(** * kedro-plugins: [optuna.StudyDataset] and [darts.DartsTorchModelDataset]

    A shallow embedding of the two dataset adapters

      - kedro_datasets/optuna/study_dataset.py
      - kedro_datasets_experimental/darts/darts_torch_model_dataset.py

    Python dictionaries that are mutated in place live in an explicit heap
    (locations to dictionaries), exceptions are a sum type, and every call
    into a collaborator (optuna, darts, the filesystem) is recorded in a
    trace of events.

    The methods are embedded as their bodies are written in the two
    modules. What they call but do not define (the operating system,
    sqlalchemy, optuna, darts, fsspec and the methods inherited from
    kedro's dataset classes) is a record of collaborators over an abstract
    world; [pathlib.PurePosixPath], [posixpath] and [copy.deepcopy] are
    modelled from the Python standard library. *)

From stdpp Require Import base gmap strings list fin_maps.
From Stdlib Require Import ZArith Ascii String.

Local Open Scope string_scope.
Local Open Scope list_scope.

(** ** Python values, exceptions and results *)

Definition loc := positive.

(** Values that occur in the configuration mappings. Dictionaries are
    objects: a value only holds the reference. *)
Inductive value :=
  | VNone
  | VBool (b : bool)
  | VInt (z : Z)
  | VStr (s : string)
  | VRef (l : loc).

Global Instance value_eq_dec : EqDecision value.
Proof. solve_decision. Defined.

Abbreviation dict := (gmap string value).
Abbreviation heap := (gmap loc (gmap string value)).

(** The exception classes the two modules raise or meet.
    [VersionNotFoundError] is a subclass of [DatasetError] in kedro. *)
Inductive exn :=
  | ValueError (msg : string)
  | DatasetError (msg : string)
  | VersionNotFoundError (msg : string)
  | TypeError (msg : string)
  | AttributeError (msg : string)
  | KeyError (msg : string)
  | OSError (msg : string)
  | RecursionError
  | UnboundLocalError (msg : string)
  | BackendError (cls msg : string).

Global Instance exn_eq_dec : EqDecision exn.
Proof. solve_decision. Defined.

(** [isinstance(e, DatasetError)] *)
Definition is_DatasetError (e : exn) : bool :=
  match e with
  | DatasetError _ | VersionNotFoundError _ => true
  | _ => false
  end.

Inductive result (A : Type) :=
  | Ok (a : A)
  | Raise (e : exn).
Arguments Ok {A} a.
Arguments Raise {A} e.

Definition is_Ok {A} (r : result A) : bool :=
  match r with Ok _ => true | Raise _ => false end.

(** ** POSIX paths: [posixpath] and [pathlib.PurePosixPath] *)

Module Posix.

Definition sep : ascii := "/"%char.

Definition startswith_sep (s : string) : bool :=
  match s with
  | String c _ => bool_decide (c = sep)
  | EmptyString => false
  end.

Fixpoint endswith_sep (s : string) : bool :=
  match s with
  | EmptyString => false
  | String c EmptyString => bool_decide (c = sep)
  | String _ r => endswith_sep r
  end.

(** [posixpath.join(a, *p)] *)
Definition join_step (path b : string) : string :=
  if startswith_sep b then b
  else if bool_decide (path = EmptyString) || endswith_sep path then path +:+ b
  else path +:+ "/" +:+ b.

Definition join (a : string) (p : list string) : string :=
  foldl join_step a p.

(** [posixpath.splitroot(p)], without the (always empty) drive *)
Definition splitroot (p : string) : string * string :=
  match p with
  | String c1 r1 =>
      if bool_decide (c1 = sep) then
        match r1 with
        | String c2 r2 =>
            if bool_decide (c2 = sep) then
              match r2 with
              | String c3 _ =>
                  if bool_decide (c3 = sep) then ("/", r1) else ("//", r2)
              | EmptyString => ("//", r2)
              end
            else ("/", r1)
        | EmptyString => ("/", r1)
        end
      else (EmptyString, p)
  | EmptyString => (EmptyString, p)
  end.

(** [s.split("/")] *)
Fixpoint split (s : string) : list string :=
  match s with
  | EmptyString => [EmptyString]
  | String c r =>
      if bool_decide (c = sep) then EmptyString :: split r
      else match split r with
           | x :: xs => String c x :: xs
           | [] => [String c EmptyString]
           end
  end.

(** ["/".join(parts)] *)
Fixpoint sep_join (parts : list string) : string :=
  match parts with
  | [] => EmptyString
  | [x] => x
  | x :: xs => x +:+ "/" +:+ sep_join xs
  end.

Definition keep_part (x : string) : bool :=
  negb (bool_decide (x = EmptyString)) && negb (bool_decide (x = ".")).

(** [PurePath._parse_path]: the root and the tail *)
Definition parse_path (path : string) : string * list string :=
  if bool_decide (path = EmptyString) then (EmptyString, [])
  else
    let '(root, rel) := splitroot path in
    (root, filter (λ x, Is_true (keep_part x)) (split rel)).

(** [PurePath._format_parsed_parts] followed by the [or "."] of [__str__] *)
Definition format_parsed_parts (root : string) (tail : list string) : string :=
  let s := root +:+ sep_join tail in
  if bool_decide (s = EmptyString) then "." else s.

(** A [PurePosixPath] keeps the raw segments it was built from; they are
    joined and parsed when the path is rendered. *)
Record PurePosixPath := { _raw_paths : list string }.

Definition of_str (s : string) : PurePosixPath := {| _raw_paths := [s] |}.

(** [self / key] for a string key *)
Definition truediv_str (p : PurePosixPath) (key : string) : PurePosixPath :=
  {| _raw_paths := _raw_paths p ++ [key] |}.

(** [self / key] for a path key *)
Definition truediv (p q : PurePosixPath) : PurePosixPath :=
  {| _raw_paths := _raw_paths p ++ _raw_paths q |}.

Definition joined (p : PurePosixPath) : string :=
  match _raw_paths p with
  | [] => EmptyString
  | a :: rest => join a rest
  end.

(** [str(p)] *)
Definition str (p : PurePosixPath) : string :=
  let '(root, tail) := parse_path (joined p) in
  format_parsed_parts root tail.

Fixpoint contains_sep (s : string) : bool :=
  match s with
  | EmptyString => false
  | String c r => bool_decide (c = sep) || contains_sep r
  end.

(** [p[:p.rfind("/") + 1]] *)
Fixpoint upto_last_sep (p : string) : string :=
  match p with
  | EmptyString => EmptyString
  | String c r => if contains_sep p then String c (upto_last_sep r) else EmptyString
  end.

Fixpoint all_sep (s : string) : bool :=
  match s with
  | EmptyString => true
  | String c r => bool_decide (c = sep) && all_sep r
  end.

(** [s.rstrip("/")] *)
Fixpoint rstrip_sep (s : string) : string :=
  match s with
  | EmptyString => EmptyString
  | String c r =>
      let r' := rstrip_sep r in
      if bool_decide (r' = EmptyString) && bool_decide (c = sep) then EmptyString
      else String c r'
  end.

(** [posixpath.dirname(p)] *)
Definition dirname (p : string) : string :=
  let head := upto_last_sep p in
  if negb (bool_decide (head = EmptyString)) && negb (all_sep head)
  then rstrip_sep head else head.

End Posix.


(** ** Python dictionaries on the heap *)

Module Py.

(** [bool(v)] *)
Definition truthy (h : heap) (v : value) : bool :=
  match v with
  | VNone => false
  | VBool b => b
  | VInt z => negb (Z.eqb z 0)
  | VStr s => negb (bool_decide (s = EmptyString))
  | VRef l =>
      match h !! l with
      | Some d => negb (bool_decide (d = ∅))
      | None => true
      end
  end.

(** [needle in hay] on strings *)
Fixpoint substring_of (needle hay : string) : bool :=
  String.prefix needle hay ||
  match hay with
  | EmptyString => false
  | String _ r => substring_of needle r
  end.

(** A new dictionary object *)
Definition alloc (h : heap) (d : gmap string value) : heap * loc :=
  let l := fresh (dom h) in (<[l := d]> h, l).

(** [k in v] *)
Definition contains (h : heap) (v : value) (k : string) : result bool :=
  match v with
  | VRef l =>
      match h !! l with
      | Some d => Ok (bool_decide (is_Some (d !! k)))
      | None => Raise (TypeError "argument is not iterable")
      end
  | VStr s => Ok (substring_of k s)
  | _ => Raise (TypeError "argument is not iterable")
  end.

(** [v.pop(k)]: removes the key from the object [v] refers to *)
Definition pop (h : heap) (v : value) (k : string) : heap * result value :=
  match v with
  | VRef l =>
      match h !! l with
      | Some d =>
          match d !! k with
          | Some x => (<[l := delete k d]> h, Ok x)
          | None => (h, Raise (KeyError k))
          end
      | None => (h, Raise (AttributeError "pop"))
      end
  | _ => (h, Raise (AttributeError "pop"))
  end.

(** The keyword arguments the mapping [v] unpacks to *)
Definition kwargs (h : heap) (v : value) : result (gmap string value) :=
  match v with
  | VRef l =>
      match h !! l with
      | Some d => Ok d
      | None => Raise (TypeError "argument after ** must be a mapping")
      end
  | _ => Raise (TypeError "argument after ** must be a mapping")
  end.

(** [d.pop(k, default)] on a dictionary held by value: the popped value and
    the remaining entries *)
Definition pop_default (d : gmap string value) (k : string) (dflt : value)
  : value * gmap string value :=
  (default dflt (d !! k), delete k d).

(** The loop of [_deepcopy_dict]: [y[key] = deepcopy(value, memo)] for
    every item of the original, into the new object [y]. *)
Fixpoint copy_items
    (deepcopy : heap → gmap loc loc → value → heap * gmap loc loc * result value)
    (y : loc) (items : list (string * value)) (h : heap) (memo : gmap loc loc)
  : heap * gmap loc loc * result value :=
  match items with
  | [] => (h, memo, Ok (VRef y))
  | (k, v) :: rest =>
      match deepcopy h memo v with
      | (h', memo', Ok v') =>
          copy_items deepcopy y rest (alter (insert k v') y h') memo'
      | (h', memo', Raise e) => (h', memo', Raise e)
      end
  end.

(** [copy.deepcopy(x, memo)]. Atomic values are their own copy. A
    dictionary is copied into a new object that is entered in the memo
    before its items are copied into it. [depth] is the interpreter's
    recursion limit. *)
Fixpoint deepcopy_memo (depth : nat) (h : heap) (memo : gmap loc loc) (x : value)
  : heap * gmap loc loc * result value :=
  match x with
  | VRef l =>
      match memo !! l with
      | Some l' => (h, memo, Ok (VRef l'))
      | None =>
          match depth with
          | O => (h, memo, Raise RecursionError)
          | S depth' =>
              match h !! l with
              | None => (h, memo, Raise (TypeError "cannot copy object"))
              | Some d =>
                  let y := fresh (dom h) in
                  copy_items (deepcopy_memo depth') y (map_to_list d)
                    (<[y := ∅]> h) (<[l := y]> memo)
              end
          end
      end
  | _ => (h, memo, Ok x)
  end.

Definition deepcopy (depth : nat) (h : heap) (x : value) : heap * result value :=
  let '(h', _, r) := deepcopy_memo depth h ∅ x in (h', r).

End Py.

(** ** Effects: a state and exception monad

    The state holds the heap of dictionaries, the world of the
    collaborators and the trace of the calls made to them. *)

Record state (W E : Type) := mkState { hp : heap; wd : W; tr : list E }.
Arguments mkState {W E} hp wd tr.
Arguments hp {W E} s.
Arguments wd {W E} s.
Arguments tr {W E} s.

Definition M (W E A : Type) : Type := state W E → state W E * result A.

Module Eff.
Section eff.
Context {W E : Type}.

Definition ret {A} (a : A) : M W E A := λ s, (s, Ok a).

Definition raise {A} (e : exn) : M W E A := λ s, (s, Raise e).

Definition bind {A B} (m : M W E A) (k : A → M W E B) : M W E B :=
  λ s, match m s with
       | (s', Ok a) => k a s'
       | (s', Raise e) => (s', Raise e)
       end.

Definition lift {A} (r : result A) : M W E A := λ s, (s, r).

(** A call to a collaborator: logged, then run on the world. *)
Definition call {A} (e : E) (f : W → W * result A) : M W E A :=
  λ s, let '(w, r) := f (wd s) in (mkState (hp s) w (tr s ++ [e]), r).

(** A call that only reads the world. *)
Definition query {A} (e : E) (f : W → result A) : M W E A :=
  λ s, (mkState (hp s) (wd s) (tr s ++ [e]), f (wd s)).

(** An operation on the heap of dictionaries. *)
Definition on_heap {A} (f : heap → heap * result A) : M W E A :=
  λ s, let '(h, r) := f (hp s) in (mkState h (wd s) (tr s), r).

Definition read_heap {A} (f : heap → A) : M W E A :=
  λ s, (s, Ok (f (hp s))).

(** [try: m  except <classes p>: handler] *)
Definition try_except {A} (m : M W E A) (p : exn → bool) (handler : M W E A)
  : M W E A :=
  λ s, match m s with
       | (s', Raise e) => if p e then handler s' else (s', Raise e)
       | (s', Ok a) => (s', Ok a)
       end.

End eff.
End Eff.

Notation "'let!' x ':=' m 'in' k" := (Eff.bind m (λ x, k))
  (at level 10, x name, m at level 100, k at level 200).

(** ** The part of kedro's [AbstractVersionedDataset] the datasets rely on *)

Module Kedro.

(** [kedro.io.core.Version], a named tuple *)
Record Version := mkVersion { load : option string; save : option string }.

(** Truth value of an optional version token: [None] and the empty string
    are false. *)
Definition token_truthy (o : option string) : option string :=
  match o with
  | Some s => if bool_decide (s = EmptyString) then None else Some s
  | None => None
  end.

Definition HTTP_PROTOCOLS : list string := ["http"; "https"].
Definition PROTOCOL_DELIMITER : string := "://".

(** [kedro.io.core.get_filepath_str] *)
Definition get_filepath_str (raw_path : Posix.PurePosixPath) (protocol : string) : string :=
  let path := Posix.str raw_path in
  if bool_decide (protocol ∈ HTTP_PROTOCOLS)
  then protocol +:+ PROTOCOL_DELIMITER +:+ path
  else path.

End Kedro.

(** ** [kedro_datasets.optuna.StudyDataset] *)

Module Optuna.

(** The attributes of an [optuna.Study] that [save] reads *)
Record Study := { study_name : string; _storage : string }.

End Optuna.

Module StudyDataset.

Inductive strategy := Sampler | Pruner.

(** Calls to the collaborators: the operating system, optuna and the base
    class of kedro. *)
Inductive event :=
  | EvRealpath (path : string)
  | EvIsfile (path : string)
  | EvMakedirs (path : string)
  | EvGetAllStudyNames (storage : string)
  | EvCreateStudy (storage : string)
  | EvDeleteStudy (storage study_name : string)
  | EvCopyStudy (from_study_name from_storage to_storage to_study_name : string)
  | EvLoadStudy (storage study_name : string)
  | EvConstruct (kind : strategy) (cls : string) (kw : gmap string value)
  | EvGenerateTimestamp
  | EvFetchLatestLoadVersion.

(** The instance attributes *)
Record t := {
  _backend : string;
  _database : string;
  _storage : string;
  _study_name : string;
  metadata : value;
  _filepath : option Posix.PurePosixPath;
  _version : option Kedro.Version;
  _load_args : value
}.

(** What the module imports: [os], [sqlalchemy.URL], [optuna] and the
    methods inherited from kedro's [AbstractVersionedDataset]. [W] is the
    state of the outside world, [obj] the type of sampler and pruner
    objects, [url] the type of [sqlalchemy.URL]. *)
Record collaborators (W obj url : Type) := {
  getenv : W → string → option string;
  realpath : W → string → result string;
  isfile : W → string → result bool;
  makedirs : W → string → W * result unit;
  URL_create : string → string → gmap string value → result url;
  URL_str : url → string;
  samplers : gmap string (heap → gmap string value → result obj);
  pruners : gmap string (heap → gmap string value → result obj);
  get_all_study_names : W → string → result (list string);
  create_study : W → string → W * result unit;
  delete_study : W → string → string → W * result unit;
  copy_study : W → string → string → string → string → W * result unit;
  load_study : W → string → string → option obj → option obj → result Optuna.Study;
  generate_timestamp : W → result string;
  _fetch_latest_load_version : t → W → result string;
  dataset_str : t → string;
  recursion_limit : nat
}.
Arguments getenv {W obj url} c.
Arguments realpath {W obj url} c.
Arguments isfile {W obj url} c.
Arguments makedirs {W obj url} c.
Arguments URL_create {W obj url} c.
Arguments URL_str {W obj url} c.
Arguments samplers {W obj url} c.
Arguments pruners {W obj url} c.
Arguments get_all_study_names {W obj url} c.
Arguments create_study {W obj url} c.
Arguments delete_study {W obj url} c.
Arguments copy_study {W obj url} c.
Arguments load_study {W obj url} c.
Arguments generate_timestamp {W obj url} c.
Arguments _fetch_latest_load_version {W obj url} c.
Arguments dataset_str {W obj url} c.
Arguments recursion_limit {W obj url} c.

Section methods.
Context {W obj url : Type} (api : collaborators W obj url).

Local Abbreviation MS := (M W event).

Definition DEFAULT_LOAD_ARGS : gmap string value :=
  {[ "sampler" := VNone; "pruner" := VNone ]}.

Definition of_getenv (o : option string) : value :=
  match o with Some s => VStr s | None => VNone end.

(** [dict(username=os.getenv("DB_USERNAME"), ...)] *)
Definition env_credentials (w : W) : gmap string value :=
  {[ "username" := of_getenv (getenv api w "DB_USERNAME");
     "password" := of_getenv (getenv api w "DB_PASSWORD");
     "host" := of_getenv (getenv api w "DB_HOST");
     "port" := of_getenv (getenv api w "DB_PORT") ]}.

(** [deepcopy(d)] of a dictionary of strings and [None]: an equal dictionary *)
Definition deepcopy_atoms (d : gmap string value) : gmap string value := d.

(** [d or {}] *)
Definition or_empty (d : gmap string value) : gmap string value :=
  if bool_decide (d = ∅) then ∅ else d.

(** [a |= b]: the entries of [b] win *)
Definition ior (a b : gmap string value) : gmap string value := b ∪ a.

(** The storage URL computed by [__init__] (lines 116 to 132). The
    [credentials] argument is rebound to the environment's values before
    it is ever read. *)
Definition init_storage (w : W) (backend database : string)
    (credentials : option (gmap string value)) : result string :=
  let credentials := env_credentials w in
  let _credentials := or_empty (deepcopy_atoms credentials) in
  let credentials := ior credentials _credentials in
  let storage :=
    if negb (bool_decide (_credentials = ∅))
    then Some (URL_create api backend database credentials)
    else None in
  match storage with
  | Some (Ok u) => Ok (URL_str api u)
  | Some (Raise e) => Raise e
  | None => Raise (UnboundLocalError "storage")
  end.

(** The new dictionary of [DEFAULT_LOAD_ARGS] updated with [load_args or {}] *)
Definition init_load_args (load_args : value) : MS value :=
  let! given :=
    Eff.on_heap (λ h,
      if Py.truthy h load_args then (h, Py.kwargs h load_args) else (h, Ok ∅)) in
  let! l := Eff.on_heap (λ h, let '(h', l) := Py.alloc h (given ∪ DEFAULT_LOAD_ARGS) in (h', Ok l)) in
  Eff.ret (VRef l).

Definition __init__ (backend database study_name : string) (load_args : value)
    (version : option Kedro.Version) (credentials : option (gmap string value))
    (metadata : value) : MS t :=
  let! storage := (λ s, (s, init_storage (wd s) backend database credentials)) in
  let! filepath :=
    if bool_decide (backend = "sqlite") then
      let! p := Eff.query (EvRealpath database) (λ w, realpath api w database) in
      Eff.ret (Some (Posix.of_str p))
    else Eff.ret None in
  let! la := init_load_args load_args in
  Eff.ret {| _backend := backend; _database := database; _storage := storage;
             _study_name := study_name; metadata := metadata;
             _filepath := filepath; _version := version; _load_args := la |}.

Definition _get_versioned_path (self : t) (version : string) : Posix.PurePosixPath :=
  let study_name_posix := Posix.of_str (_study_name self) in
  Posix.truediv (Posix.truediv_str study_name_posix version) study_name_posix.

Definition resolve_load_version (self : t) : MS (option string) :=
  match _version self with
  | None => Eff.ret None
  | Some v =>
      match Kedro.token_truthy (Kedro.load v) with
      | Some lv => Eff.ret (Some lv)
      | None =>
          let! lv := Eff.query EvFetchLatestLoadVersion (_fetch_latest_load_version api self) in
          Eff.ret (Some lv)
      end
  end.

(** Inherited from kedro: the pinned save version, or a new timestamp *)
Definition resolve_save_version (self : t) : MS (option string) :=
  match _version self with
  | None => Eff.ret None
  | Some v =>
      match Kedro.token_truthy (Kedro.save v) with
      | Some sv => Eff.ret (Some sv)
      | None =>
          let! sv := Eff.query EvGenerateTimestamp (generate_timestamp api) in
          Eff.ret (Some sv)
      end
  end.

(** [study_name_posix / version] needs a string *)
Definition versioned_or_type_error (self : t) (version : option string) : MS string :=
  match version with
  | Some v => Eff.ret (Posix.str (_get_versioned_path self v))
  | None => Eff.raise (TypeError "unsupported operand type(s) for /")
  end.

(** The path is not affected by versioning. *)
Definition _get_load_path (self : t) : option Posix.PurePosixPath := _filepath self.

Definition _get_save_path (self : t) : option Posix.PurePosixPath := _filepath self.

Definition _get_load_study_name (self : t) : MS string :=
  match _version self with
  | None => Eff.ret (_study_name self)
  | Some _ =>
      let! load_version := resolve_load_version self in
      versioned_or_type_error self load_version
  end.

(** [os.fspath(self._filepath)] *)
Definition fspath (p : option Posix.PurePosixPath) : MS string :=
  match p with
  | Some p => Eff.ret (Posix.str p)
  | None => Eff.raise (TypeError "expected str, bytes or os.PathLike object, not NoneType")
  end.

Definition _study_name_exists (self : t) (path : string) : MS bool :=
  let! no_file :=
    if bool_decide (_backend self = "sqlite") then
      let! fp := fspath (_filepath self) in
      let! b := Eff.query (EvIsfile fp) (λ w, isfile api w fp) in
      Eff.ret (negb b)
    else Eff.ret false in
  if no_file then Eff.ret false
  else
    let! study_names :=
      Eff.query (EvGetAllStudyNames (_storage self))
        (λ w, get_all_study_names api w (_storage self)) in
    Eff.ret (bool_decide (path ∈ study_names)).

Definition version_conflict_message (self : t) (versioned_study_name : string) : string :=
  "Study name '" +:+ versioned_study_name +:+ "' for " +:+ dataset_str api self
  +:+ " must not exist if versioning is enabled.".

Definition _get_save_study_name (self : t) : MS string :=
  match _version self with
  | None => Eff.ret (_study_name self)
  | Some _ =>
      let! save_version := resolve_save_version self in
      let! versioned_study_name := versioned_or_type_error self save_version in
      let! present := _study_name_exists self versioned_study_name in
      if present then
        Eff.raise (DatasetError (version_conflict_message self versioned_study_name))
      else Eff.ret versioned_study_name
  end.

(** [getattr(module, name)] on the namespace of constructors *)
Definition getattr {A} (registry : gmap string A) (name : value) : result A :=
  match name with
  | VStr n =>
      match registry !! n with
      | Some c => Ok c
      | None => Raise (AttributeError n)
      end
  | _ => Raise (TypeError "attribute name must be string")
  end.

Definition class_name (name : value) : string :=
  match name with VStr n => n | _ => EmptyString end.

Definition missing_class_message (self : t) (kind : strategy) : string :=
  match kind with
  | Sampler =>
      "Optuna sampler `class` should be specified when trying to load study named `"
      +:+ _study_name self +:+ "` with a sampler."
  | Pruner =>
      "Optuna pruner `class` should be specified when trying to load study named `"
      +:+ _study_name self +:+ "` with a pruner."
  end.

(** Calling the class with the entries of [config] as keyword arguments *)
Definition construct (kind : strategy) (name : value)
    (cls : heap → gmap string value → result obj) (config : value) : MS obj :=
  let! kw := Eff.on_heap (λ h, (h, Py.kwargs h config)) in
  let! _ := (λ s, (mkState (hp s) (wd s) (tr s ++ [EvConstruct kind (class_name name) kw]), Ok tt)) in
  λ s, (s, cls (hp s) kw).

Definition _get_sampler_from_config (self : t) (sampler_config : value) : MS (option obj) :=
  match sampler_config with
  | VNone => Eff.ret None
  | _ =>
      let! has_class := Eff.on_heap (λ h, (h, Py.contains h sampler_config "class")) in
      if negb has_class then
        Eff.raise (ValueError (missing_class_message self Sampler))
      else
        let! name := Eff.on_heap (λ h, Py.pop h sampler_config "class") in
        let! sampler_class := Eff.lift (getattr (samplers api) name) in
        let! sampler := construct Sampler name sampler_class sampler_config in
        Eff.ret (Some sampler)
  end.

Definition _get_pruner_from_config (self : t) (pruner_config : value) : MS (option obj) :=
  match pruner_config with
  | VNone => Eff.ret None
  | _ =>
      let! has_class := Eff.on_heap (λ h, (h, Py.contains h pruner_config "class")) in
      if negb has_class then
        Eff.raise (ValueError (missing_class_message self Pruner))
      else
        let! name := Eff.on_heap (λ h, Py.pop h pruner_config "class") in
        let! pruner_class := Eff.lift (getattr (pruners api) name) in
        let! pruner := construct Pruner name pruner_class pruner_config in
        Eff.ret (Some pruner)
  end.

Definition load (self : t) : MS Optuna.Study :=
  let! load_args := Eff.on_heap (λ h, Py.deepcopy (recursion_limit api) h (_load_args self)) in
  let! sampler_config := Eff.on_heap (λ h, Py.pop h load_args "sampler") in
  let! sampler := _get_sampler_from_config self sampler_config in
  let! pruner_config := Eff.on_heap (λ h, Py.pop h load_args "pruner") in
  let! pruner := _get_pruner_from_config self pruner_config in
  let! study_name := _get_load_study_name self in
  Eff.query (EvLoadStudy (_storage self) study_name)
    (λ w, load_study api w (_storage self) study_name sampler pruner).

Definition save (self : t) (study : Optuna.Study) : MS unit :=
  let! save_study_name := _get_save_study_name self in
  let! _ :=
    if bool_decide (_backend self = "sqlite") then
      let! fp := fspath (_filepath self) in
      let! _ := Eff.call (EvMakedirs (Posix.dirname fp)) (λ w, makedirs api w (Posix.dirname fp)) in
      let! b := Eff.query (EvIsfile fp) (λ w, isfile api w fp) in
      if negb b then
        Eff.call (EvCreateStudy (_storage self)) (λ w, create_study api w (_storage self))
      else Eff.ret tt
    else Eff.ret tt in
  let! present := _study_name_exists self save_study_name in
  let! _ :=
    if present then
      Eff.call (EvDeleteStudy (_storage self) save_study_name)
        (λ w, delete_study api w (_storage self) save_study_name)
    else Eff.ret tt in
  Eff.call
    (EvCopyStudy (Optuna.study_name study) (Optuna._storage study) (_storage self) save_study_name)
    (λ w, copy_study api w (Optuna.study_name study) (Optuna._storage study)
            (_storage self) save_study_name).

End methods.

Section globbing.
Context {W obj url : Type} (api : collaborators W obj url).

(** [fnmatch.fnmatch(name, pattern)] *)
Variable fnmatch : string → string → bool.

(** The generator, run to its end: the study names of the storage that
    match the pattern, in the order the storage lists them. *)
Definition _study_name_glob (self : t) (pattern : string) : M W event (list string) :=
  let! study_names :=
    Eff.query (EvGetAllStudyNames (_storage self))
      (λ w, get_all_study_names api w (_storage self)) in
  Eff.ret (filter (λ study_name, fnmatch study_name pattern = true) study_names).

End globbing.
End StudyDataset.

(** ** [kedro_datasets_experimental.darts.DartsTorchModelDataset] *)

Module DartsTorchModelDataset.

(** Calls to the collaborators: kedro's path resolution, the filesystem and
    the darts model class. *)
Inductive event :=
  | EvGetLoadPath
  | EvGetSavePath
  | EvMakedirs (path : string)
  | EvFsExists (path : string)
  | EvLoad (path : string) (kw : gmap string value)
  | EvLoadFromCheckpoint (model_name : value) (kw : gmap string value)
  | EvLoadWeights (path : string) (kw : gmap string value)
  | EvLoadWeightsFromCheckpoint (model_name : value) (kw : gmap string value)
  | EvSave (path : string) (kw : gmap string value).

(** The instance attributes. The two argument dictionaries are only ever
    copied before they are changed, so they are held by value. *)
Record t := {
  _protocol : string;
  _filepath : Posix.PurePosixPath;
  _version : option Kedro.Version;
  model_class : string;
  _load_args : gmap string value;
  _save_args : gmap string value;
  metadata : value
}.

(** What the module calls: the path resolution inherited from kedro's
    [AbstractVersionedDataset], [os.makedirs], the fsspec filesystem, the
    four loaders of the model class and the [save] method of a model. *)
Record collaborators (W model : Type) := {
  _get_load_path : t → W → result Posix.PurePosixPath;
  _get_save_path : t → W → result Posix.PurePosixPath;
  makedirs : W → string → W * result unit;
  fs_exists : W → string → result bool;
  model_load : string → W → string → gmap string value → result model;
  model_load_from_checkpoint : string → W → value → gmap string value → result model;
  model_load_weights : string → W → string → gmap string value → result model;
  model_load_weights_from_checkpoint : string → W → value → gmap string value → result model;
  model_save : model → W → string → gmap string value → W * result unit;
  py_str : heap → value → string
}.
Arguments _get_load_path {W model} c.
Arguments _get_save_path {W model} c.
Arguments makedirs {W model} c.
Arguments fs_exists {W model} c.
Arguments model_load {W model} c.
Arguments model_load_from_checkpoint {W model} c.
Arguments model_load_weights {W model} c.
Arguments model_load_weights_from_checkpoint {W model} c.
Arguments model_save {W model} c.
Arguments py_str {W model} c.

Section methods.
Context {W model : Type} (api : collaborators W model).

Local Abbreviation MS := (M W event).

Definition missing_model_name_message (load_method : string) : string :=
  "model_name must be provided for '" +:+ load_method +:+ "' method".

Definition load (self : t) : MS model :=
  let load_args := _load_args self in
  let '(load_method, load_args) := Py.pop_default load_args "load_method" (VStr "load") in
  if bool_decide (load_method = VStr "load") then
    let! raw_path := Eff.query EvGetLoadPath (_get_load_path api self) in
    let load_path := Kedro.get_filepath_str raw_path (_protocol self) in
    Eff.query (EvLoad load_path load_args)
      (λ w, model_load api (model_class self) w load_path load_args)
  else if bool_decide (load_method = VStr "load_from_checkpoint") then
    let '(model_name, load_args) := Py.pop_default load_args "model_name" VNone in
    if bool_decide (model_name = VNone) then
      Eff.raise (ValueError (missing_model_name_message "load_from_checkpoint"))
    else
      Eff.query (EvLoadFromCheckpoint model_name load_args)
        (λ w, model_load_from_checkpoint api (model_class self) w model_name load_args)
  else if bool_decide (load_method = VStr "load_weights") then
    let! raw_path := Eff.query EvGetLoadPath (_get_load_path api self) in
    let load_path := Kedro.get_filepath_str raw_path (_protocol self) in
    Eff.query (EvLoadWeights load_path load_args)
      (λ w, model_load_weights api (model_class self) w load_path load_args)
  else if bool_decide (load_method = VStr "load_weights_from_checkpoint") then
    let '(model_name, load_args) := Py.pop_default load_args "model_name" VNone in
    if bool_decide (model_name = VNone) then
      Eff.raise (ValueError (missing_model_name_message "load_weights_from_checkpoint"))
    else
      Eff.query (EvLoadWeightsFromCheckpoint model_name load_args)
        (λ w, model_load_weights_from_checkpoint api (model_class self) w model_name load_args)
  else
    let! shown := Eff.read_heap (λ h, py_str api h load_method) in
    Eff.raise (ValueError ("Unknown load method: " +:+ shown)).

Definition save (self : t) (data : model) : MS unit :=
  let save_args := _save_args self in
  let '(save_model, save_args) := Py.pop_default save_args "save_model" (VBool true) in
  let! wanted := Eff.read_heap (λ h, Py.truthy h save_model) in
  if (wanted : bool) then
    let! raw_path := Eff.query EvGetSavePath (_get_save_path api self) in
    let dir := Posix.dirname (Posix.str raw_path) in
    let! _ := Eff.call (EvMakedirs dir) (λ w, makedirs api w dir) in
    let save_path := Kedro.get_filepath_str raw_path (_protocol self) in
    Eff.call (EvSave save_path save_args) (λ w, model_save api data w save_path save_args)
  else Eff.ret tt.

Definition _exists (self : t) : MS bool :=
  Eff.try_except
    (let! raw_path := Eff.query EvGetLoadPath (_get_load_path api self) in
     let load_path := Kedro.get_filepath_str raw_path (_protocol self) in
     Eff.query (EvFsExists load_path) (λ w, fs_exists api w load_path))
    is_DatasetError
    (Eff.ret false).

End methods.

(** *** Construction *)

(** Calls made by [__init__] *)
Inductive init_event :=
  | EvGetProtocolAndPath (filepath : string)
  | EvFilesystem (protocol : string) (storage_options : gmap string value).

(** The [model_class] argument: a string, a class (with whether it is a
    subclass of [TorchForecastingModel]) or any other object. Classes are
    stood for by their names. *)
Inductive model_class_arg :=
  | ByName (name : string)
  | ByClass (cls : string) (torch_forecasting_model : bool)
  | NotAClass.

(** [get_protocol_and_path] of kedro, [fsspec.filesystem] with the type
    [fs] of its handles, and the namespace [darts.models]. *)
Record init_collaborators (W fs : Type) := {
  get_protocol_and_path : string → option Kedro.Version → result (string * string);
  filesystem : W → string → gmap string value → result fs;
  models : gmap string string
}.
Arguments get_protocol_and_path {W fs} _.
Arguments filesystem {W fs} _.
Arguments models {W fs} _.

(** What [__init__] sets: the dataset's attributes and its filesystem *)
Record instance (fs : Type) := { attributes : t; _fs : fs }.
Arguments attributes {fs} _.
Arguments _fs {fs} _.

Section construction.
Context {W fs : Type} (lib : init_collaborators W fs).

Definition DEFAULT_LOAD_ARGS : gmap string value := ∅.
Definition DEFAULT_SAVE_ARGS : gmap string value := ∅.

(** [copy.deepcopy(d) or {}] for an optional dictionary held by value *)
Definition copy_or_empty (d : option (gmap string value)) : gmap string value :=
  default ∅ d.

(** [d.setdefault(k, v)], for its effect on [d] *)
Definition setdefault (d : gmap string value) (k : string) (v : value) : gmap string value :=
  match d !! k with
  | Some _ => d
  | None => <[k := v]> d
  end.

(** The keyword arguments of [f(protocol, **a, **b)]: a key may be given
    only once, and [protocol] is already given by position. *)
Definition storage_options (a b : gmap string value) : result (gmap string value) :=
  if negb (bool_decide (a ##ₘ b)) then
    Raise (TypeError "got multiple values for keyword argument")
  else if bool_decide (is_Some (a !! "protocol") ∨ is_Some (b !! "protocol")) then
    Raise (TypeError "got multiple values for argument 'protocol'")
  else Ok (a ∪ b).

Definition unknown_model_class_message (name : string) : string :=
  "Model class '" +:+ name +:+ "' not found in darts.models.".

(** The three branches that settle [self.model_class] *)
Definition resolve_model_class (model_class : model_class_arg) : result string :=
  match model_class with
  | ByName name =>
      match models lib !! name with
      | Some cls => Ok cls
      | None => Raise (ValueError (unknown_model_class_message name))
      end
  | ByClass cls true => Ok cls
  | _ => Raise (ValueError "model_class must be a string or a TorchForecastingModel subclass")
  end.

Definition __init__ (filepath : string) (model_class : model_class_arg)
    (load_args save_args : option (gmap string value))
    (version : option Kedro.Version)
    (credentials fs_args : option (gmap string value))
    (metadata : value) : M W init_event (instance fs) :=
  let _fs_args := copy_or_empty fs_args in
  let _credentials := copy_or_empty credentials in
  let! parsed :=
    Eff.query (EvGetProtocolAndPath filepath)
      (λ _, get_protocol_and_path lib filepath version) in
  let protocol := parsed.1 in
  let path := parsed.2 in
  let _fs_args :=
    if bool_decide (protocol = "file")
    then setdefault _fs_args "auto_mkdir" (VBool true)
    else _fs_args in
  let! options := Eff.lift (storage_options _credentials _fs_args) in
  let! the_fs := Eff.query (EvFilesystem protocol options)
                   (λ w, filesystem lib w protocol options) in
  let! cls := Eff.lift (resolve_model_class model_class) in
  Eff.ret {| attributes := {|
               _protocol := protocol;
               _filepath := Posix.of_str path;
               _version := version;
               model_class := cls;
               _load_args := copy_or_empty load_args ∪ DEFAULT_LOAD_ARGS;
               _save_args := copy_or_empty save_args ∪ DEFAULT_SAVE_ARGS;
               metadata := metadata |};
             _fs := the_fs |}.

End construction.
End DartsTorchModelDataset.

(** ** A small concrete world

    An in-memory stand-in for the collaborators, on which the embedding can
    be run. *)

Module Demo.

Record world := {
  env : gmap string string;
  files : list string;
  names : list string
}.

Definition strategy_object : Type := string * gmap string value.

Definition forget (w : world) (n : string) : world :=
  {| env := env w; files := files w;
     names := filter (λ x, x ≠ n) (names w) |}.

Definition remember (w : world) (n : string) : world :=
  {| env := env w; files := files w; names := names w ++ [n] |}.

Definition username_of (c : gmap string value) : string :=
  match c !! "username" with
  | Some (VStr u) => u
  | _ => EmptyString
  end.

Definition study_api : StudyDataset.collaborators world strategy_object string := {|
  StudyDataset.getenv w k := env w !! k;
  StudyDataset.realpath w p := Ok p;
  StudyDataset.isfile w p := Ok (bool_decide (p ∈ files w));
  StudyDataset.makedirs w p := (w, Ok tt);
  StudyDataset.URL_create b d c := Ok (b +:+ "://" +:+ username_of c +:+ "@/" +:+ d);
  StudyDataset.URL_str u := u;
  StudyDataset.samplers := {[ "TPESampler" := λ _ kw, Ok ("TPESampler", kw) ]};
  StudyDataset.pruners := {[ "NopPruner" := λ _ kw, Ok ("NopPruner", kw) ]};
  StudyDataset.get_all_study_names w st := Ok (names w);
  StudyDataset.create_study w st := (w, Ok tt);
  StudyDataset.delete_study w st n := (forget w n, Ok tt);
  StudyDataset.copy_study w fn fs ts tn := (remember w tn, Ok tt);
  StudyDataset.load_study w st n sm pr :=
    if bool_decide (n ∈ names w)
    then Ok {| Optuna.study_name := n; Optuna._storage := st |}
    else Raise (KeyError n);
  StudyDataset.generate_timestamp w := Ok "2024-02-02T00.00.00.000Z";
  StudyDataset._fetch_latest_load_version self w :=
    Raise (VersionNotFoundError "Did not find any versions");
  StudyDataset.dataset_str self := "StudyDataset()";
  StudyDataset.recursion_limit := 1000
|}.

Definition empty_world : world := {| env := ∅; files := []; names := [] |}.

Definition start (h : heap) (w : world) : state world StudyDataset.event :=
  mkState h w [].

(** A study dataset on a PostgreSQL database *)
Definition study_named (name : string) (version : option Kedro.Version)
    (load_args : value) : StudyDataset.t := {|
  StudyDataset._backend := "postgresql";
  StudyDataset._database := "optuna_db";
  StudyDataset._storage := "postgresql://@/optuna_db";
  StudyDataset._study_name := name;
  StudyDataset.metadata := VNone;
  StudyDataset._filepath := None;
  StudyDataset._version := version;
  StudyDataset._load_args := load_args
|}.

Definition study1 : option Kedro.Version → value → StudyDataset.t :=
  study_named "study1".

(** Load arguments as they come from the catalog: a TPE sampler with one
    argument, no pruner. *)
Definition tpe_config : gmap string value :=
  {[ "class" := VStr "TPESampler"; "n_startup_trials" := VInt 10 ]}.

Definition tpe_load_args : gmap string value :=
  {[ "sampler" := VRef 2%positive; "pruner" := VNone ]}.

Definition tpe_heap : heap :=
  {[ 1%positive := tpe_load_args; 2%positive := tpe_config ]}.

Definition one_study : world := {| env := ∅; files := []; names := ["study1"] |}.

(** The same load arguments with a pruner that takes no argument *)
Definition nop_config : gmap string value :=
  {[ "class" := VStr "NopPruner" ]}.

Definition tpe_nop_load_args : gmap string value :=
  {[ "sampler" := VRef 2%positive; "pruner" := VRef 3%positive ]}.

Definition tpe_nop_heap : heap :=
  {[ 1%positive := tpe_nop_load_args; 2%positive := tpe_config; 3%positive := nop_config ]}.

(** Darts models are stood for by the name of their class. *)
Definition touch (w : world) (p : string) : world :=
  {| env := env w; files := files w ++ [p]; names := names w |}.

Definition show (h : heap) (v : value) : string :=
  match v with
  | VStr x => x
  | VNone => "None"
  | VBool true => "True"
  | VBool false => "False"
  | _ => "<object>"
  end.

Definition darts_api : DartsTorchModelDataset.collaborators world string := {|
  DartsTorchModelDataset._get_load_path self w := Ok (DartsTorchModelDataset._filepath self);
  DartsTorchModelDataset._get_save_path self w := Ok (DartsTorchModelDataset._filepath self);
  DartsTorchModelDataset.makedirs w p :=
    if bool_decide (p = EmptyString)
    then (w, Raise (OSError "No such file or directory"))
    else (w, Ok tt);
  DartsTorchModelDataset.fs_exists w p := Ok (bool_decide (p ∈ files w));
  DartsTorchModelDataset.model_load cls w p kw :=
    if bool_decide (p ∈ files w) then Ok cls else Raise (OSError p);
  DartsTorchModelDataset.model_load_from_checkpoint cls w n kw := Ok cls;
  DartsTorchModelDataset.model_load_weights cls w p kw :=
    if bool_decide (p ∈ files w) then Ok cls else Raise (OSError p);
  DartsTorchModelDataset.model_load_weights_from_checkpoint cls w n kw := Ok cls;
  DartsTorchModelDataset.model_save data w p kw := (touch w p, Ok tt);
  DartsTorchModelDataset.py_str := show
|}.

(** The same collaborators behind a filesystem that denies access. *)
Definition locked_darts_api : DartsTorchModelDataset.collaborators world string := {|
  DartsTorchModelDataset._get_load_path := DartsTorchModelDataset._get_load_path darts_api;
  DartsTorchModelDataset._get_save_path := DartsTorchModelDataset._get_save_path darts_api;
  DartsTorchModelDataset.makedirs := DartsTorchModelDataset.makedirs darts_api;
  DartsTorchModelDataset.fs_exists w p := Raise (OSError "Permission denied");
  DartsTorchModelDataset.model_load := DartsTorchModelDataset.model_load darts_api;
  DartsTorchModelDataset.model_load_from_checkpoint :=
    DartsTorchModelDataset.model_load_from_checkpoint darts_api;
  DartsTorchModelDataset.model_load_weights := DartsTorchModelDataset.model_load_weights darts_api;
  DartsTorchModelDataset.model_load_weights_from_checkpoint :=
    DartsTorchModelDataset.model_load_weights_from_checkpoint darts_api;
  DartsTorchModelDataset.model_save := DartsTorchModelDataset.model_save darts_api;
  DartsTorchModelDataset.py_str := show
|}.

(** ... and behind a versioned dataset none of whose versions exists. *)
Definition unversioned_darts_api : DartsTorchModelDataset.collaborators world string := {|
  DartsTorchModelDataset._get_load_path self w :=
    Raise (VersionNotFoundError "Did not find any versions");
  DartsTorchModelDataset._get_save_path := DartsTorchModelDataset._get_save_path darts_api;
  DartsTorchModelDataset.makedirs := DartsTorchModelDataset.makedirs darts_api;
  DartsTorchModelDataset.fs_exists := DartsTorchModelDataset.fs_exists darts_api;
  DartsTorchModelDataset.model_load := DartsTorchModelDataset.model_load darts_api;
  DartsTorchModelDataset.model_load_from_checkpoint :=
    DartsTorchModelDataset.model_load_from_checkpoint darts_api;
  DartsTorchModelDataset.model_load_weights := DartsTorchModelDataset.model_load_weights darts_api;
  DartsTorchModelDataset.model_load_weights_from_checkpoint :=
    DartsTorchModelDataset.model_load_weights_from_checkpoint darts_api;
  DartsTorchModelDataset.model_save := DartsTorchModelDataset.model_save darts_api;
  DartsTorchModelDataset.py_str := show
|}.

(** What the constructor of the darts dataset calls: local paths only, a
    filesystem handle that remembers how it was made, one model class. *)
Definition darts_lib
  : DartsTorchModelDataset.init_collaborators world (string * gmap string value) := {|
  DartsTorchModelDataset.get_protocol_and_path filepath version := Ok ("file", filepath);
  DartsTorchModelDataset.filesystem w protocol options := Ok (protocol, options);
  DartsTorchModelDataset.models := {[ "RNNModel" := "RNNModel" ]}
|}.

Definition darts_init_start (w : world) : state world DartsTorchModelDataset.init_event :=
  mkState ∅ w [].

(** A glob matcher that knows one pattern, the star. *)
Definition star_only (name pattern : string) : bool :=
  bool_decide (pattern = "*") || bool_decide (name = pattern).

Definition darts_start (w : world) : state world DartsTorchModelDataset.event :=
  mkState ∅ w [].

(** An [RNNModel] dataset at [data/06_models/darts_model.pt] *)
Definition darts_model (load_args save_args : gmap string value) : DartsTorchModelDataset.t := {|
  DartsTorchModelDataset._protocol := "file";
  DartsTorchModelDataset._filepath := Posix.of_str "data/06_models/darts_model.pt";
  DartsTorchModelDataset._version := None;
  DartsTorchModelDataset.model_class := "RNNModel";
  DartsTorchModelDataset._load_args := load_args;
  DartsTorchModelDataset._save_args := save_args;
  DartsTorchModelDataset.metadata := VNone
|}.

End Demo.

(** ** Vocabulary of the properties *)

Module StudyEvents.

(** The two calls that change a study of the backend *)
Definition is_delete_or_copy (e : StudyDataset.event) : bool :=
  match e with
  | StudyDataset.EvDeleteStudy _ _ | StudyDataset.EvCopyStudy _ _ _ _ => true
  | _ => false
  end.

(** A computation that reads: it leaves heap and world as they are and
    logs only events that satisfy [P]. *)
Definition reads_only {W A} (P : StudyDataset.event → Prop)
    (m : M W StudyDataset.event A) : Prop :=
  ∀ s s' r, m s = (s', r) →
    hp s' = hp s ∧ wd s' = wd s ∧ ∃ evs, tr s' = tr s ++ evs ∧ Forall P evs.

End StudyEvents.

Module PathShape.

(** A relative path in normal form: split at the separators, it has no
    empty segment and no [.] segment. Such a string is not empty and neither
    starts nor ends with a separator. *)
Definition normal_relative (s : string) : bool :=
  forallb Posix.keep_part (Posix.split s).

(** The three segments [name/version/name], as text *)
Definition three_segments (name version : string) : string :=
  name +:+ "/" +:+ version +:+ "/" +:+ name.

End PathShape.

Module HeapShape.

(** With respect to an earlier heap [h0]: a value is new when it is not a
    reference to an object of [h0]. *)
Definition new_value (h0 : heap) (v : value) : Prop :=
  match v with
  | VRef l => h0 !! l = None
  | _ => True
  end.

(** The objects allocated since [h0] hold new values only. *)
Definition new_closed (h0 h : heap) : Prop :=
  ∀ l d k v, h0 !! l = None → h !! l = Some d → d !! k = Some v → new_value h0 v.

(** The copies recorded in a memo are new objects. *)
Definition memo_new (h0 : heap) (memo : gmap loc loc) : Prop :=
  ∀ l l', memo !! l = Some l' → h0 !! l' = None.

(** [h] grew out of [h0] by allocating and filling new objects. *)
Definition grown (h0 h : heap) : Prop := h0 ⊆ h ∧ new_closed h0 h.

(** What a copier keeps: the heap stays grown out of [h0], the memo maps
    to new objects, and the copy it returns is a new value. *)
Definition copier_ok (h0 : heap)
    (copier : heap → gmap loc loc → value → heap * gmap loc loc * result value) : Prop :=
  ∀ h memo x h' memo' r,
    grown h0 h → memo_new h0 memo → copier h memo x = (h', memo', r) →
    grown h0 h' ∧ memo_new h0 memo' ∧ ∀ v, r = Ok v → new_value h0 v.

(** The copy of a value under a memo: references are redirected to the
    copies, atomic values stay. *)
Definition rename (memo : gmap loc loc) (v : value) : value :=
  match v with
  | VRef l =>
      match memo !! l with
      | Some l' => VRef l'
      | None => v
      end
  | _ => v
  end.

(** [x] is atomic, or a dictionary of [h] nested at most [n] deep. *)
Fixpoint shallow (n : nat) (h : heap) (x : value) : bool :=
  match x with
  | VRef l =>
      match n with
      | O => false
      | S n' =>
          match h !! l with
          | Some d => forallb (λ kv, shallow n' h kv.2) (map_to_list d)
          | None => false
          end
      end
  | _ => true
  end.

Definition atomic (v : value) : bool :=
  match v with
  | VRef _ => false
  | _ => true
  end.

(** A dictionary of atomic values *)
Definition flat (d : gmap string value) : bool :=
  forallb (λ kv, atomic kv.2) (map_to_list d).

(** A memo during a deep copy of objects of [h0]: the copies are distinct
    new objects of [h], and the copy of every object that is not pending
    is complete, that is the original with its references redirected. *)
Record memo_inv (h0 h : heap) (memo : gmap loc loc) (pending : gset loc) : Prop := {
  memo_targets : ∀ l l', memo !! l = Some l' → h0 !! l' = None ∧ is_Some (h !! l');
  memo_inj : ∀ l1 l2 l', memo !! l1 = Some l' → memo !! l2 = Some l' → l1 = l2;
  memo_done : ∀ l l' d, memo !! l = Some l' → l ∉ pending → h0 !! l = Some d →
    h !! l' = Some (rename memo <$> d)
    ∧ ∀ k j, d !! k = Some (VRef j) → is_Some (memo !! j)
}.

(** A copier that copies faithfully what is nested at most [n] deep. *)
Definition copier_spec (h0 : heap) (n : nat)
    (copier : heap → gmap loc loc → value → heap * gmap loc loc * result value) : Prop :=
  ∀ h memo pending x h' memo' r,
    h0 ⊆ h → memo_inv h0 h memo pending → shallow n h0 x = true →
    copier h memo x = (h', memo', r) →
    h ⊆ h' ∧ memo ⊆ memo' ∧ memo_inv h0 h' memo' pending
    ∧ r = Ok (rename memo' x)
    ∧ ∀ l, x = VRef l → is_Some (memo' !! l).

(** What a computation keeps: the heap stays grown out of [h0], the world
    is as it was, the trace is only added to, and a value it returns
    satisfies [Q]. *)
Definition keeps {W E A : Type} (h0 : heap) (Q : A → Prop) (m : M W E A) : Prop :=
  ∀ s s' r, grown h0 (hp s) → m s = (s', r) →
    grown h0 (hp s') ∧ wd s' = wd s ∧ (∃ evs, tr s' = tr s ++ evs)
    ∧ ∀ a, r = Ok a → Q a.

End HeapShape.

Module Traces.

(** A computation that only ever adds to the trace *)
Definition logs {W E A : Type} (m : M W E A) : Prop :=
  ∀ s s' r, m s = (s', r) → ∃ evs, tr s' = tr s ++ evs.

(** A computation that only adds events satisfying [P] to the trace *)
Definition emits {W E A : Type} (P : E → Prop) (m : M W E A) : Prop :=
  ∀ s s' r, m s = (s', r) → ∃ evs, tr s' = tr s ++ evs ∧ Forall P evs.

End Traces.

Module Repeated.

(** The state after [n] consecutive calls of [load], whatever they return *)
Fixpoint load_times {W obj url : Type} (api : StudyDataset.collaborators W obj url)
    (self : StudyDataset.t) (n : nat) (s : state W StudyDataset.event)
  : state W StudyDataset.event :=
  match n with
  | O => s
  | S n' => load_times api self n' (StudyDataset.load api self s).1
  end.

End Repeated.

(** * Properties *)

Section study_dataset_facts.
Context {W obj url : Type} (api : StudyDataset.collaborators W obj url).
Import StudyDataset.

Lemma env_credentials_nonempty (w : W) : env_credentials api w ≠ ∅.
Proof.
  intros Heq.
  assert (H : env_credentials api w !! "username" = None) by (rewrite Heq; apply lookup_empty).
  unfold env_credentials in H. rewrite lookup_insert_eq in H. discriminate.
Qed.

Lemma init_storage_from_env (w : W) (backend database : string)
    (credentials : option (gmap string value)) :
  init_storage api w backend database credentials =
  match URL_create api backend database (env_credentials api w) with
  | Ok u => Ok (URL_str api u)
  | Raise e => Raise e
  end.
Proof.
  unfold init_storage, or_empty, deepcopy_atoms, ior.
  rewrite (bool_decide_eq_false_2 _ (env_credentials_nonempty w)).
  rewrite (bool_decide_eq_false_2 _ (env_credentials_nonempty w)). simpl.
  by rewrite (idemp_L (∪) (env_credentials api w)).
Qed.

End study_dataset_facts.

(** ** Credentials of the study dataset *)

(** C1: [StudyDataset.__init__] discards the [credentials] argument: two
    constructions that differ only in the explicit credentials (a mapping or
    [None]) behave identically, and the storage URL of the constructed
    dataset is the one built from the environment variables [DB_USERNAME],
    [DB_PASSWORD], [DB_HOST] and [DB_PORT] alone. *)
Theorem init_discards_explicit_credentials {W obj url : Type}
    (api : StudyDataset.collaborators W obj url)
    (backend database study_name : string) (load_args : value)
    (version : option Kedro.Version) (c1 c2 : option (gmap string value))
    (metadata : value) (s : state W StudyDataset.event) :
  StudyDataset.__init__ api backend database study_name load_args version c1 metadata s
  = StudyDataset.__init__ api backend database study_name load_args version c2 metadata s
  ∧ StudyDataset.init_storage api (wd s) backend database c1
    = StudyDataset.init_storage api (wd s) backend database c2
  ∧ StudyDataset.init_storage api (wd s) backend database c1
    = match StudyDataset.URL_create api backend database
              (StudyDataset.env_credentials api (wd s)) with
      | Ok u => Ok (StudyDataset.URL_str api u)
      | Raise e => Raise e
      end
  ∧ (∀ s' self,
       StudyDataset.__init__ api backend database study_name load_args version c1 metadata s
       = (s', Ok self) →
       StudyDataset.init_storage api (wd s) backend database c2
       = Ok (StudyDataset._storage self)).
Proof.
  split; [reflexivity|]. split; [reflexivity|].
  split; [apply init_storage_from_env|].
  intros s' self. unfold StudyDataset.__init__, Eff.bind.
  change (StudyDataset.init_storage api (wd s) backend database c2)
    with (StudyDataset.init_storage api (wd s) backend database c1).
  destruct (StudyDataset.init_storage api (wd s) backend database c1) as [st|e];
    [|discriminate].
  destruct (if bool_decide (backend = "sqlite") then _ else _) as [s1 [fp|e]];
    [|discriminate].
  destruct (StudyDataset.init_load_args load_args s1) as [s2 [la|e]]; [|discriminate].
  unfold Eff.ret. intros [= _ <-]. reflexivity.
Qed.

Lemma init_discards_explicit_credentials_witness :
  let w := {| Demo.env := {[ "DB_USERNAME" := "alice" ]}; Demo.files := []; Demo.names := [] |} in
  let explicit : gmap string value := {[ "username" := VStr "bob"; "password" := VStr "secret" ]} in
  ∃ s' self,
    StudyDataset.__init__ Demo.study_api "postgresql" "optuna_db" "study1" VNone None
      (Some explicit) VNone (Demo.start ∅ w) = (s', Ok self)
    ∧ StudyDataset.init_storage Demo.study_api w "postgresql" "optuna_db" None
      = Ok (StudyDataset._storage self)
    ∧ StudyDataset._storage self = "postgresql://alice@/optuna_db".
Proof.
  intros w explicit.
  destruct (StudyDataset.__init__ Demo.study_api "postgresql" "optuna_db" "study1" VNone None
      (Some explicit) VNone (Demo.start ∅ w)) as [s' [self|e]] eqn:E.
  - exists s', self. split; [reflexivity|].
    split.
    + apply (proj2 (proj2 (proj2
        (init_discards_explicit_credentials Demo.study_api "postgresql" "optuna_db"
           "study1" VNone None (Some explicit) None VNone (Demo.start ∅ w)))) s' self).
      exact E.
    + vm_compute in E. injection E as _ <-. reflexivity.
  - vm_compute in E. discriminate E.
Defined.

(** ** Resolution of the study name *)

(** C4: with versioning disabled (no [Version] supplied), the resolved load
    identifier and the resolved save identifier are both the logical study
    name, unchanged, and resolving them touches nothing. *)
Theorem unversioned_names_unchanged {W obj url : Type}
    (api : StudyDataset.collaborators W obj url)
    (self : StudyDataset.t) (s : state W StudyDataset.event) :
  StudyDataset._version self = None →
  StudyDataset._get_load_study_name api self s = (s, Ok (StudyDataset._study_name self))
  ∧ StudyDataset._get_save_study_name api self s = (s, Ok (StudyDataset._study_name self)).
Proof.
  intros Hv. unfold StudyDataset._get_load_study_name, StudyDataset._get_save_study_name.
  rewrite Hv. split; reflexivity.
Qed.

Lemma unversioned_names_unchanged_witness :
  let self := Demo.study1 None VNone in
  let s := Demo.start ∅ Demo.empty_world in
  StudyDataset._get_load_study_name Demo.study_api self s = (s, Ok "study1")
  ∧ StudyDataset._get_save_study_name Demo.study_api self s = (s, Ok "study1").
Proof.
  intros self s.
  apply (unversioned_names_unchanged Demo.study_api self s). reflexivity.
Defined.

(** ** Building samplers and pruners from their configuration *)

(** C8: a sampler or pruner configuration that is a mapping without a
    [class] key makes the builder fail with a [ValueError] whose message
    contains the name of the study, whatever the registries hold and without
    any effect; a [None] configuration yields [None]. *)
Theorem config_without_class_is_rejected {W obj url : Type}
    (api : StudyDataset.collaborators W obj url)
    (self : StudyDataset.t) (s : state W StudyDataset.event)
    (l : loc) (d : gmap string value) :
  hp s !! l = Some d →
  d !! "class" = None →
  StudyDataset._get_sampler_from_config api self (VRef l) s
  = (s, Raise (ValueError (StudyDataset.missing_class_message self StudyDataset.Sampler)))
  ∧ StudyDataset._get_pruner_from_config api self (VRef l) s
    = (s, Raise (ValueError (StudyDataset.missing_class_message self StudyDataset.Pruner)))
  ∧ (∀ kind, ∃ pre post,
       StudyDataset.missing_class_message self kind
       = pre +:+ StudyDataset._study_name self +:+ post)
  ∧ StudyDataset._get_sampler_from_config api self VNone s = (s, Ok None)
  ∧ StudyDataset._get_pruner_from_config api self VNone s = (s, Ok None).
Proof.
  intros Hl Hd.
  assert (Hc : Py.contains (hp s) (VRef l) "class" = Ok false).
  { unfold Py.contains. rewrite Hl, Hd. reflexivity. }
  repeat split.
  - unfold StudyDataset._get_sampler_from_config, Eff.bind, Eff.on_heap.
    rewrite Hc. destruct s; reflexivity.
  - unfold StudyDataset._get_pruner_from_config, Eff.bind, Eff.on_heap.
    rewrite Hc. destruct s; reflexivity.
  - intros []; eexists _, _; reflexivity.
Qed.

Lemma config_without_class_is_rejected_witness :
  let h : heap := {[ 1%positive := {[ "n_startup_trials" := VInt 10 ]} ]} in
  let self := Demo.study1 None VNone in
  let s := Demo.start h Demo.empty_world in
  StudyDataset._get_sampler_from_config Demo.study_api self (VRef 1%positive) s
  = (s, Raise (ValueError
      "Optuna sampler `class` should be specified when trying to load study named `study1` with a sampler.")).
Proof.
  intros h self s.
  apply (config_without_class_is_rejected Demo.study_api self s 1%positive
           {[ "n_startup_trials" := VInt 10 ]}); reflexivity.
Defined.

Section building.
Context {W obj url : Type} (api : StudyDataset.collaborators W obj url).
Import StudyDataset.

Lemma pop_present (h : heap) (l : loc) (d : gmap string value) (k : string) (x : value) :
  h !! l = Some d → d !! k = Some x →
  Py.pop h (VRef l) k = (<[l := delete k d]> h, Ok x).
Proof. intros Hl Hk. unfold Py.pop. by rewrite Hl, Hk. Qed.

Lemma sampler_is_built (self : t) (s : state W event)
    (l : loc) (d : gmap string value) (X : string)
    (cls : heap → gmap string value → result obj) :
  hp s !! l = Some d → d !! "class" = Some (VStr X) → samplers api !! X = Some cls →
  _get_sampler_from_config api self (VRef l) s
  = (mkState (<[l := delete "class" d]> (hp s)) (wd s)
       (tr s ++ [EvConstruct Sampler X (delete "class" d)]),
     match cls (<[l := delete "class" d]> (hp s)) (delete "class" d) with
     | Ok o => Ok (Some o)
     | Raise e => Raise e
     end).
Proof.
  intros Hl Hd Hcls.
  unfold _get_sampler_from_config, construct, getattr, Eff.bind, Eff.on_heap, Eff.lift, Eff.ret.
  unfold Py.contains. rewrite Hl, Hd. cbn [hp wd tr negb bool_decide].
  rewrite bool_decide_eq_true_2 by by eexists. cbn [hp wd tr negb].
  rewrite (pop_present _ _ _ _ _ Hl Hd). cbn [hp wd tr]. rewrite Hcls.
  unfold Py.kwargs. rewrite lookup_insert_eq. cbn [hp wd tr class_name].
  by destruct (cls _ _).
Qed.

Lemma pruner_is_built (self : t) (s : state W event)
    (l : loc) (d : gmap string value) (X : string)
    (cls : heap → gmap string value → result obj) :
  hp s !! l = Some d → d !! "class" = Some (VStr X) → pruners api !! X = Some cls →
  _get_pruner_from_config api self (VRef l) s
  = (mkState (<[l := delete "class" d]> (hp s)) (wd s)
       (tr s ++ [EvConstruct Pruner X (delete "class" d)]),
     match cls (<[l := delete "class" d]> (hp s)) (delete "class" d) with
     | Ok o => Ok (Some o)
     | Raise e => Raise e
     end).
Proof.
  intros Hl Hd Hcls.
  unfold _get_pruner_from_config, construct, getattr, Eff.bind, Eff.on_heap, Eff.lift, Eff.ret.
  unfold Py.contains. rewrite Hl, Hd. cbn [hp wd tr negb bool_decide].
  rewrite bool_decide_eq_true_2 by by eexists. cbn [hp wd tr negb].
  rewrite (pop_present _ _ _ _ _ Hl Hd). cbn [hp wd tr]. rewrite Hcls.
  unfold Py.kwargs. rewrite lookup_insert_eq. cbn [hp wd tr class_name].
  by destruct (cls _ _).
Qed.

End building.

(** C7: building from a configuration mapping whose [class] entry names a
    class [X] of the registry calls that class exactly once, with exactly the
    remaining entries as keyword arguments, and removes the [class] key from
    the mapping that was passed in: afterwards that very object no longer
    has the key. This holds for samplers and for pruners. *)
Theorem build_consumes_class_key {W obj url : Type}
    (api : StudyDataset.collaborators W obj url)
    (self : StudyDataset.t) (s : state W StudyDataset.event)
    (l : loc) (d : gmap string value) (X : string) :
  hp s !! l = Some d →
  d !! "class" = Some (VStr X) →
  let rest := delete "class" d in
  let h' := <[l := rest]> (hp s) in
  (∀ cls, StudyDataset.samplers api !! X = Some cls →
     StudyDataset._get_sampler_from_config api self (VRef l) s
     = (mkState h' (wd s) (tr s ++ [StudyDataset.EvConstruct StudyDataset.Sampler X rest]),
        match cls h' rest with Ok o => Ok (Some o) | Raise e => Raise e end))
  ∧ (∀ cls, StudyDataset.pruners api !! X = Some cls →
     StudyDataset._get_pruner_from_config api self (VRef l) s
     = (mkState h' (wd s) (tr s ++ [StudyDataset.EvConstruct StudyDataset.Pruner X rest]),
        match cls h' rest with Ok o => Ok (Some o) | Raise e => Raise e end))
  ∧ h' !! l = Some rest
  ∧ rest !! "class" = None
  ∧ (∀ k, k ≠ "class" → rest !! k = d !! k).
Proof.
  intros Hl Hd rest h'. split_and!.
  - intros cls Hcls. by apply sampler_is_built.
  - intros cls Hcls. by apply pruner_is_built.
  - apply lookup_insert_eq.
  - apply lookup_delete_eq.
  - intros k Hne. apply lookup_delete_ne. congruence.
Qed.

Lemma build_consumes_class_key_witness :
  let d : gmap string value := {[ "class" := VStr "TPESampler"; "n_startup_trials" := VInt 10 ]} in
  let h : heap := {[ 1%positive := d ]} in
  let kw : gmap string value := {[ "n_startup_trials" := VInt 10 ]} in
  let self := Demo.study1 None VNone in
  StudyDataset._get_sampler_from_config Demo.study_api self (VRef 1%positive)
    (Demo.start h Demo.empty_world)
  = (mkState {[ 1%positive := kw ]} Demo.empty_world
       [StudyDataset.EvConstruct StudyDataset.Sampler "TPESampler" kw],
     Ok (Some ("TPESampler", kw))).
Proof.
  intros d h kw self.
  pose proof (build_consumes_class_key Demo.study_api self (Demo.start h Demo.empty_world)
                1%positive d "TPESampler" eq_refl eq_refl) as [Hs _].
  rewrite (Hs (λ _ kw, Ok ("TPESampler", kw)) eq_refl).
  vm_compute. reflexivity.
Defined.

(** ** Saving under a version that exists *)

Section reads_only.
Context {W : Type} (P : StudyDataset.event → Prop).
Import StudyEvents.

Lemma reads_only_ret {A} (a : A) : reads_only (W:=W) P (Eff.ret a).
Proof.
  intros s s' r [= <- <-]. repeat split; try done.
  exists []. by rewrite app_nil_r.
Qed.

Lemma reads_only_raise {A} (e : exn) : reads_only (W:=W) (A:=A) P (Eff.raise e).
Proof.
  intros s s' r [= <- <-]. repeat split; try done.
  exists []. by rewrite app_nil_r.
Qed.

Lemma reads_only_query {A} (e : StudyDataset.event) (f : W → result A) :
  P e → reads_only P (Eff.query e f).
Proof.
  intros He s s' r [= <- <-]. repeat split; try done.
  exists [e]. split; [done|]. by constructor.
Qed.

Lemma reads_only_bind {A B} (m : M W StudyDataset.event A)
    (k : A → M W StudyDataset.event B) :
  reads_only P m → (∀ a, reads_only P (k a)) → reads_only P (Eff.bind m k).
Proof.
  intros Hm Hk s s' r. unfold Eff.bind.
  destruct (m s) as [s1 [a|e]] eqn:Em.
  - intros Ek. destruct (Hm _ _ _ Em) as (Hh & Hw & evs1 & Ht & Hf).
    destruct (Hk a _ _ _ Ek) as (Hh' & Hw' & evs2 & Ht' & Hf').
    repeat split; [congruence..|].
    exists (evs1 ++ evs2). split.
    + by rewrite Ht', Ht, app_assoc.
    + by apply Forall_app.
  - intros [= <- <-]. exact (Hm _ _ _ Em).
Qed.

End reads_only.

Section save_conflict.
Context {W obj url : Type} (api : StudyDataset.collaborators W obj url).
Import StudyDataset StudyEvents.

Local Abbreviation unchanging := (reads_only (W:=W) (λ e, is_delete_or_copy e = false)).

Lemma fspath_reads_only (p : option Posix.PurePosixPath) : unchanging (fspath p).
Proof. destruct p; [apply reads_only_ret | apply reads_only_raise]. Qed.

Lemma study_name_exists_reads_only (self : t) (path : string) :
  unchanging (_study_name_exists api self path).
Proof.
  unfold _study_name_exists.
  apply reads_only_bind.
  - case_bool_decide.
    + apply reads_only_bind; [apply fspath_reads_only|]. intros fp.
      apply reads_only_bind; [by apply reads_only_query|]. intros b.
      apply reads_only_ret.
    + apply reads_only_ret.
  - intros [].
    + apply reads_only_ret.
    + apply reads_only_bind; [by apply reads_only_query|]. intros names.
      apply reads_only_ret.
Qed.

Lemma resolve_save_version_reads_only (self : t) :
  unchanging (resolve_save_version api self).
Proof.
  unfold resolve_save_version.
  destruct (_version self) as [v|]; [|apply reads_only_ret].
  destruct (Kedro.token_truthy (Kedro.save v)); [apply reads_only_ret|].
  apply reads_only_bind; [by apply reads_only_query|]. intros sv.
  apply reads_only_ret.
Qed.

Lemma get_save_study_name_conflict (self : t) (v : Kedro.Version) (sv : string)
    (s s1 s2 : state W event) :
  _version self = Some v →
  resolve_save_version api self s = (s1, Ok (Some sv)) →
  _study_name_exists api self (Posix.str (_get_versioned_path self sv)) s1 = (s2, Ok true) →
  _get_save_study_name api self s
  = (s2, Raise (DatasetError
       (version_conflict_message api self (Posix.str (_get_versioned_path self sv))))).
Proof.
  intros Hv Hr He. unfold _get_save_study_name. rewrite Hv.
  unfold Eff.bind. rewrite Hr. cbn [versioned_or_type_error Eff.ret].
  rewrite He. reflexivity.
Qed.

End save_conflict.

(** C2: with versioning enabled, when the existence check reports the
    resolved versioned save identifier as present, [save] raises the
    version-conflict [DatasetError]; up to that point the heap and the world
    are untouched and neither [delete_study] nor [copy_study] was called. *)
Theorem save_refuses_existing_version {W obj url : Type}
    (api : StudyDataset.collaborators W obj url)
    (self : StudyDataset.t) (study : Optuna.Study)
    (v : Kedro.Version) (sv : string) (s s1 s2 : state W StudyDataset.event) :
  StudyDataset._version self = Some v →
  StudyDataset.resolve_save_version api self s = (s1, Ok (Some sv)) →
  StudyDataset._study_name_exists api self
    (Posix.str (StudyDataset._get_versioned_path self sv)) s1 = (s2, Ok true) →
  StudyDataset.save api self study s
  = (s2, Raise (DatasetError
       (StudyDataset.version_conflict_message api self
          (Posix.str (StudyDataset._get_versioned_path self sv)))))
  ∧ hp s2 = hp s
  ∧ wd s2 = wd s
  ∧ ∃ evs, tr s2 = tr s ++ evs
           ∧ Forall (λ e, StudyEvents.is_delete_or_copy e = false) evs.
Proof.
  intros Hv Hr He.
  pose proof (get_save_study_name_conflict api self v sv s s1 s2 Hv Hr He) as Hn.
  split.
  - unfold StudyDataset.save, Eff.bind. rewrite Hn. reflexivity.
  - destruct (resolve_save_version_reads_only api self _ _ _ Hr) as (Hh & Hw & evs1 & Ht & Hf).
    destruct (study_name_exists_reads_only api self _ _ _ _ He) as (Hh' & Hw' & evs2 & Ht' & Hf').
    repeat split; [congruence..|].
    exists (evs1 ++ evs2). split.
    + by rewrite Ht', Ht, app_assoc.
    + by apply Forall_app.
Qed.

Lemma save_refuses_existing_version_witness :
  let v := Kedro.mkVersion None (Some "2024-01-01T00.00.00") in
  let self := Demo.study1 (Some v) VNone in
  let w := {| Demo.env := ∅; Demo.files := [];
              Demo.names := ["study1/2024-01-01T00.00.00/study1"] |} in
  let study := {| Optuna.study_name := "tmp"; Optuna._storage := "sqlite:///tmp.db" |} in
  StudyDataset.save Demo.study_api self study (Demo.start ∅ w)
  = (mkState ∅ w [StudyDataset.EvGetAllStudyNames "postgresql://@/optuna_db"],
     Raise (DatasetError
       "Study name 'study1/2024-01-01T00.00.00/study1' for StudyDataset() must not exist if versioning is enabled.")).
Proof.
  intros v self w study.
  apply (save_refuses_existing_version Demo.study_api self study v "2024-01-01T00.00.00"
           (Demo.start ∅ w) (Demo.start ∅ w)
           (mkState ∅ w [StudyDataset.EvGetAllStudyNames "postgresql://@/optuna_db"])).
  - reflexivity.
  - reflexivity.
  - vm_compute. reflexivity.
Defined.

(** ** The darts model dataset *)

(** C6: with [load_method] set to [load_from_checkpoint] or to
    [load_weights_from_checkpoint] and no [model_name] entry in the load
    arguments, [load] raises the missing-argument [ValueError] in the state
    it was called in: no collaborator, hence no filesystem, was reached. *)
Theorem load_requires_model_name {W model : Type}
    (api : DartsTorchModelDataset.collaborators W model)
    (self : DartsTorchModelDataset.t) (s : state W DartsTorchModelDataset.event)
    (load_method : string) :
  load_method = "load_from_checkpoint" ∨ load_method = "load_weights_from_checkpoint" →
  DartsTorchModelDataset._load_args self !! "load_method" = Some (VStr load_method) →
  DartsTorchModelDataset._load_args self !! "model_name" = None →
  DartsTorchModelDataset.load api self s
  = (s, Raise (ValueError
       ("model_name must be provided for '" +:+ load_method +:+ "' method"))).
Proof.
  intros Hm Hl Hn.
  unfold DartsTorchModelDataset.load, Py.pop_default. rewrite Hl. cbn [default].
  rewrite lookup_delete_ne by done. rewrite Hn. cbn [default].
  destruct Hm as [-> | ->]; reflexivity.
Qed.

Lemma load_requires_model_name_witness :
  let self := Demo.darts_model {[ "load_method" := VStr "load_from_checkpoint" ]} ∅ in
  let s := Demo.darts_start Demo.empty_world in
  DartsTorchModelDataset.load Demo.darts_api self s
  = (s, Raise (ValueError "model_name must be provided for 'load_from_checkpoint' method")).
Proof.
  intros self s.
  apply (load_requires_model_name Demo.darts_api self s "load_from_checkpoint").
  - left. reflexivity.
  - reflexivity.
  - reflexivity.
Defined.




(** The existence check of the darts dataset. Only [DatasetError] and its
    subclasses are caught by [_exists]. *)
Lemma exists_propagates_other_errors :
  let self := Demo.darts_model ∅ ∅ in
  let s := Demo.darts_start Demo.empty_world in
  (DartsTorchModelDataset._exists Demo.locked_darts_api self s).2
  = Raise (OSError "Permission denied")
  ∧ (DartsTorchModelDataset._exists Demo.locked_darts_api self s).2 ≠ Ok false.
Proof. intros self s. split; [reflexivity | discriminate]. Qed.

(** C5, as the code has it: a [DatasetError] (or an instance of a subclass,
    such as [VersionNotFoundError]) raised by the resolution of the load
    path or by the filesystem's [exists] makes [_exists] return [False];
    any other exception raised there propagates to the caller. *)
Theorem exists_catches_dataset_errors_only {W model : Type}
    (api : DartsTorchModelDataset.collaborators W model)
    (self : DartsTorchModelDataset.t) (s : state W DartsTorchModelDataset.event)
    (e : exn) :
  DartsTorchModelDataset._get_load_path api self (wd s) = Raise e
  ∨ (∃ raw_path,
       DartsTorchModelDataset._get_load_path api self (wd s) = Ok raw_path
       ∧ DartsTorchModelDataset.fs_exists api (wd s)
           (Kedro.get_filepath_str raw_path (DartsTorchModelDataset._protocol self))
         = Raise e) →
  (DartsTorchModelDataset._exists api self s).2
  = if is_DatasetError e then Ok false else Raise e.
Proof.
  unfold DartsTorchModelDataset._exists, Eff.try_except, Eff.bind, Eff.query, Eff.ret.
  intros [Hp | (raw_path & Hp & Hx)]; rewrite Hp; cbn [hp wd tr].
  - destruct (is_DatasetError e); reflexivity.
  - rewrite Hx. destruct (is_DatasetError e); reflexivity.
Qed.

Lemma exists_catches_dataset_errors_only_witness :
  let self := Demo.darts_model ∅ ∅ in
  let s := Demo.darts_start Demo.empty_world in
  (DartsTorchModelDataset._exists Demo.unversioned_darts_api self s).2 = Ok false
  ∧ (DartsTorchModelDataset._exists Demo.locked_darts_api self s).2
    = Raise (OSError "Permission denied").
Proof.
  intros self s. split.
  - apply (exists_catches_dataset_errors_only Demo.unversioned_darts_api self s
             (VersionNotFoundError "Did not find any versions")).
    left. reflexivity.
  - apply (exists_catches_dataset_errors_only Demo.locked_darts_api self s
             (OSError "Permission denied")).
    right. exists (Posix.of_str "data/06_models/darts_model.pt"). split; reflexivity.
Defined.

(** ** Paths *)

Section posix_facts.
Import Posix.

Lemma append_cons (c : ascii) (a b : string) : String c a +:+ b = String c (a +:+ b).
Proof. reflexivity. Qed.

Lemma append_empty_l (b : string) : EmptyString +:+ b = b.
Proof. reflexivity. Qed.

Lemma append_assoc (a b c : string) : (a +:+ b) +:+ c = a +:+ (b +:+ c).
Proof. induction a as [|x a IH]; [done|]. by rewrite !append_cons, IH. Qed.

Lemma split_not_nil (s : string) : split s ≠ [].
Proof.
  induction s as [|c r IH]; [done|]. cbn [split].
  case_bool_decide; [done|]. by destruct (split r).
Qed.

Lemma split_append_sep (a b : string) :
  split (a +:+ "/" +:+ b) = split a ++ split b.
Proof.
  induction a as [|c a IH].
  - rewrite append_empty_l, append_cons, append_empty_l. reflexivity.
  - rewrite append_cons. cbn [split]. rewrite IH.
    case_bool_decide; [done|].
    destruct (split a) as [|x xs] eqn:E; [by destruct (split_not_nil a)|done].
Qed.

Lemma sep_join_cons (x y : string) (l : list string) :
  sep_join (x :: y :: l) = x +:+ "/" +:+ sep_join (y :: l).
Proof. reflexivity. Qed.

Lemma sep_join_split (s : string) : sep_join (split s) = s.
Proof.
  induction s as [|c r IH]; [done|]. cbn [split].
  destruct (split r) as [|x xs] eqn:E; [by destruct (split_not_nil r)|].
  case_bool_decide as Hc.
  - rewrite sep_join_cons, IH, append_empty_l, append_cons, append_empty_l.
    by rewrite Hc.
  - rewrite <- IH. destruct xs as [|y ys]; [done|].
    by rewrite !sep_join_cons, append_cons.
Qed.

Lemma endswith_sep_split (s : string) :
  endswith_sep s = true → ∃ pre, split s = pre ++ [EmptyString].
Proof.
  induction s as [|c r IH]; [done|]. cbn [endswith_sep split].
  destruct r as [|c' r'].
  - intros Hc%bool_decide_eq_true. rewrite bool_decide_eq_true_2 by done.
    by exists [EmptyString].
  - intros [pre Hpre]%IH. rewrite Hpre.
    case_bool_decide.
    + by exists (EmptyString :: pre).
    + destruct pre as [|x pre].
      * exfalso. cbn [split] in Hpre.
        destruct (split r') as [|y ys] eqn:E; [by destruct (split_not_nil r')|].
        case_bool_decide; simplify_eq/=.
      * by exists (String c x :: pre).
Qed.

Lemma normal_relative_inv (s : string) :
  PathShape.normal_relative s = true →
  s ≠ EmptyString ∧ startswith_sep s = false ∧ endswith_sep s = false.
Proof.
  unfold PathShape.normal_relative. intros Hn. repeat split.
  - intros ->. discriminate Hn.
  - destruct s as [|c r]; [done|]. cbn [startswith_sep split] in *.
    case_bool_decide; [discriminate Hn|done].
  - destruct (endswith_sep s) eqn:E; [|done].
    destruct (endswith_sep_split s E) as [pre Hpre].
    rewrite Hpre, forallb_app in Hn. cbn in Hn.
    by rewrite andb_false_r in Hn.
Qed.

Lemma endswith_sep_append (a b : string) :
  b ≠ EmptyString → endswith_sep (a +:+ b) = endswith_sep b.
Proof.
  intros Hb. induction a as [|c a IH]; [done|].
  rewrite append_cons. cbn [endswith_sep]. rewrite IH.
  destruct (a +:+ b) eqn:E; [|done].
  destruct a; [by rewrite append_empty_l in E | discriminate E].
Qed.

Lemma startswith_sep_append (a b : string) :
  a ≠ EmptyString → startswith_sep (a +:+ b) = startswith_sep a.
Proof. by destruct a. Qed.

Lemma splitroot_relative (p : string) :
  startswith_sep p = false → splitroot p = (EmptyString, p).
Proof.
  destruct p as [|c r]; [done|]. cbn [startswith_sep splitroot].
  by intros ->.
Qed.

Lemma filter_keep_all (l : list string) :
  forallb keep_part l = true → filter (λ x, Is_true (keep_part x)) l = l.
Proof.
  induction l as [|x l IH]; [done|]. cbn [forallb].
  intros [Hx Hl]%andb_true_iff. rewrite filter_cons_True by by rewrite Hx.
  by rewrite IH.
Qed.

(** Rendering a path built from a normal relative name, a normal relative
    version and the name again gives the three segments as they are. *)
Lemma str_three_segments (name version : string) :
  PathShape.normal_relative name = true →
  PathShape.normal_relative version = true →
  str (truediv (truediv_str (of_str name) version) (of_str name))
  = PathShape.three_segments name version.
Proof.
  intros Hn Hv.
  destruct (normal_relative_inv name Hn) as (Hne & Hns & Hnx).
  destruct (normal_relative_inv version Hv) as (Hve & Hvs & Hvx).
  unfold str, joined, truediv, truediv_str, of_str. cbn [_raw_paths app join foldl].
  assert (J1 : join_step name version = name +:+ "/" +:+ version).
  { unfold join_step. rewrite Hvs, Hnx, bool_decide_eq_false_2 by done. done. }
  rewrite J1.
  assert (J2 : join_step (name +:+ "/" +:+ version) name
               = PathShape.three_segments name version).
  { unfold join_step, PathShape.three_segments. rewrite Hns.
    rewrite bool_decide_eq_false_2 by (by destruct name).
    rewrite endswith_sep_append by done.
    rewrite (endswith_sep_append "/" version) by done. rewrite Hvx. cbn [orb].
    by rewrite !append_assoc. }
  rewrite J2. unfold parse_path.
  assert (Hp : PathShape.three_segments name version ≠ EmptyString).
  { unfold PathShape.three_segments. by destruct name. }
  rewrite bool_decide_eq_false_2 by done.
  rewrite splitroot_relative
    by (unfold PathShape.three_segments; by rewrite startswith_sep_append).
  assert (Hs : split (PathShape.three_segments name version)
               = split name ++ split version ++ split name).
  { unfold PathShape.three_segments. by rewrite !split_append_sep. }
  rewrite filter_keep_all.
  - unfold format_parsed_parts. rewrite append_empty_l, sep_join_split.
    by rewrite bool_decide_eq_false_2.
  - rewrite Hs, !forallb_app. unfold PathShape.normal_relative in Hn, Hv.
    by rewrite Hn, Hv.
Qed.

End posix_facts.

(** An absolute study name resets the join: the versioned path of the study
    [/s] at version [v] is [/s], not three segments. *)
Lemma versioned_path_of_absolute_name :
  let self := Demo.study_named "/s" None VNone in
  Posix.str (StudyDataset._get_versioned_path self "v") = "/s"
  ∧ Posix.str (StudyDataset._get_versioned_path self "v")
    ≠ PathShape.three_segments "/s" "v".
Proof. intros self. split; [reflexivity | discriminate]. Qed.

(** C3, as the code has it: when the logical name and the version token
    are relative paths in normal form (split at [/], no segment is empty or
    [.]), the versioned identifier is [name/version/name]; in particular,
    for the study [study1] with the save version [2024-01-01T00.00.00]
    pinned and no such study present, the resolved save identifier is
    [study1/2024-01-01T00.00.00/study1]. *)
Theorem versioned_identifier_shape {W obj url : Type}
    (api : StudyDataset.collaborators W obj url) :
  (∀ (self : StudyDataset.t) (version : string),
     PathShape.normal_relative (StudyDataset._study_name self) = true →
     PathShape.normal_relative version = true →
     Posix.str (StudyDataset._get_versioned_path self version)
     = PathShape.three_segments (StudyDataset._study_name self) version)
  ∧ (∀ (self : StudyDataset.t) (pinned_load : option string)
       (s s' : state W StudyDataset.event),
     StudyDataset._study_name self = "study1" →
     StudyDataset._version self
     = Some (Kedro.mkVersion pinned_load (Some "2024-01-01T00.00.00")) →
     StudyDataset._study_name_exists api self "study1/2024-01-01T00.00.00/study1" s
     = (s', Ok false) →
     StudyDataset._get_save_study_name api self s
     = (s', Ok "study1/2024-01-01T00.00.00/study1")).
Proof.
  split.
  - intros self version Hn Hv. unfold StudyDataset._get_versioned_path.
    by apply str_three_segments.
  - intros self pinned_load s s' Hname Hver Hex.
    unfold StudyDataset._get_save_study_name, StudyDataset.resolve_save_version.
    rewrite Hver. cbn [Kedro.save].
    unfold Eff.bind, StudyDataset.versioned_or_type_error, StudyDataset._get_versioned_path.
    rewrite Hname.
    change (Kedro.token_truthy (Some "2024-01-01T00.00.00")) with (Some "2024-01-01T00.00.00").
    cbn [Eff.ret].
    change (Posix.str _) with "study1/2024-01-01T00.00.00/study1".
    rewrite Hex. reflexivity.
Qed.

Lemma versioned_identifier_shape_witness :
  let v := Kedro.mkVersion None (Some "2024-01-01T00.00.00") in
  let self := Demo.study1 (Some v) VNone in
  let s := Demo.start ∅ Demo.empty_world in
  Posix.str (StudyDataset._get_versioned_path self "2024-01-01T00.00.00")
  = "study1/2024-01-01T00.00.00/study1"
  ∧ StudyDataset._get_save_study_name Demo.study_api self s
    = (mkState ∅ Demo.empty_world [StudyDataset.EvGetAllStudyNames "postgresql://@/optuna_db"],
       Ok "study1/2024-01-01T00.00.00/study1").
Proof.
  intros v self s. split.
  - apply (proj1 (versioned_identifier_shape Demo.study_api) self "2024-01-01T00.00.00");
      reflexivity.
  - apply (proj2 (versioned_identifier_shape Demo.study_api) self None s); reflexivity.
Defined.

(** ** Deep copies and the frame of [load] *)

Section deepcopy_frame.
Import HeapShape.
Variable h0 : heap.

Lemma grown_refl : grown h0 h0.
Proof.
  split; [done|]. intros l d k v Hn Hl. congruence.
Qed.

Lemma grown_fresh_None (h : heap) : grown h0 h → h0 !! fresh (dom h) = None.
Proof.
  intros [Hsub _]. eapply lookup_weaken_None; [|exact Hsub].
  apply not_elem_of_dom, is_fresh.
Qed.

Lemma grown_alloc (h : heap) (y : loc) (d : gmap string value) :
  grown h0 h → h !! y = None →
  (∀ k v, d !! k = Some v → new_value h0 v) →
  grown h0 (<[y := d]> h).
Proof.
  intros [Hsub Hcl] Hy Hd. split.
  - etrans; [exact Hsub|]. by apply insert_subseteq.
  - intros l d' k v Hn Hl Hk. destruct (decide (l = y)) as [->|Hne].
    + rewrite lookup_insert_eq in Hl. injection Hl as <-. eauto.
    + rewrite lookup_insert_ne in Hl by done. eauto.
Qed.

Lemma grown_update (h : heap) (y : loc) (f : gmap string value → gmap string value) :
  grown h0 h → h0 !! y = None →
  (∀ d, h !! y = Some d → ∀ k v, f d !! k = Some v → new_value h0 v) →
  grown h0 (alter f y h).
Proof.
  intros [Hsub Hcl] Hy Hf. split.
  - apply map_subseteq_spec. intros i x Hi.
    rewrite lookup_alter_ne by congruence.
    by eapply lookup_weaken.
  - intros l d k v Hn Hl Hk. destruct (decide (l = y)) as [->|Hne].
    + rewrite lookup_alter_eq in Hl.
      destruct (h !! y) as [d0|] eqn:E; [|discriminate Hl].
      injection Hl as <-. eauto.
    + rewrite lookup_alter_ne in Hl by done. eauto.
Qed.

Lemma grown_store_item (h : heap) (y : loc) (k : string) (v : value) :
  grown h0 h → h0 !! y = None → new_value h0 v →
  grown h0 (alter (insert k v) y h).
Proof.
  intros Hg Hy Hv. apply grown_update; [done..|].
  intros d Hd k' v' Hk'. destruct (decide (k' = k)) as [->|Hne].
  - rewrite lookup_insert_eq in Hk'. by injection Hk' as <-.
  - rewrite lookup_insert_ne in Hk' by done. destruct Hg as [_ Hcl]. eauto.
Qed.

Lemma grown_remove_key (h : heap) (y : loc) (d : gmap string value) (k : string) :
  grown h0 h → h0 !! y = None → h !! y = Some d →
  grown h0 (<[y := delete k d]> h).
Proof.
  intros [Hsub Hcl] Hy Hd. split.
  - apply map_subseteq_spec. intros i x Hi.
    rewrite lookup_insert_ne by congruence. by eapply lookup_weaken.
  - intros l d' k' v Hn Hl Hk. destruct (decide (l = y)) as [->|Hne].
    + rewrite lookup_insert_eq in Hl. injection Hl as <-.
      destruct (decide (k' = k)) as [->|Hk'].
      * by rewrite lookup_delete_eq in Hk.
      * rewrite lookup_delete_ne in Hk by done. eauto.
    + rewrite lookup_insert_ne in Hl by done. eauto.
Qed.

Local Ltac kept := split; [eassumption | split; [eassumption |]].

Lemma copy_items_ok copier (y : loc) (items : list (string * value)) :
  copier_ok h0 copier → h0 !! y = None →
  copier_ok h0 (λ h memo _, Py.copy_items copier y items h memo).
Proof.
  intros Hc Hy. induction items as [|[k v] rest IH]; intros h memo x h' memo' r Hg Hm.
  - cbn [Py.copy_items]. intros [= <- <- <-]. kept. by intros v [= <-].
  - cbn [Py.copy_items].
    destruct (copier h memo v) as [[h1 memo1] [v1|e]] eqn:E.
    + destruct (Hc _ _ _ _ _ _ Hg Hm E) as (Hg1 & Hm1 & Hv1).
      apply (IH _ _ x); [|done]. apply grown_store_item; auto.
    + intros [= <- <- <-]. destruct (Hc _ _ _ _ _ _ Hg Hm E) as (Hg1 & Hm1 & _).
      kept. done.
Qed.

Lemma deepcopy_memo_ok (depth : nat) : copier_ok h0 (Py.deepcopy_memo depth).
Proof.
  induction depth as [|depth IH]; intros h memo x h' memo' r Hg Hm;
    destruct x as [| | | |l]; cbn [Py.deepcopy_memo];
    try (intros [= <- <- <-]; kept; by intros v [= <-]).
  - destruct (memo !! l) as [l'|] eqn:El.
    + intros [= <- <- <-]. kept. intros v [= <-]. by eapply Hm.
    + intros [= <- <- <-]. kept. done.
  - destruct (memo !! l) as [l'|] eqn:El.
    { intros [= <- <- <-]. kept. intros v [= <-]. by eapply Hm. }
    destruct (h !! l) as [d|] eqn:Ed.
    2: { intros [= <- <- <-]. kept. done. }
    pose proof (grown_fresh_None h Hg) as Hy.
    apply (copy_items_ok _ _ _ IH Hy _ _ (VRef l)).
    + apply grown_alloc; [done| |done].
      apply not_elem_of_dom, is_fresh.
    + intros i i' Hi. destruct (decide (i = l)) as [->|Hne].
      * rewrite lookup_insert_eq in Hi. by injection Hi as <-.
      * rewrite lookup_insert_ne in Hi by done. by eapply Hm.
Qed.

Lemma deepcopy_ok (depth : nat) (h : heap) (x : value) (h' : heap) (r : result value) :
  grown h0 h → Py.deepcopy depth h x = (h', r) →
  grown h0 h' ∧ ∀ v, r = Ok v → new_value h0 v.
Proof.
  intros Hg. unfold Py.deepcopy.
  destruct (Py.deepcopy_memo depth h ∅ x) as [[h1 memo1] r1] eqn:E.
  intros [= <- <-].
  destruct (deepcopy_memo_ok depth _ _ _ _ _ _ Hg (λ l l' H, False_rect _ (lookup_empty_Some _ _ H)) E)
    as (Hg1 & _ & Hv).
  by split.
Qed.

Lemma pop_ok (h : heap) (v : value) (k : string) (h' : heap) (r : result value) :
  grown h0 h → new_value h0 v → Py.pop h v k = (h', r) →
  grown h0 h' ∧ ∀ x, r = Ok x → new_value h0 x.
Proof.
  intros Hg Hv. unfold Py.pop.
  destruct v as [| | | |l]; try (intros [= <- <-]; by split).
  destruct (h !! l) as [d|] eqn:Ed; [|intros [= <- <-]; by split].
  destruct (d !! k) as [x|] eqn:Ex; [|intros [= <- <-]; by split].
  intros [= <- <-]. split.
  - by apply grown_remove_key.
  - intros x' [= <-]. destruct Hg as [_ Hcl]. by eapply Hcl.
Qed.

End deepcopy_frame.

Section keeps.
Import HeapShape.
Context {W E : Type} (h0 : heap).

Local Abbreviation any := (λ _, True).

Local Ltac same_trace := exists []; by rewrite app_nil_r.

Lemma keeps_ret {A} (Q : A → Prop) (a : A) : Q a → keeps (W:=W) (E:=E) h0 Q (Eff.ret a).
Proof.
  intros Ha s s' r Hg [= <- <-]. split_and!; [done|done|same_trace|].
  by intros ? [= <-].
Qed.

Lemma keeps_raise {A} (Q : A → Prop) (e : exn) : keeps (W:=W) (E:=E) h0 Q (Eff.raise e).
Proof. intros s s' r Hg [= <- <-]. split_and!; [done|done|same_trace|done]. Qed.

Lemma keeps_lift {A} (r : result A) : keeps (W:=W) (E:=E) h0 any (Eff.lift r).
Proof. intros s s' r' Hg [= <- <-]. split_and!; [done|done|same_trace|done]. Qed.

Lemma keeps_query {A} (e : E) (f : W → result A) : keeps h0 any (Eff.query e f).
Proof. intros s s' r Hg [= <- <-]. split_and!; [done|done|by exists [e]|done]. Qed.

Lemma keeps_log (e : E) :
  keeps (W:=W) h0 any (λ s, (mkState (hp s) (wd s) (tr s ++ [e]), Ok tt)).
Proof. intros s s' r Hg [= <- <-]. split_and!; [done|done|by exists [e]|done]. Qed.

Lemma keeps_on_heap {A} (Q : A → Prop) (f : heap → heap * result A) :
  (∀ h h' r, grown h0 h → f h = (h', r) → grown h0 h' ∧ ∀ a, r = Ok a → Q a) →
  keeps (W:=W) (E:=E) h0 Q (Eff.on_heap f).
Proof.
  intros Hf s s' r Hg. unfold Eff.on_heap.
  destruct (f (hp s)) as [h' r'] eqn:Ef. intros [= <- <-].
  destruct (Hf _ _ _ Hg Ef) as [Hg' HQ].
  split_and!; [done|done|same_trace|done].
Qed.

Lemma keeps_bind {A B} (Q : A → Prop) (R : B → Prop)
    (m : M W E A) (k : A → M W E B) :
  keeps h0 Q m → (∀ a, Q a → keeps h0 R (k a)) → keeps h0 R (Eff.bind m k).
Proof.
  intros Hm Hk s s' r Hg. unfold Eff.bind.
  destruct (m s) as [s1 [a|e]] eqn:Em.
  - destruct (Hm _ _ _ Hg Em) as (Hg1 & Hw1 & (evs1 & Ht1) & Ha). intros Ek.
    destruct (Hk a (Ha a eq_refl) _ _ _ Hg1 Ek) as (Hg2 & Hw2 & (evs2 & Ht2) & Hb).
    split_and!; [done|congruence| |done].
    exists (evs1 ++ evs2). by rewrite Ht2, Ht1, app_assoc.
  - intros [= <- <-]. destruct (Hm _ _ _ Hg Em) as (Hg1 & Hw1 & Ht1 & _).
    by split_and!.
Qed.

End keeps.

Section load_keeps.
Import HeapShape StudyDataset.
Context {W obj url : Type} (api : collaborators W obj url) (h0 : heap).

Local Abbreviation any := (λ _, True).

Lemma keeps_contains (v : value) (k : string) :
  keeps (W:=W) (E:=event) h0 any (Eff.on_heap (λ h, (h, Py.contains h v k))).
Proof. apply keeps_on_heap. intros h h' r Hg [= <- <-]. by split. Qed.

Lemma keeps_pop (v : value) (k : string) :
  new_value h0 v →
  keeps (W:=W) (E:=event) h0 (new_value h0) (Eff.on_heap (λ h, Py.pop h v k)).
Proof. intros Hv. apply keeps_on_heap. intros h h' r Hg Hp. by eapply pop_ok. Qed.

Lemma keeps_construct (kind : strategy) (name : value)
    (cls : heap → gmap string value → result obj) (config : value) :
  keeps h0 any (construct (W:=W) kind name cls config).
Proof.
  unfold construct.
  eapply keeps_bind.
  { apply (keeps_on_heap h0 any). intros h h' r Hg [= <- <-]. by split. }
  intros kw _. eapply (keeps_bind h0 any); [apply keeps_log|].
  intros _ _ s s' r Hg [= <- <-]. split_and!; [done|done| |done].
  exists []. by rewrite app_nil_r.
Qed.

Lemma keeps_get_sampler_from_config (self : t) (config : value) :
  new_value h0 config → keeps h0 any (_get_sampler_from_config api self config).
Proof.
  intros Hv. unfold _get_sampler_from_config.
  destruct config; try (by apply keeps_ret);
    (eapply keeps_bind; [apply keeps_contains|]; intros has _;
     destruct has; cbn [negb]; [|apply keeps_raise];
     eapply keeps_bind; [by apply keeps_pop|]; intros name _;
     eapply keeps_bind; [apply keeps_lift|]; intros cls _;
     eapply keeps_bind; [apply keeps_construct|]; intros o _;
     by apply keeps_ret).
Qed.

Lemma keeps_get_pruner_from_config (self : t) (config : value) :
  new_value h0 config → keeps h0 any (_get_pruner_from_config api self config).
Proof.
  intros Hv. unfold _get_pruner_from_config.
  destruct config; try (by apply keeps_ret);
    (eapply keeps_bind; [apply keeps_contains|]; intros has _;
     destruct has; cbn [negb]; [|apply keeps_raise];
     eapply keeps_bind; [by apply keeps_pop|]; intros name _;
     eapply keeps_bind; [apply keeps_lift|]; intros cls _;
     eapply keeps_bind; [apply keeps_construct|]; intros o _;
     by apply keeps_ret).
Qed.

Lemma keeps_get_load_study_name (self : t) :
  keeps h0 any (_get_load_study_name api self).
Proof.
  unfold _get_load_study_name, resolve_load_version, versioned_or_type_error.
  destruct (_version self) as [v|]; [|by apply keeps_ret].
  eapply (keeps_bind h0 any).
  - destruct (Kedro.token_truthy (Kedro.load v)); [by apply keeps_ret|].
    eapply keeps_bind; [apply keeps_query|]. intros lv _. by apply keeps_ret.
  - intros [lv|] _; [by apply keeps_ret | apply keeps_raise].
Qed.

Lemma keeps_load (self : t) : keeps h0 any (load api self).
Proof.
  unfold load.
  eapply keeps_bind.
  { apply (keeps_on_heap h0 (new_value h0)). intros h h' r Hg Hd. by eapply deepcopy_ok. }
  intros load_args Hla.
  eapply keeps_bind; [by apply keeps_pop|]. intros sampler_config Hsc.
  eapply keeps_bind; [by apply keeps_get_sampler_from_config|]. intros sampler _.
  eapply keeps_bind; [by apply keeps_pop|]. intros pruner_config Hpc.
  eapply keeps_bind; [by apply keeps_get_pruner_from_config|]. intros pruner _.
  eapply keeps_bind; [apply keeps_get_load_study_name|]. intros study_name _.
  apply keeps_query.
Qed.

End load_keeps.

Lemma load_frame {W obj url : Type} (api : StudyDataset.collaborators W obj url)
    (self : StudyDataset.t) (s : state W StudyDataset.event) :
  hp s ⊆ hp (StudyDataset.load api self s).1.
Proof.
  destruct (StudyDataset.load api self s) as [s' r] eqn:E.
  destruct (keeps_load api (hp s) self s s' r (grown_refl (hp s)) E) as [[Hsub _] _].
  exact Hsub.
Qed.

Lemma load_times_frame {W obj url : Type} (api : StudyDataset.collaborators W obj url)
    (self : StudyDataset.t) (n : nat) (s : state W StudyDataset.event) :
  hp s ⊆ hp (Repeated.load_times api self n s).
Proof.
  revert s. induction n as [|n IH]; intros s; [done|].
  cbn [Repeated.load_times]. etrans; [apply (load_frame api self s) | apply IH].
Qed.

(** ** Deep copies are faithful *)

Section deepcopy_spec.
Import HeapShape.
Variable h0 : heap.

Lemma rename_mono (memo memo' : gmap loc loc) (v : value) :
  memo ⊆ memo' → (∀ j, v = VRef j → is_Some (memo !! j)) →
  rename memo' v = rename memo v.
Proof.
  intros Hsub Hv. destruct v as [| | | |j]; try done.
  destruct (Hv j eq_refl) as [j' Hj]. cbn [rename].
  by rewrite Hj, (lookup_weaken _ _ _ _ Hj Hsub).
Qed.

Lemma rename_fmap_mono (memo memo' : gmap loc loc) (d : gmap string value) :
  memo ⊆ memo' → (∀ k j, d !! k = Some (VRef j) → is_Some (memo !! j)) →
  rename memo' <$> d = rename memo <$> d.
Proof.
  intros Hsub Hd. apply map_fmap_ext. intros k v Hk.
  apply rename_mono; [done|]. intros j ->. by eapply Hd.
Qed.

Lemma shallow_children (n : nat) (l : loc) (d : gmap string value) :
  shallow (S n) h0 (VRef l) = true → h0 !! l = Some d →
  ∀ k v, d !! k = Some v → shallow n h0 v = true.
Proof.
  cbn [shallow]. intros Hs Hl k v Hk. rewrite Hl in Hs.
  rewrite forallb_forall in Hs.
  apply (Hs (k, v)). apply list_elem_of_In. by apply elem_of_map_to_list.
Qed.

Lemma shallow_lookup (n : nat) (l : loc) :
  shallow n h0 (VRef l) = true → ∃ n' d, n = S n' ∧ h0 !! l = Some d.
Proof.
  destruct n as [|n']; [done|]. cbn [shallow].
  destruct (h0 !! l) as [d|]; [|done]. by exists n', d.
Qed.

Lemma memo_inv_store (h : heap) (memo : gmap loc loc) (pending : gset loc)
    (l y : loc) (k : string) (v : value) :
  memo_inv h0 h memo pending → memo !! l = Some y → l ∈ pending →
  memo_inv h0 (alter (insert k v) y h) memo pending.
Proof.
  intros [Ht Hi Hd] Hl Hp. split.
  - intros i i' Hm. destruct (Ht _ _ Hm) as [Hn Hs]. split; [done|].
    destruct (decide (i' = y)) as [->|Hne].
    + rewrite lookup_alter_eq. by apply fmap_is_Some.
    + by rewrite lookup_alter_ne.
  - exact Hi.
  - intros i i' d Hm Hnp Hd0.
    assert (i' ≠ y) as Hne.
    { intros ->. apply Hnp. by rewrite (Hi _ _ _ Hm Hl). }
    rewrite lookup_alter_ne by done. by eapply Hd.
Qed.

Lemma copy_items_spec (n : nat) copier (pending : gset loc) (l y : loc)
    (d : gmap string value) :
  copier_spec h0 n copier → h0 !! l = Some d →
  ∀ rest h memo dy h' memo' r,
    h0 ⊆ h → memo_inv h0 h memo (pending ∪ {[l]}) →
    memo !! l = Some y → h !! y = Some dy →
    NoDup rest.*1 →
    (∀ k v, (k, v) ∈ rest → d !! k = Some v ∧ shallow n h0 v = true) →
    (∀ k, dy !! k = if decide (k ∈ rest.*1) then None else rename memo <$> d !! k) →
    (∀ k j, k ∉ rest.*1 → d !! k = Some (VRef j) → is_Some (memo !! j)) →
    Py.copy_items copier y rest h memo = (h', memo', r) →
    (∀ j a, j ≠ y → h !! j = Some a → h' !! j = Some a)
    ∧ memo ⊆ memo'
    ∧ memo_inv h0 h' memo' (pending ∪ {[l]})
    ∧ r = Ok (VRef y)
    ∧ h' !! y = Some (rename memo' <$> d)
    ∧ ∀ k j, d !! k = Some (VRef j) → is_Some (memo' !! j).
Proof.
  intros Hc Hl rest. induction rest as [|[k v] rest IH];
    intros h memo dy h' memo' r Hsub Hinv Hy Hdy Hnd Hrest Hshape Hrefs.
  - cbn [Py.copy_items]. intros [= <- <- <-].
    split_and!; try done.
    + rewrite Hdy. f_equal. apply map_eq. intros k0.
      rewrite Hshape, lookup_fmap. by rewrite decide_False by apply not_elem_of_nil.
    + intros k0 j. apply Hrefs. apply not_elem_of_nil.
  - cbn [Py.copy_items].
    apply NoDup_cons in Hnd as [Hk Hnd]. cbn [fmap list_fmap fst] in Hk.
    destruct (Hrest k v ltac:(left)) as [Hdk Hsh].
    destruct (copier h memo v) as [[h1 memo1] r1] eqn:E.
    destruct (Hc _ _ _ _ _ _ _ Hsub Hinv Hsh E) as (Hsub1 & Hm1 & Hinv1 & -> & Hv1).
    assert (Hy1 : memo1 !! l = Some y) by by eapply lookup_weaken.
    assert (Hy0 : h0 !! y = None) by (by destruct (memo_targets _ _ _ _ Hinv _ _ Hy)).
    intros Hrun.
    destruct (IH (alter (insert k (rename memo1 v)) y h1) memo1
                (<[k := rename memo1 v]> dy) h' memo' r) as (Hf & Hm' & Hinv' & Hr & Hy' & Hrefs');
      try done.
    + apply map_subseteq_spec. intros i a Hi.
      rewrite lookup_alter_ne by congruence.
      eapply lookup_weaken; [|exact Hsub1]. by eapply lookup_weaken.
    + eapply memo_inv_store; [done..|]. apply elem_of_union_r. by apply elem_of_singleton.
    + rewrite lookup_alter_eq. by rewrite (lookup_weaken _ _ _ _ Hdy Hsub1).
    + intros k0 v0 Hin. apply Hrest. by right.
    + intros k0. destruct (decide (k0 = k)) as [->|Hne].
      * rewrite lookup_insert_eq, decide_False by done.
        by rewrite Hdk.
      * rewrite lookup_insert_ne by done. rewrite Hshape.
        cbn [fmap list_fmap fst].
        destruct (decide (k0 ∈ rest.*1)) as [Hin|Hnin].
        -- by rewrite decide_True by by right.
        -- rewrite decide_False by by apply not_elem_of_cons.
           destruct (d !! k0) as [v0|] eqn:Ek0; [|done]. cbn. f_equal.
           symmetry. apply rename_mono; [done|]. intros j ->.
           eapply Hrefs; [|done]. by apply not_elem_of_cons.
    + intros k0 j Hnin Hk0. destruct (decide (k0 = k)) as [->|Hne].
      * apply Hv1. congruence.
      * destruct (Hrefs k0 j) as [j' Hj]; [by apply not_elem_of_cons|done|].
        exists j'. by eapply lookup_weaken.
    + split_and!; try done.
      * intros j a Hj Ha. apply Hf; [done|].
        rewrite lookup_alter_ne by done. by eapply lookup_weaken.
      * by etrans.
Qed.

Lemma memo_inv_begin (h : heap) (memo : gmap loc loc) (pending : gset loc) (l y : loc) :
  h0 ⊆ h → memo_inv h0 h memo pending → memo !! l = None → h !! y = None →
  memo_inv h0 (<[y := ∅]> h) (<[l := y]> memo) (pending ∪ {[l]}).
Proof.
  intros Hsub [Ht Hi Hd] Hl Hy.
  assert (Hmono : memo ⊆ <[l := y]> memo) by by apply insert_subseteq.
  assert (Hother : ∀ i i', memo !! i = Some i' → i' ≠ y).
  { intros i i' Hm ->. destruct (Ht _ _ Hm) as [_ [a Ha]]. congruence. }
  split.
  - intros i i' Hm. destruct (decide (i = l)) as [->|Hne].
    + rewrite lookup_insert_eq in Hm. injection Hm as <-. split.
      * by eapply lookup_weaken_None.
      * rewrite lookup_insert_eq. by eexists.
    + rewrite lookup_insert_ne in Hm by done. destruct (Ht _ _ Hm) as [Hn Hs].
      split; [done|]. rewrite lookup_insert_ne; [done|].
      intros <-. by eapply Hother.
  - intros i1 i2 i' H1 H2.
    destruct (decide (i1 = l)) as [->|Hne1]; destruct (decide (i2 = l)) as [->|Hne2];
      [done|..].
    + rewrite lookup_insert_eq in H1. injection H1 as <-.
      rewrite lookup_insert_ne in H2 by done. by destruct (Hother _ _ H2).
    + rewrite lookup_insert_eq in H2. injection H2 as <-.
      rewrite lookup_insert_ne in H1 by done. by destruct (Hother _ _ H1).
    + rewrite lookup_insert_ne in H1, H2 by done. by eapply Hi.
  - intros i i' d Hm Hnp Hd0.
    assert (i ≠ l) as Hne.
    { intros ->. apply Hnp. apply elem_of_union_r. by apply elem_of_singleton. }
    rewrite lookup_insert_ne in Hm by done.
    destruct (Hd i i' d Hm) as [Hc Hr]; [|done|].
    { intros Hp. apply Hnp. by apply elem_of_union_l. }
    split.
    + rewrite lookup_insert_ne by (intros <-; by eapply Hother).
      rewrite Hc. f_equal. symmetry. by apply rename_fmap_mono.
    + intros k j Hk. destruct (Hr k j Hk) as [j' Hj]. exists j'.
      by eapply lookup_weaken.
Qed.

Lemma memo_inv_finish (h : heap) (memo : gmap loc loc) (pending : gset loc)
    (l y : loc) (d : gmap string value) :
  memo_inv h0 h memo (pending ∪ {[l]}) →
  memo !! l = Some y → h0 !! l = Some d →
  h !! y = Some (rename memo <$> d) →
  (∀ k j, d !! k = Some (VRef j) → is_Some (memo !! j)) →
  memo_inv h0 h memo pending.
Proof.
  intros [Ht Hi Hd] Hl Hl0 Hy Hrefs. split; [done..|].
  intros i i' d' Hm Hnp Hd0. destruct (decide (i = l)) as [->|Hne].
  - assert (i' = y) as -> by congruence.
    assert (d' = d) as -> by congruence. done.
  - apply (Hd i i' d'); [done| |done].
    intros [Hp|Hp%elem_of_singleton]%elem_of_union; done.
Qed.

Lemma map_to_list_keys (d : gmap string value) (k : string) :
  k ∉ (map_to_list d).*1 → d !! k = None.
Proof.
  intros Hk. destruct (d !! k) as [v|] eqn:E; [|done].
  exfalso. apply Hk. apply list_elem_of_fmap. exists (k, v).
  split; [done|]. by apply elem_of_map_to_list.
Qed.

Lemma deepcopy_memo_spec (depth n : nat) :
  (n ≤ depth)%nat → copier_spec h0 n (Py.deepcopy_memo depth).
Proof.
  revert n. induction depth as [|depth IH];
    intros n Hn h memo pending x h' memo' r Hsub Hinv Hsh;
    destruct x as [| | | |l]; cbn [Py.deepcopy_memo];
    try (intros [= <- <- <-]; split_and!; done).
  - destruct (shallow_lookup n l Hsh) as (n' & d & -> & _). lia.
  - destruct (shallow_lookup n l Hsh) as (n' & d & -> & Hl).
    destruct (memo !! l) as [l'|] eqn:Em.
    { intros [= <- <- <-]. split_and!; try done.
      - cbn [rename]. by rewrite Em.
      - intros ? [= <-]. by eexists. }
    rewrite (lookup_weaken _ _ _ _ Hl Hsub).
    set (y := fresh (dom h)).
    assert (Hy : h !! y = None) by apply not_elem_of_dom, is_fresh.
    intros Hrun.
    destruct (copy_items_spec n' (Py.deepcopy_memo depth) pending l y d
                (IH n' ltac:(lia)) Hl (map_to_list d) (<[y := ∅]> h) (<[l := y]> memo) ∅
                h' memo' r)
      as (Hf & Hm' & Hinv' & -> & Hy' & Hrefs'); try done.
    + etrans; [exact Hsub|]. by apply insert_subseteq.
    + by apply memo_inv_begin.
    + apply lookup_insert_eq.
    + apply lookup_insert_eq.
    + apply NoDup_fst_map_to_list.
    + intros k v Hin%elem_of_map_to_list. split; [done|].
      by eapply shallow_children.
    + intros k. rewrite lookup_empty. case_decide as Hk; [done|].
      by rewrite (map_to_list_keys d k Hk).
    + intros k j Hk Hd. by rewrite (map_to_list_keys d k Hk) in Hd.
    + assert (Hl' : memo' !! l = Some y).
      { eapply lookup_weaken; [|exact Hm']. apply lookup_insert_eq. }
      split_and!.
      * apply map_subseteq_spec. intros i a Hi. apply Hf; [congruence|].
        rewrite lookup_insert_ne; [done|congruence].
      * etrans; [|exact Hm']. by apply insert_subseteq.
      * by eapply memo_inv_finish.
      * cbn [rename]. by rewrite Hl'.
      * intros ? [= <-]. by eexists.
Qed.

Lemma memo_inv_empty (h : heap) : memo_inv h0 h ∅ ∅.
Proof. split; intros *; by rewrite lookup_empty. Qed.

(** A deep copy of a dictionary nested at most [depth] deep succeeds and
    returns a new object whose entries are copies of the original's. *)
Lemma deepcopy_spec (depth : nat) (x : value) (h' : heap) (r : result value) :
  shallow depth h0 x = true →
  Py.deepcopy depth h0 x = (h', r) →
  ∃ memo, h0 ⊆ h' ∧ memo_inv h0 h' memo ∅ ∧ r = Ok (rename memo x)
          ∧ ∀ l, x = VRef l → is_Some (memo !! l).
Proof.
  intros Hsh. unfold Py.deepcopy.
  destruct (Py.deepcopy_memo depth h0 ∅ x) as [[h1 memo1] r1] eqn:E.
  intros [= <- <-].
  destruct (deepcopy_memo_spec depth depth (le_n _) h0 ∅ ∅ x h1 memo1 r1) as (? & ? & ? & ? & ?);
    [done|apply memo_inv_empty|done..|].
  by exists memo1.
Qed.

End deepcopy_spec.

(** ** What a load builds *)

Section logs.
Context {W E : Type}.
Import Traces.

Lemma logs_ret {A} (a : A) : logs (W:=W) (E:=E) (Eff.ret a).
Proof. intros s s' r [= <- <-]. exists []. by rewrite app_nil_r. Qed.

Lemma logs_raise {A} (e : exn) : logs (W:=W) (E:=E) (Eff.raise (A:=A) e).
Proof. intros s s' r [= <- <-]. exists []. by rewrite app_nil_r. Qed.

Lemma logs_lift {A} (r : result A) : logs (W:=W) (E:=E) (Eff.lift r).
Proof. intros s s' r' [= <- <-]. exists []. by rewrite app_nil_r. Qed.

Lemma logs_query {A} (e : E) (f : W → result A) : logs (Eff.query e f).
Proof. intros s s' r [= <- <-]. by exists [e]. Qed.

Lemma logs_on_heap {A} (f : heap → heap * result A) : logs (W:=W) (E:=E) (Eff.on_heap f).
Proof.
  intros s s' r. unfold Eff.on_heap. destruct (f (hp s)) as [h' r'].
  intros [= <- <-]. exists []. by rewrite app_nil_r.
Qed.

Lemma logs_bind {A B} (m : M W E A) (k : A → M W E B) :
  logs m → (∀ a, logs (k a)) → logs (Eff.bind m k).
Proof.
  intros Hm Hk s s' r. unfold Eff.bind.
  destruct (m s) as [s1 [a|e]] eqn:Em.
  - intros Ek. destruct (Hm _ _ _ Em) as [evs1 H1].
    destruct (Hk a _ _ _ Ek) as [evs2 H2].
    exists (evs1 ++ evs2). by rewrite H2, H1, app_assoc.
  - intros [= <- <-]. by eapply Hm.
Qed.

Lemma bind_on_heap {A B} (f : heap → heap * result A) (k : A → M W E B)
    (s : state W E) (h' : heap) (a : A) :
  f (hp s) = (h', Ok a) →
  Eff.bind (Eff.on_heap f) k s = k a (mkState h' (wd s) (tr s)).
Proof. intros Hf. unfold Eff.bind, Eff.on_heap. by rewrite Hf. Qed.

End logs.

Section load_builds.
Import HeapShape StudyDataset Traces.
Context {W obj url : Type} (api : collaborators W obj url).

Lemma logs_construct (kind : strategy) (name : value)
    (cls : heap → gmap string value → result obj) (config : value) :
  logs (construct (W:=W) kind name cls config).
Proof.
  unfold construct. apply logs_bind; [apply logs_on_heap|]. intros kw.
  apply logs_bind.
  - intros s s' r [= <- <-]. by eexists.
  - intros _ s s' r [= <- <-]. exists []. by rewrite app_nil_r.
Qed.

Lemma logs_get_sampler_from_config (self : t) (config : value) :
  logs (_get_sampler_from_config api self config).
Proof.
  unfold _get_sampler_from_config.
  destruct config; try apply logs_ret;
    (apply logs_bind; [apply logs_on_heap|]; intros has;
     destruct has; cbn [negb]; [|apply logs_raise];
     apply logs_bind; [apply logs_on_heap|]; intros name;
     apply logs_bind; [apply logs_lift|]; intros cls;
     apply logs_bind; [apply logs_construct|]; intros o;
     apply logs_ret).
Qed.

Lemma logs_get_pruner_from_config (self : t) (config : value) :
  logs (_get_pruner_from_config api self config).
Proof.
  unfold _get_pruner_from_config.
  destruct config; try apply logs_ret;
    (apply logs_bind; [apply logs_on_heap|]; intros has;
     destruct has; cbn [negb]; [|apply logs_raise];
     apply logs_bind; [apply logs_on_heap|]; intros name;
     apply logs_bind; [apply logs_lift|]; intros cls;
     apply logs_bind; [apply logs_construct|]; intros o;
     apply logs_ret).
Qed.

Lemma logs_get_load_study_name (self : t) : logs (_get_load_study_name api self).
Proof.
  unfold _get_load_study_name, resolve_load_version, versioned_or_type_error.
  destruct (_version self) as [v|]; [|apply logs_ret].
  apply logs_bind.
  - destruct (Kedro.token_truthy (Kedro.load v)); [apply logs_ret|].
    apply logs_bind; [apply logs_query|]. intros lv. apply logs_ret.
  - intros [lv|]; [apply logs_ret | apply logs_raise].
Qed.

Lemma flat_rename (memo : gmap loc loc) (d : gmap string value) :
  flat d = true → rename memo <$> d = d.
Proof.
  unfold flat. rewrite forallb_forall. intros Hf.
  apply map_eq. intros k. rewrite lookup_fmap.
  destruct (d !! k) as [v|] eqn:E; [|done]. cbn. f_equal.
  destruct v as [| | | |l]; try done.
  exfalso. apply elem_of_map_to_list, list_elem_of_In, Hf in E. discriminate E.
Qed.

(** After the sampler is built, [load] goes on with the pruner and the
    study; all of that only adds to the trace. *)
Lemma logs_load_rest (self : t) (load_args : value) (sampler : option obj) :
  logs (
    let! pruner_config := Eff.on_heap (λ h, Py.pop h load_args "pruner") in
    let! pruner := _get_pruner_from_config api self pruner_config in
    let! study_name := _get_load_study_name api self in
    Eff.query (EvLoadStudy (_storage self) study_name)
      (λ w, load_study api w (_storage self) study_name sampler pruner)).
Proof.
  apply logs_bind; [apply logs_on_heap|]. intros pruner_config.
  apply logs_bind; [apply logs_get_pruner_from_config|]. intros pruner.
  apply logs_bind; [apply logs_get_load_study_name|]. intros study_name.
  apply logs_query.
Qed.

(** With a sampler configured by a dictionary of atomic values that names
    the class [X], the first thing [load] does to the outside is to build
    [X] from the stored entries other than [class]. *)
Lemma load_builds_sampler (self : t) (s : state W event)
    (la ls : loc) (d cfg : gmap string value) (X : string)
    (cls : heap → gmap string value → result obj) :
  _load_args self = VRef la →
  hp s !! la = Some d →
  shallow (recursion_limit api) (hp s) (VRef la) = true →
  d !! "sampler" = Some (VRef ls) →
  ls ≠ la →
  hp s !! ls = Some cfg →
  flat cfg = true →
  cfg !! "class" = Some (VStr X) →
  samplers api !! X = Some cls →
  ∃ evs, tr (load api self s).1
         = tr s ++ EvConstruct Sampler X (delete "class" cfg) :: evs.
Proof.
  intros Hself Hla Hsh Hsampler Hne Hls Hflat Hclass Hcls.
  unfold load. rewrite Hself.
  destruct (Py.deepcopy (recursion_limit api) (hp s) (VRef la)) as [h1 r1] eqn:Ecopy.
  destruct (deepcopy_spec (hp s) _ _ _ _ Hsh Ecopy) as (memo & Hsub & Hinv & -> & Hin).
  destruct (Hin la eq_refl) as [la' Hla'].
  destruct (memo_done _ _ _ _ Hinv la la' d Hla' ltac:(set_solver) Hla) as [Hcopy Hrefs].
  destruct (Hrefs _ _ Hsampler) as [ls' Hls'].
  destruct (memo_done _ _ _ _ Hinv ls ls' cfg Hls' ltac:(set_solver) Hls) as [Hcfg _].
  rewrite flat_rename in Hcfg by done.
  assert (Hne' : ls' ≠ la').
  { intros ->. apply Hne. by eapply (memo_inj _ _ _ _ Hinv). }
  cbn [rename] in Ecopy. rewrite Hla' in Ecopy.
  rewrite (bind_on_heap _ _ s h1 (VRef la') Ecopy).
  erewrite bind_on_heap; cycle 1.
  { cbn [hp]. eapply pop_present; [exact Hcopy|].
    rewrite lookup_fmap, Hsampler. cbn [fmap option_fmap option_map rename].
    by rewrite Hls'. }
  cbn [hp wd tr]. unfold Eff.bind at 1.
  erewrite sampler_is_built; [|cbn [hp]; by rewrite lookup_insert_ne|done..].
  cbn [hp wd tr].
  destruct (cls _ _) as [o|e].
  - match goal with |- context [ (?k ?st).1 ] => destruct (k st) as [s' r] eqn:Erest end.
    destruct (logs_load_rest self (VRef la') (Some o) _ _ _ Erest) as [evs Hevs].
    exists evs. cbn [fst]. rewrite Hevs. cbn [tr]. by rewrite <- app_assoc.
  - by exists [].
Qed.

(** The part of [load] that pops and builds the pruner, run from a state
    in which the load arguments [la'] hold a pruner configuration [lp']
    that names the class [Y]: the class is called with the entries other
    than [class]; if it raises, so does [load], else the study is loaded. *)
Lemma load_pruner_stage (self : t) (s1 : state W event) (sampler : option obj)
    (la' lp' : loc) (d1 cfgp : gmap string value) (Y : string)
    (clsp : heap → gmap string value → result obj) :
  hp s1 !! la' = Some d1 → d1 !! "pruner" = Some (VRef lp') → lp' ≠ la' →
  hp s1 !! lp' = Some cfgp → cfgp !! "class" = Some (VStr Y) →
  pruners api !! Y = Some clsp →
  let h2 := <[lp' := delete "class" cfgp]> (<[la' := delete "pruner" d1]> (hp s1)) in
  let built := mkState h2 (wd s1) (tr s1 ++ [EvConstruct Pruner Y (delete "class" cfgp)]) in
  (let! pruner_config := Eff.on_heap (λ h, Py.pop h (VRef la') "pruner") in
   let! pruner := _get_pruner_from_config api self pruner_config in
   let! study_name := _get_load_study_name api self in
   Eff.query (EvLoadStudy (_storage self) study_name)
     (λ w, load_study api w (_storage self) study_name sampler pruner)) s1
  = match clsp h2 (delete "class" cfgp) with
    | Raise e => (built, Raise e)
    | Ok pruner =>
        (let! study_name := _get_load_study_name api self in
         Eff.query (EvLoadStudy (_storage self) study_name)
           (λ w, load_study api w (_storage self) study_name sampler (Some pruner))) built
    end.
Proof.
  intros Hla Hp Hne Hlp Hc Hcls h2 built.
  erewrite bind_on_heap by (eapply pop_present; eassumption).
  unfold Eff.bind at 1.
  erewrite pruner_is_built; [|cbn [hp]; by rewrite lookup_insert_ne|done..].
  cbn [hp wd tr]. fold h2. by destruct (clsp h2 _).
Qed.

(** With a sampler and a pruner each configured by a dictionary of atomic
    values, [load] builds the sampler's class [X] from the stored entries
    other than [class]; if that raises, [load] raises the same and stops;
    otherwise it builds the pruner's class [Y] from its stored entries other
    than [class]; if that raises, [load] raises the same; otherwise the
    study is loaded with the two objects. *)
Lemma load_builds_sampler_then_pruner (self : t) (s : state W event)
    (la ls : loc) (d cfg : gmap string value) (X : string)
    (cls : heap → gmap string value → result obj) :
  _load_args self = VRef la →
  hp s !! la = Some d →
  shallow (recursion_limit api) (hp s) (VRef la) = true →
  d !! "sampler" = Some (VRef ls) → ls ≠ la →
  hp s !! ls = Some cfg → flat cfg = true → cfg !! "class" = Some (VStr X) →
  samplers api !! X = Some cls →
  ∃ h1, hp s ⊆ h1 ∧
    let built := mkState h1 (wd s) (tr s ++ [EvConstruct Sampler X (delete "class" cfg)]) in
    match cls h1 (delete "class" cfg) with
    | Raise e => load api self s = (built, Raise e)
    | Ok sampler =>
        ∀ lp cfgp Y clsp,
          d !! "pruner" = Some (VRef lp) → lp ≠ la → lp ≠ ls →
          hp s !! lp = Some cfgp → flat cfgp = true → cfgp !! "class" = Some (VStr Y) →
          pruners api !! Y = Some clsp →
          ∃ h2, hp s ⊆ h2 ∧
            let built' :=
              mkState h2 (wd s) (tr built ++ [EvConstruct Pruner Y (delete "class" cfgp)]) in
            match clsp h2 (delete "class" cfgp) with
            | Raise e => load api self s = (built', Raise e)
            | Ok pruner =>
                load api self s
                = (let! study_name := _get_load_study_name api self in
                   Eff.query (EvLoadStudy (_storage self) study_name)
                     (λ w, load_study api w (_storage self) study_name
                             (Some sampler) (Some pruner))) built'
            end
    end.
Proof.
  intros Hself Hla Hsh Hsampler Hne Hls Hflat Hclass Hcls.
  destruct (Py.deepcopy (recursion_limit api) (hp s) (VRef la)) as [hc r1] eqn:Ecopy.
  destruct (deepcopy_spec (hp s) _ _ _ _ Hsh Ecopy) as (memo & Hsub & Hinv & -> & Hin).
  destruct (Hin la eq_refl) as [la' Hla'].
  destruct (memo_done _ _ _ _ Hinv la la' d Hla' ltac:(set_solver) Hla) as [Hcopy Hrefs].
  destruct (Hrefs _ _ Hsampler) as [ls' Hls'].
  destruct (memo_done _ _ _ _ Hinv ls ls' cfg Hls' ltac:(set_solver) Hls) as [Hcfg _].
  rewrite flat_rename in Hcfg by done.
  assert (Hne1 : ls' ≠ la').
  { intros ->. apply Hne. by eapply (memo_inj _ _ _ _ Hinv). }
  cbn [rename] in Ecopy. rewrite Hla' in Ecopy.
  set (dc := rename memo <$> d) in *.
  set (h1 := <[ls' := delete "class" cfg]> (<[la' := delete "sampler" dc]> hc)).
  assert (Hsub1 : hp s ⊆ h1).
  { apply insert_subseteq_r; [by eapply (memo_targets _ _ _ _ Hinv)|].
    apply insert_subseteq_r; [by eapply (memo_targets _ _ _ _ Hinv)|done]. }
  assert (Hload : load api self s
    = match cls h1 (delete "class" cfg) with
      | Raise e =>
          (mkState h1 (wd s) (tr s ++ [EvConstruct Sampler X (delete "class" cfg)]), Raise e)
      | Ok o =>
          (let! pruner_config := Eff.on_heap (λ h, Py.pop h (VRef la') "pruner") in
           let! pruner := _get_pruner_from_config api self pruner_config in
           let! study_name := _get_load_study_name api self in
           Eff.query (EvLoadStudy (_storage self) study_name)
             (λ w, load_study api w (_storage self) study_name (Some o) pruner))
            (mkState h1 (wd s) (tr s ++ [EvConstruct Sampler X (delete "class" cfg)]))
      end).
  { unfold load. rewrite Hself.
    rewrite (bind_on_heap _ _ s hc (VRef la') Ecopy).
    erewrite bind_on_heap; cycle 1.
    { cbn [hp]. eapply pop_present; [exact Hcopy|].
      unfold dc. rewrite lookup_fmap, Hsampler. cbn [fmap option_fmap option_map rename].
      by rewrite Hls'. }
    cbn [hp wd tr]. unfold Eff.bind at 1.
    erewrite sampler_is_built; [|cbn [hp]; by rewrite lookup_insert_ne|done..].
    cbn [hp wd tr]. fold h1. by destruct (cls h1 _). }
  exists h1. split; [exact Hsub1|]. cbn zeta.
  destruct (cls h1 (delete "class" cfg)) as [o|e]; [|exact Hload].
  intros lp cfgp Y clsp Hpruner Hpa Hps Hlp Hflatp Hclassp Hclsp.
  destruct (Hrefs _ _ Hpruner) as [lp' Hlp'].
  destruct (memo_done _ _ _ _ Hinv lp lp' cfgp Hlp' ltac:(set_solver) Hlp) as [Hcfgp _].
  rewrite flat_rename in Hcfgp by done.
  assert (Hne2 : lp' ≠ la').
  { intros ->. apply Hpa. by eapply (memo_inj _ _ _ _ Hinv). }
  assert (Hne3 : lp' ≠ ls').
  { intros ->. apply Hps. by eapply (memo_inj _ _ _ _ Hinv). }
  rewrite Hload.
  rewrite (load_pruner_stage self _ (Some o) la' lp' (delete "sampler" dc) cfgp Y clsp);
    cbn [hp wd tr]; cycle 1.
  { unfold h1. rewrite lookup_insert_ne by done. apply lookup_insert_eq. }
  { rewrite lookup_delete_ne by done.
    unfold dc. rewrite lookup_fmap, Hpruner. cbn [fmap option_fmap option_map rename].
    by rewrite Hlp'. }
  { done. }
  { unfold h1. by rewrite !lookup_insert_ne. }
  { done. }
  { done. }
  exists (<[lp' := delete "class" cfgp]> (<[la' := delete "pruner" (delete "sampler" dc)]> h1)).
  split.
  - apply insert_subseteq_r; [by eapply (memo_targets _ _ _ _ Hinv)|].
    apply insert_subseteq_r; [by eapply (memo_targets _ _ _ _ Hinv)|done].
  - cbn zeta. cbn [hp wd tr]. by destruct (clsp _ _).
Qed.

(** The same without a sampler: [load] goes straight to the pruner. *)
Lemma load_builds_pruner_alone (self : t) (s : state W event)
    (la lp : loc) (d cfgp : gmap string value) (Y : string)
    (clsp : heap → gmap string value → result obj) :
  _load_args self = VRef la →
  hp s !! la = Some d →
  shallow (recursion_limit api) (hp s) (VRef la) = true →
  d !! "sampler" = Some VNone →
  d !! "pruner" = Some (VRef lp) → lp ≠ la →
  hp s !! lp = Some cfgp → flat cfgp = true → cfgp !! "class" = Some (VStr Y) →
  pruners api !! Y = Some clsp →
  ∃ h2, hp s ⊆ h2 ∧
    let built := mkState h2 (wd s) (tr s ++ [EvConstruct Pruner Y (delete "class" cfgp)]) in
    match clsp h2 (delete "class" cfgp) with
    | Raise e => load api self s = (built, Raise e)
    | Ok pruner =>
        load api self s
        = (let! study_name := _get_load_study_name api self in
           Eff.query (EvLoadStudy (_storage self) study_name)
             (λ w, load_study api w (_storage self) study_name None (Some pruner))) built
    end.
Proof.
  intros Hself Hla Hsh Hsampler Hpruner Hpa Hlp Hflatp Hclassp Hclsp.
  destruct (Py.deepcopy (recursion_limit api) (hp s) (VRef la)) as [hc r1] eqn:Ecopy.
  destruct (deepcopy_spec (hp s) _ _ _ _ Hsh Ecopy) as (memo & Hsub & Hinv & -> & Hin).
  destruct (Hin la eq_refl) as [la' Hla'].
  destruct (memo_done _ _ _ _ Hinv la la' d Hla' ltac:(set_solver) Hla) as [Hcopy Hrefs].
  destruct (Hrefs _ _ Hpruner) as [lp' Hlp'].
  destruct (memo_done _ _ _ _ Hinv lp lp' cfgp Hlp' ltac:(set_solver) Hlp) as [Hcfgp _].
  rewrite flat_rename in Hcfgp by done.
  assert (Hne2 : lp' ≠ la').
  { intros ->. apply Hpa. by eapply (memo_inj _ _ _ _ Hinv). }
  cbn [rename] in Ecopy. rewrite Hla' in Ecopy.
  set (dc := rename memo <$> d) in *.
  set (h2 := <[lp' := delete "class" cfgp]>
               (<[la' := delete "pruner" (delete "sampler" dc)]>
                  (<[la' := delete "sampler" dc]> hc))).
  assert (Hload : load api self s
    = match clsp h2 (delete "class" cfgp) with
      | Raise e =>
          (mkState h2 (wd s) (tr s ++ [EvConstruct Pruner Y (delete "class" cfgp)]), Raise e)
      | Ok pruner =>
          (let! study_name := _get_load_study_name api self in
           Eff.query (EvLoadStudy (_storage self) study_name)
             (λ w, load_study api w (_storage self) study_name None (Some pruner)))
            (mkState h2 (wd s) (tr s ++ [EvConstruct Pruner Y (delete "class" cfgp)]))
      end).
  { unfold load. rewrite Hself.
    rewrite (bind_on_heap _ _ s hc (VRef la') Ecopy).
    erewrite bind_on_heap; cycle 1.
    { cbn [hp]. eapply pop_present; [exact Hcopy|].
      unfold dc. by rewrite lookup_fmap, Hsampler. }
    cbn [hp wd tr rename]. unfold Eff.bind at 1. cbn [_get_sampler_from_config Eff.ret].
    rewrite (load_pruner_stage self _ None la' lp' (delete "sampler" dc) cfgp Y clsp);
      cbn [hp wd tr]; [reflexivity|..].
    - apply lookup_insert_eq.
    - rewrite lookup_delete_ne by done.
      unfold dc. rewrite lookup_fmap, Hpruner. cbn [fmap option_fmap option_map rename].
      by rewrite Hlp'.
    - done.
    - by rewrite lookup_insert_ne.
    - done.
    - done. }
  exists h2. split.
  - apply insert_subseteq_r; [by eapply (memo_targets _ _ _ _ Hinv)|].
    apply insert_subseteq_r; [by eapply (memo_targets _ _ _ _ Hinv)|].
    apply insert_subseteq_r; [by eapply (memo_targets _ _ _ _ Hinv)|done].
  - cbn zeta. rewrite Hload. by destruct (clsp h2 _).
Qed.

End load_builds.

Lemma shallow_mono (n : nat) (h h' : heap) (x : value) :
  h ⊆ h' → HeapShape.shallow n h x = true → HeapShape.shallow n h' x = true.
Proof.
  intros Hsub. revert x. induction n as [|n IH]; intros x; destruct x as [| | | |l];
    cbn [HeapShape.shallow]; try done.
  destruct (h !! l) as [d|] eqn:E; [|done].
  rewrite (lookup_weaken _ _ _ _ E Hsub).
  rewrite !forallb_forall. intros Hd kv Hin. apply IH. by apply Hd.
Qed.

(** C10: [load] works on a deep copy of the stored load arguments, so no
    dictionary that exists when [load] is called is changed by it, however
    often it is called and whatever it returns: the dictionary behind
    [self._load_args] and the sampler and pruner mappings nested in it are
    the same before and after. Hence every further [load] builds the
    strategy objects from the same configuration. With a sampler configured
    by a dictionary of atomic values naming the class [X], each [load] first
    calls [X] with the stored entries other than [class]. If that call
    raises, [load] raises the same error and does nothing more. If it
    returns a sampler and a pruner is configured likewise with the class
    [Y], [load] next calls [Y] with the pruner's stored entries other than
    [class]; if that raises, [load] raises the same, and otherwise it goes
    on to load the study with the sampler and the pruner just built. With
    no sampler configured, [load] builds the pruner in the same way and
    loads the study with it. *)
Theorem load_leaves_load_args_unchanged {W obj url : Type}
    (api : StudyDataset.collaborators W obj url)
    (self : StudyDataset.t) (n : nat) (s : state W StudyDataset.event) :
  let s' := Repeated.load_times api self n s in
  hp s ⊆ hp s'
  ∧ (∀ la d,
       StudyDataset._load_args self = VRef la →
       hp s !! la = Some d →
       hp s' !! la = Some d
       ∧ ∀ k lc c,
           d !! k = Some (VRef lc) →
           hp s !! lc = Some c →
           hp s' !! lc = Some c)
  ∧ (∀ la ls d cfg X cls,
       StudyDataset._load_args self = VRef la →
       hp s !! la = Some d →
       HeapShape.shallow (StudyDataset.recursion_limit api) (hp s) (VRef la) = true →
       d !! "sampler" = Some (VRef ls) → ls ≠ la →
       hp s !! ls = Some cfg → HeapShape.flat cfg = true →
       cfg !! "class" = Some (VStr X) →
       StudyDataset.samplers api !! X = Some cls →
       (∃ evs, tr (StudyDataset.load api self s').1
               = tr s' ++ StudyDataset.EvConstruct StudyDataset.Sampler X (delete "class" cfg) :: evs)
       ∧ ∃ h1, hp s' ⊆ h1 ∧
           let built :=
             mkState h1 (wd s')
               (tr s' ++ [StudyDataset.EvConstruct StudyDataset.Sampler X (delete "class" cfg)]) in
           match cls h1 (delete "class" cfg) with
           | Raise e => StudyDataset.load api self s' = (built, Raise e)
           | Ok sampler =>
               ∀ lp cfgp Y clsp,
                 d !! "pruner" = Some (VRef lp) → lp ≠ la → lp ≠ ls →
                 hp s !! lp = Some cfgp → HeapShape.flat cfgp = true →
                 cfgp !! "class" = Some (VStr Y) →
                 StudyDataset.pruners api !! Y = Some clsp →
                 ∃ h2, hp s' ⊆ h2 ∧
                   let built' :=
                     mkState h2 (wd s')
                       (tr built
                        ++ [StudyDataset.EvConstruct StudyDataset.Pruner Y (delete "class" cfgp)]) in
                   match clsp h2 (delete "class" cfgp) with
                   | Raise e => StudyDataset.load api self s' = (built', Raise e)
                   | Ok pruner =>
                       StudyDataset.load api self s'
                       = (let! study_name := StudyDataset._get_load_study_name api self in
                          Eff.query
                            (StudyDataset.EvLoadStudy (StudyDataset._storage self) study_name)
                            (λ w, StudyDataset.load_study api w (StudyDataset._storage self)
                                    study_name (Some sampler) (Some pruner))) built'
                   end
           end)
  ∧ (∀ la lp d cfgp Y clsp,
       StudyDataset._load_args self = VRef la →
       hp s !! la = Some d →
       HeapShape.shallow (StudyDataset.recursion_limit api) (hp s) (VRef la) = true →
       d !! "sampler" = Some VNone →
       d !! "pruner" = Some (VRef lp) → lp ≠ la →
       hp s !! lp = Some cfgp → HeapShape.flat cfgp = true →
       cfgp !! "class" = Some (VStr Y) →
       StudyDataset.pruners api !! Y = Some clsp →
       ∃ h2, hp s' ⊆ h2 ∧
         let built :=
           mkState h2 (wd s')
             (tr s' ++ [StudyDataset.EvConstruct StudyDataset.Pruner Y (delete "class" cfgp)]) in
         match clsp h2 (delete "class" cfgp) with
         | Raise e => StudyDataset.load api self s' = (built, Raise e)
         | Ok pruner =>
             StudyDataset.load api self s'
             = (let! study_name := StudyDataset._get_load_study_name api self in
                Eff.query
                  (StudyDataset.EvLoadStudy (StudyDataset._storage self) study_name)
                  (λ w, StudyDataset.load_study api w (StudyDataset._storage self)
                          study_name None (Some pruner))) built
         end).
Proof.
  intros s'. pose proof (load_times_frame api self n s) as Hsub.
  split; [exact Hsub|]. split_and!.
  - intros la d _ Hla. split.
    + by eapply lookup_weaken.
    + intros k lc c _ Hlc. by eapply lookup_weaken.
  - intros la ls d cfg X cls Hself Hla Hsh Hsampler Hne Hls Hflat Hclass Hcls.
    pose proof (lookup_weaken _ _ _ _ Hla Hsub) as Hla'.
    pose proof (lookup_weaken _ _ _ _ Hls Hsub) as Hls'.
    pose proof (shallow_mono _ _ _ _ Hsub Hsh) as Hsh'.
    split; [by eapply load_builds_sampler|].
    destruct (load_builds_sampler_then_pruner api self s' la ls d cfg X cls)
      as (h1 & Hh1 & Hrun); [done..|].
    exists h1. split; [exact Hh1|]. cbn zeta in Hrun |- *.
    destruct (cls h1 (delete "class" cfg)) as [sampler|e]; [|exact Hrun].
    intros lp cfgp Y clsp Hpruner Hpa Hps Hlp Hflatp Hclassp Hclsp.
    pose proof (lookup_weaken _ _ _ _ Hlp Hsub) as Hlp'.
    by apply (Hrun lp cfgp Y clsp).
  - intros la lp d cfgp Y clsp Hself Hla Hsh Hsampler Hpruner Hpa Hlp Hflatp Hclassp Hclsp.
    pose proof (lookup_weaken _ _ _ _ Hla Hsub) as Hla'.
    pose proof (lookup_weaken _ _ _ _ Hlp Hsub) as Hlp'.
    pose proof (shallow_mono _ _ _ _ Hsub Hsh) as Hsh'.
    by apply (load_builds_pruner_alone api self s' la lp d cfgp Y clsp).
Qed.

Lemma load_leaves_load_args_unchanged_witness :
  let self := Demo.study1 None (VRef 1%positive) in
  let s := Demo.start Demo.tpe_nop_heap Demo.one_study in
  let s' := Repeated.load_times Demo.study_api self 2 s in
  hp s' !! 1%positive = Some Demo.tpe_nop_load_args
  ∧ hp s' !! 2%positive = Some Demo.tpe_config
  ∧ hp s' !! 3%positive = Some Demo.nop_config
  ∧ tr (StudyDataset.load Demo.study_api self s').1
    = tr s' ++ [StudyDataset.EvConstruct StudyDataset.Sampler "TPESampler"
                  {[ "n_startup_trials" := VInt 10 ]};
                StudyDataset.EvConstruct StudyDataset.Pruner "NopPruner" ∅;
                StudyDataset.EvLoadStudy "postgresql://@/optuna_db" "study1"]
  ∧ (StudyDataset.load Demo.study_api self s').2
    = Ok {| Optuna.study_name := "study1"; Optuna._storage := "postgresql://@/optuna_db" |}.
Proof.
  intros self s s'.
  destruct (load_leaves_load_args_unchanged Demo.study_api self 2 s) as (_ & H & Hb & _).
  destruct (H 1%positive Demo.tpe_nop_load_args eq_refl eq_refl) as [H1 H2].
  split; [exact H1|]. split; [exact (H2 "sampler" 2%positive Demo.tpe_config eq_refl eq_refl)|].
  split; [exact (H2 "pruner" 3%positive Demo.nop_config eq_refl eq_refl)|].
  destruct (Hb 1%positive 2%positive Demo.tpe_nop_load_args Demo.tpe_config "TPESampler"
              (λ _ kw, Ok ("TPESampler", kw)))
    as (_ & h1 & _ & Hrun);
    [reflexivity|reflexivity|vm_compute; reflexivity|reflexivity|lia|reflexivity
    |vm_compute; reflexivity|reflexivity|reflexivity|].
  cbn zeta beta iota in Hrun.
  destruct (Hrun 3%positive Demo.nop_config "NopPruner" (λ _ kw, Ok ("NopPruner", kw)))
    as (h2 & _ & Hrun');
    [reflexivity|lia|lia|reflexivity|vm_compute; reflexivity|reflexivity|reflexivity|].
  cbn zeta beta iota in Hrun'.
  unfold s'. rewrite Hrun'. split; vm_compute; reflexivity.
Defined.

(** Two loads in a row build the same sampler from the same arguments. *)
Example two_loads_build_the_same_sampler :
  let self := Demo.study1 None (VRef 1%positive) in
  let s := Demo.start Demo.tpe_heap Demo.one_study in
  tr (Repeated.load_times Demo.study_api self 2 s)
  = [StudyDataset.EvConstruct StudyDataset.Sampler "TPESampler" {[ "n_startup_trials" := VInt 10 ]};
     StudyDataset.EvLoadStudy "postgresql://@/optuna_db" "study1";
     StudyDataset.EvConstruct StudyDataset.Sampler "TPESampler" {[ "n_startup_trials" := VInt 10 ]};
     StudyDataset.EvLoadStudy "postgresql://@/optuna_db" "study1"].
Proof. vm_compute. reflexivity. Qed.

(** * Further properties of the study dataset *)

(** ** Versioned study names *)

Section more_paths.
Import Posix.

Lemma length_append (a b : string) :
  String.length (a +:+ b) = (String.length a + String.length b)%nat.
Proof. induction a as [|c a IH]; [done|]. rewrite append_cons. cbn. by rewrite IH. Qed.

Lemma append_inj_r (a b c : string) : a +:+ c = b +:+ c → a = b.
Proof.
  revert b. induction a as [|x a IH]; intros [|y b] H.
  - done.
  - apply (f_equal String.length) in H. rewrite !length_append in H. cbn in H. lia.
  - apply (f_equal String.length) in H. rewrite !length_append in H. cbn in H. lia.
  - rewrite !append_cons in H. injection H as -> H. f_equal. by apply IH.
Qed.

Lemma three_segments_inj (name v1 v2 : string) :
  PathShape.three_segments name v1 = PathShape.three_segments name v2 → v1 = v2.
Proof.
  unfold PathShape.three_segments. intros H.
  apply String.app_inj in H. change ("/" +:+ ?x) with (String "/" x) in H.
  rewrite !append_cons, !append_empty_l in H. injection H as H.
  by apply append_inj_r in H.
Qed.

Lemma join_absolute_last (a b c : string) :
  startswith_sep c = true → join a [b; c] = c.
Proof. intros Hc. unfold join. cbn [foldl]. unfold join_step at 1. by rewrite Hc. Qed.

End more_paths.

(** An absolute study name swallows the version: whatever the version
    token, the versioned identifier is the study name itself (in normal
    form), so all versions of such a study share one identifier. *)
Theorem absolute_name_ignores_version (self : StudyDataset.t) (v1 v2 : string) :
  Posix.startswith_sep (StudyDataset._study_name self) = true →
  Posix.str (StudyDataset._get_versioned_path self v1)
  = Posix.str (Posix.of_str (StudyDataset._study_name self))
  ∧ Posix.str (StudyDataset._get_versioned_path self v1)
    = Posix.str (StudyDataset._get_versioned_path self v2).
Proof.
  intros Habs.
  assert (H : ∀ v, Posix.str (StudyDataset._get_versioned_path self v)
                   = Posix.str (Posix.of_str (StudyDataset._study_name self))).
  { intros v. unfold Posix.str, Posix.joined, StudyDataset._get_versioned_path,
      Posix.truediv, Posix.truediv_str, Posix.of_str.
    cbn [Posix._raw_paths app]. by rewrite join_absolute_last. }
  split; [apply H|]. by rewrite !H.
Qed.

Lemma absolute_name_ignores_version_witness :
  let self := Demo.study_named "/studies/s" None VNone in
  Posix.str (StudyDataset._get_versioned_path self "2024-01-01T00.00.00") = "/studies/s"
  ∧ Posix.str (StudyDataset._get_versioned_path self "2024-01-01T00.00.00")
    = Posix.str (StudyDataset._get_versioned_path self "2025-05-05T00.00.00").
Proof.
  intros self.
  apply (absolute_name_ignores_version self "2024-01-01T00.00.00" "2025-05-05T00.00.00").
  reflexivity.
Defined.

(** For a study name and version tokens that are relative paths in normal
    form, different versions have different versioned identifiers. *)
Theorem versioned_identifier_injective (self : StudyDataset.t) (v1 v2 : string) :
  PathShape.normal_relative (StudyDataset._study_name self) = true →
  PathShape.normal_relative v1 = true →
  PathShape.normal_relative v2 = true →
  v1 ≠ v2 →
  Posix.str (StudyDataset._get_versioned_path self v1)
  ≠ Posix.str (StudyDataset._get_versioned_path self v2).
Proof.
  intros Hn H1 H2 Hne. unfold StudyDataset._get_versioned_path.
  rewrite !str_three_segments by done. intros H. by apply three_segments_inj in H.
Qed.

Lemma versioned_identifier_injective_witness :
  let self := Demo.study1 None VNone in
  Posix.str (StudyDataset._get_versioned_path self "2024-01-01T00.00.00")
  ≠ Posix.str (StudyDataset._get_versioned_path self "2024-01-02T00.00.00").
Proof.
  intros self.
  apply (versioned_identifier_injective self "2024-01-01T00.00.00" "2024-01-02T00.00.00");
    [reflexivity..|discriminate].
Defined.

(** With the same non-empty token pinned for loading and for saving, the
    name a successful save resolves to is the name a load resolves to, and
    resolving the load name touches nothing. *)
Theorem pinned_save_name_is_load_name {W obj url : Type}
    (api : StudyDataset.collaborators W obj url)
    (self : StudyDataset.t) (V name : string) (s s' s0 : state W StudyDataset.event) :
  StudyDataset._version self = Some (Kedro.mkVersion (Some V) (Some V)) →
  V ≠ EmptyString →
  StudyDataset._get_save_study_name api self s = (s', Ok name) →
  StudyDataset._get_load_study_name api self s0 = (s0, Ok name).
Proof.
  intros Hv HV.
  unfold StudyDataset._get_save_study_name, StudyDataset._get_load_study_name,
    StudyDataset.resolve_save_version, StudyDataset.resolve_load_version.
  rewrite Hv. cbn [Kedro.save Kedro.load Kedro.token_truthy].
  rewrite bool_decide_eq_false_2 by done.
  unfold Eff.bind. cbn [Eff.ret StudyDataset.versioned_or_type_error].
  destruct (StudyDataset._study_name_exists api self _ s) as [s1 [[|]|e]];
    cbn [Eff.raise Eff.ret]; intros [= _ <-]; reflexivity.
Qed.

Lemma pinned_save_name_is_load_name_witness :
  let v := Kedro.mkVersion (Some "2024-01-01T00.00.00") (Some "2024-01-01T00.00.00") in
  let self := Demo.study1 (Some v) VNone in
  let s := Demo.start ∅ Demo.empty_world in
  StudyDataset._get_load_study_name Demo.study_api self s
  = (s, Ok "study1/2024-01-01T00.00.00/study1").
Proof.
  intros v self s.
  apply (pinned_save_name_is_load_name Demo.study_api self "2024-01-01T00.00.00"
           "study1/2024-01-01T00.00.00/study1" s
           (mkState ∅ Demo.empty_world [StudyDataset.EvGetAllStudyNames "postgresql://@/optuna_db"])
           s); [reflexivity|discriminate|reflexivity].
Defined.

(** With versioning on, a non-empty pinned load version is used as it is
    and nothing is asked of the backend; a missing or empty pin makes the
    load name come from the latest version kedro finds, and a failure to
    find one propagates. *)
Theorem load_name_follows_the_pin {W obj url : Type}
    (api : StudyDataset.collaborators W obj url)
    (self : StudyDataset.t) (v : Kedro.Version) (s : state W StudyDataset.event) :
  StudyDataset._version self = Some v →
  (∀ lv, Kedro.load v = Some lv → lv ≠ EmptyString →
     StudyDataset._get_load_study_name api self s
     = (s, Ok (Posix.str (StudyDataset._get_versioned_path self lv))))
  ∧ (Kedro.load v = None ∨ Kedro.load v = Some EmptyString →
     StudyDataset._get_load_study_name api self s
     = (mkState (hp s) (wd s) (tr s ++ [StudyDataset.EvFetchLatestLoadVersion]),
        match StudyDataset._fetch_latest_load_version api self (wd s) with
        | Ok lv => Ok (Posix.str (StudyDataset._get_versioned_path self lv))
        | Raise e => Raise e
        end)).
Proof.
  intros Hv.
  unfold StudyDataset._get_load_study_name, StudyDataset.resolve_load_version.
  rewrite Hv. split.
  - intros lv -> Hne. cbn [Kedro.token_truthy].
    rewrite bool_decide_eq_false_2 by done. reflexivity.
  - intros [-> | ->]; cbn [Kedro.token_truthy];
      rewrite ?bool_decide_eq_true_2 by done;
      unfold Eff.bind, Eff.query;
      by destruct (StudyDataset._fetch_latest_load_version api self (wd s)).
Qed.

Lemma load_name_follows_the_pin_witness :
  let self := Demo.study1 (Some (Kedro.mkVersion (Some EmptyString) None)) VNone in
  let s := Demo.start ∅ Demo.empty_world in
  StudyDataset._get_load_study_name Demo.study_api self s
  = (mkState ∅ Demo.empty_world [StudyDataset.EvFetchLatestLoadVersion],
     Raise (VersionNotFoundError "Did not find any versions")).
Proof.
  intros self s.
  apply (proj2 (load_name_follows_the_pin Demo.study_api self
                  (Kedro.mkVersion (Some EmptyString) None) s eq_refl)).
  right. reflexivity.
Defined.

(** ** Existence and globbing of study names *)

(** For the sqlite backend, when the database file is missing, the
    existence check answers [False] after the one look at the file: optuna
    is not asked for the study names. *)
Theorem exists_without_database_file {W obj url : Type}
    (api : StudyDataset.collaborators W obj url)
    (self : StudyDataset.t) (p : Posix.PurePosixPath) (path : string)
    (s : state W StudyDataset.event) :
  StudyDataset._backend self = "sqlite" →
  StudyDataset._filepath self = Some p →
  StudyDataset.isfile api (wd s) (Posix.str p) = Ok false →
  StudyDataset._study_name_exists api self path s
  = (mkState (hp s) (wd s) (tr s ++ [StudyDataset.EvIsfile (Posix.str p)]), Ok false).
Proof.
  intros Hb Hp Hf. unfold StudyDataset._study_name_exists.
  rewrite Hb, Hp. rewrite bool_decide_eq_true_2 by done.
  unfold Eff.bind, StudyDataset.fspath, Eff.ret, Eff.query. by rewrite Hf.
Qed.

Lemma exists_without_database_file_witness :
  let self := {|
    StudyDataset._backend := "sqlite";
    StudyDataset._database := "data/study.db";
    StudyDataset._storage := "sqlite:///data/study.db";
    StudyDataset._study_name := "study1";
    StudyDataset.metadata := VNone;
    StudyDataset._filepath := Some (Posix.of_str "/project/data/study.db");
    StudyDataset._version := None;
    StudyDataset._load_args := VNone |} in
  StudyDataset._study_name_exists Demo.study_api self "study1"
    (Demo.start ∅ Demo.one_study)
  = (mkState ∅ Demo.one_study [StudyDataset.EvIsfile "/project/data/study.db"], Ok false).
Proof.
  intros self.
  apply (exists_without_database_file Demo.study_api self
           (Posix.of_str "/project/data/study.db") "study1" (Demo.start ∅ Demo.one_study));
    reflexivity.
Defined.

(** The existence check never invents a study: when it answers [True], the
    storage listed the name among its study names. *)
Theorem exists_only_listed_names {W obj url : Type}
    (api : StudyDataset.collaborators W obj url)
    (self : StudyDataset.t) (path : string) (s s' : state W StudyDataset.event) :
  StudyDataset._study_name_exists api self path s = (s', Ok true) →
  ∃ study_names,
    StudyDataset.get_all_study_names api (wd s) (StudyDataset._storage self) = Ok study_names
    ∧ path ∈ study_names.
Proof.
  unfold StudyDataset._study_name_exists, Eff.bind.
  destruct (if bool_decide (StudyDataset._backend self = "sqlite") then _ else _)
    as [s1 [no_file|e]] eqn:E; [|discriminate].
  assert (Hw : wd s1 = wd s).
  { destruct (bool_decide (StudyDataset._backend self = "sqlite")).
    - revert E. unfold Eff.bind, StudyDataset.fspath.
      destruct (StudyDataset._filepath self) as [p|]; [|discriminate].
      cbn [Eff.ret Eff.query hp wd tr].
      destruct (StudyDataset.isfile api (wd s) (Posix.str p)); [|discriminate].
      by intros [= <- _].
    - by injection E as <- _. }
  destruct no_file; [discriminate|].
  unfold Eff.query. cbn [hp wd tr]. rewrite Hw.
  destruct (StudyDataset.get_all_study_names api (wd s) (StudyDataset._storage self))
    as [names|e]; [|discriminate].
  cbn [Eff.ret]. intros [= _ Hin%bool_decide_eq_true]. by exists names.
Qed.

Lemma exists_only_listed_names_witness :
  ∃ study_names,
    StudyDataset.get_all_study_names Demo.study_api Demo.one_study "postgresql://@/optuna_db"
    = Ok study_names
    ∧ "study1" ∈ study_names.
Proof.
  apply (exists_only_listed_names Demo.study_api (Demo.study1 None VNone) "study1"
           (Demo.start ∅ Demo.one_study)
           (mkState ∅ Demo.one_study [StudyDataset.EvGetAllStudyNames "postgresql://@/optuna_db"])).
  vm_compute. reflexivity.
Defined.

(** Globbing and the existence check agree on a backend other than sqlite:
    every name the glob yields matches the pattern and is reported as
    existing, and the glob changes neither the heap nor the world. *)
Theorem globbed_names_exist {W obj url : Type}
    (api : StudyDataset.collaborators W obj url) (fnmatch : string → string → bool)
    (self : StudyDataset.t) (pattern : string) (found : list string)
    (s s' : state W StudyDataset.event) :
  StudyDataset._backend self ≠ "sqlite" →
  StudyDataset._study_name_glob api fnmatch self pattern s = (s', Ok found) →
  hp s' = hp s ∧ wd s' = wd s
  ∧ ∀ study_name, study_name ∈ found →
      fnmatch study_name pattern = true
      ∧ (StudyDataset._study_name_exists api self study_name s').2 = Ok true.
Proof.
  intros Hb. unfold StudyDataset._study_name_glob, Eff.bind, Eff.query.
  destruct (StudyDataset.get_all_study_names api (wd s) (StudyDataset._storage self))
    as [names|e] eqn:En; [|discriminate].
  cbn [Eff.ret]. intros [= <- <-]. split_and!; [done..|].
  intros n [Hm Hin]%list_elem_of_filter. split; [done|].
  unfold StudyDataset._study_name_exists, Eff.bind, Eff.query.
  rewrite bool_decide_eq_false_2 by done. cbn [Eff.ret hp wd tr].
  rewrite En. cbn [snd]. by rewrite bool_decide_eq_true_2.
Qed.

Lemma globbed_names_exist_witness :
  let self := Demo.study1 None VNone in
  let s := Demo.start ∅ Demo.one_study in
  (StudyDataset._study_name_exists Demo.study_api self "study1"
     (StudyDataset._study_name_glob Demo.study_api Demo.star_only self "*" s).1).2
  = Ok true.
Proof.
  intros self s.
  refine (proj2 (proj2 (proj2 (globbed_names_exist Demo.study_api Demo.star_only self "*"
            ["study1"] s _ _ _)) "study1" _)).
  - discriminate.
  - reflexivity.
  - by left.
Defined.

(** ** Building strategies and loading *)

Section more_loading.
Import HeapShape StudyDataset Traces.
Context {W obj url : Type} (api : collaborators W obj url).

Lemma load_args_copied (self : t) (s : state W event) (la : loc) (d : gmap string value) :
  hp s !! la = Some d →
  shallow (recursion_limit api) (hp s) (VRef la) = true →
  ∃ h1 memo la',
    Py.deepcopy (recursion_limit api) (hp s) (VRef la) = (h1, Ok (VRef la'))
    ∧ hp s ⊆ h1
    ∧ memo_inv (hp s) h1 memo ∅
    ∧ memo !! la = Some la'
    ∧ h1 !! la' = Some (rename memo <$> d)
    ∧ ∀ k j, d !! k = Some (VRef j) → is_Some (memo !! j).
Proof.
  intros Hla Hsh.
  destruct (Py.deepcopy (recursion_limit api) (hp s) (VRef la)) as [h1 r1] eqn:Ecopy.
  destruct (deepcopy_spec (hp s) _ _ _ _ Hsh Ecopy) as (memo & Hsub & Hinv & -> & Hin).
  destruct (Hin la eq_refl) as [la' Hla'].
  destruct (memo_done _ _ _ _ Hinv la la' d Hla' ltac:(set_solver) Hla) as [Hcopy Hrefs].
  exists h1, memo, la'. cbn [rename]. rewrite Hla'. by split_and!.
Qed.

Lemma shallow_flat (n : nat) (h : heap) (l : loc) (d : gmap string value) :
  h !! l = Some d → flat d = true → shallow (S n) h (VRef l) = true.
Proof.
  intros Hl. unfold flat. cbn [shallow]. rewrite Hl, !forallb_forall.
  intros Hd kv Hin. specialize (Hd kv Hin). by destruct kv.2, n.
Qed.

Lemma sampler_rejected (self : t) (s : state W event) (l : loc) (d : gmap string value) :
  hp s !! l = Some d → d !! "class" = None →
  _get_sampler_from_config api self (VRef l) s
  = (s, Raise (ValueError (missing_class_message self Sampler))).
Proof.
  intros Hl Hd. unfold _get_sampler_from_config, Eff.bind, Eff.on_heap, Py.contains.
  rewrite Hl, Hd. by destruct s.
Qed.

Lemma pruner_rejected (self : t) (s : state W event) (l : loc) (d : gmap string value) :
  hp s !! l = Some d → d !! "class" = None →
  _get_pruner_from_config api self (VRef l) s
  = (s, Raise (ValueError (missing_class_message self Pruner))).
Proof.
  intros Hl Hd. unfold _get_pruner_from_config, Eff.bind, Eff.on_heap, Py.contains.
  rewrite Hl, Hd. by destruct s.
Qed.

Lemma init_load_args_spec (load_args : value) (s s' : state W event) (v : value) :
  init_load_args load_args s = (s', Ok v) →
  ∃ given,
    v = VRef (fresh (dom (hp s)))
    ∧ s' = mkState (<[fresh (dom (hp s)) := given ∪ DEFAULT_LOAD_ARGS]> (hp s)) (wd s) (tr s)
    ∧ (if Py.truthy (hp s) load_args then Py.kwargs (hp s) load_args = Ok given
       else given = ∅).
Proof.
  unfold init_load_args, Eff.bind, Eff.on_heap, Eff.ret.
  destruct (Py.truthy (hp s) load_args) eqn:Et.
  - destruct (Py.kwargs (hp s) load_args) as [given|e] eqn:Ek; [|discriminate].
    cbn [hp wd tr Py.alloc]. intros [= <- <-]. by exists given.
  - cbn [hp wd tr Py.alloc]. intros [= <- <-]. by exists ∅.
Qed.

Lemma init_spec (backend database study_name : string) (load_args : value)
    (version : option Kedro.Version) (credentials : option (gmap string value))
    (metadata : value) (s s' : state W event) (self : t) :
  __init__ api backend database study_name load_args version credentials metadata s
  = (s', Ok self) →
  ∃ given,
    _load_args self = VRef (fresh (dom (hp s)))
    ∧ hp s' = <[fresh (dom (hp s)) := given ∪ DEFAULT_LOAD_ARGS]> (hp s)
    ∧ (if Py.truthy (hp s) load_args then Py.kwargs (hp s) load_args = Ok given
       else given = ∅)
    ∧ _study_name self = study_name ∧ _version self = version
    ∧ _backend self = backend
    ∧ (_filepath self = None ↔ backend ≠ "sqlite").
Proof.
  unfold __init__. unfold Eff.bind at 1.
  destruct (init_storage api (wd s) backend database credentials) as [st|e]; [|discriminate].
  unfold Eff.bind at 1.
  destruct (if bool_decide (backend = "sqlite") then _ else _) as [s1 [fp|e]] eqn:E;
    [|discriminate].
  assert (Hs1 : hp s1 = hp s ∧ (fp = None ↔ backend ≠ "sqlite")).
  { revert E. case_bool_decide as Hb.
    - unfold Eff.bind, Eff.query. destruct (realpath api (wd s) database); [|discriminate].
      cbn [Eff.ret]. intros [= <- <-]. by split.
    - intros [= <- <-]. by split. }
  destruct Hs1 as [Hh Hfp].
  unfold Eff.bind.
  destruct (init_load_args load_args s1) as [s2 [la|e]] eqn:El; [|discriminate].
  destruct (init_load_args_spec _ _ _ _ El) as (given & -> & -> & Hg).
  cbn [Eff.ret]. intros [= <- <-]. exists given. rewrite Hh in *.
  by split_and!.
Qed.

End more_loading.

(** An unknown class name is rejected with [AttributeError] only after the
    [class] entry has been removed from the mapping that was passed in;
    nothing is constructed. The same holds for samplers and for pruners. *)
Theorem unknown_class_still_consumes_key {W obj url : Type}
    (api : StudyDataset.collaborators W obj url)
    (self : StudyDataset.t) (s : state W StudyDataset.event)
    (l : loc) (d : gmap string value) (X : string) :
  hp s !! l = Some d →
  d !! "class" = Some (VStr X) →
  (StudyDataset.samplers api !! X = None →
   StudyDataset._get_sampler_from_config api self (VRef l) s
   = (mkState (<[l := delete "class" d]> (hp s)) (wd s) (tr s), Raise (AttributeError X)))
  ∧ (StudyDataset.pruners api !! X = None →
     StudyDataset._get_pruner_from_config api self (VRef l) s
     = (mkState (<[l := delete "class" d]> (hp s)) (wd s) (tr s), Raise (AttributeError X))).
Proof.
  intros Hl Hd.
  assert (Hc : Py.contains (hp s) (VRef l) "class" = Ok true).
  { unfold Py.contains. rewrite Hl, Hd. by rewrite bool_decide_eq_true_2 by by eexists. }
  split; intros Hx;
    unfold StudyDataset._get_sampler_from_config, StudyDataset._get_pruner_from_config,
      StudyDataset.getattr, Eff.bind, Eff.on_heap, Eff.lift;
    rewrite Hc; cbn [hp wd tr negb];
    rewrite (pop_present _ _ _ _ _ Hl Hd); cbn [hp wd tr]; by rewrite Hx.
Qed.

Lemma unknown_class_still_consumes_key_witness :
  let d : gmap string value := {[ "class" := VStr "NoSuchSampler"; "seed" := VInt 1 ]} in
  let self := Demo.study1 None VNone in
  StudyDataset._get_sampler_from_config Demo.study_api self (VRef 1%positive)
    (Demo.start {[ 1%positive := d ]} Demo.empty_world)
  = (mkState (<[1%positive := delete "class" d]> {[ 1%positive := d ]}) Demo.empty_world [],
     Raise (AttributeError "NoSuchSampler")).
Proof.
  intros d self.
  refine (proj1 (unknown_class_still_consumes_key Demo.study_api self
                   (Demo.start {[ 1%positive := d ]} Demo.empty_world)
                   1%positive d "NoSuchSampler" _ _) _); reflexivity.
Defined.

(** The constructor stores the load arguments in a dictionary of its own:
    a new object that always has the keys [sampler] and [pruner], in which
    the entries that were passed in take precedence over the defaults; the
    dictionaries that existed before are untouched. *)
Theorem init_load_args_are_fresh_with_defaults {W obj url : Type}
    (api : StudyDataset.collaborators W obj url)
    (backend database study_name : string) (load_args : value)
    (version : option Kedro.Version) (credentials : option (gmap string value))
    (metadata : value) (s s' : state W StudyDataset.event) (self : StudyDataset.t) :
  StudyDataset.__init__ api backend database study_name load_args version credentials metadata s
  = (s', Ok self) →
  ∃ la stored,
    StudyDataset._load_args self = VRef la
    ∧ hp s !! la = None
    ∧ hp s' !! la = Some stored
    ∧ hp s ⊆ hp s'
    ∧ is_Some (stored !! "sampler") ∧ is_Some (stored !! "pruner")
    ∧ (∀ lu given k x, load_args = VRef lu → hp s !! lu = Some given →
         given !! k = Some x → stored !! k = Some x)
    ∧ (Py.truthy (hp s) load_args = false → stored = StudyDataset.DEFAULT_LOAD_ARGS).
Proof.
  intros Hinit.
  destruct (init_spec api _ _ _ _ _ _ _ _ _ _ Hinit) as (given & Hla & Hh & Hg & _).
  assert (Hfresh : hp s !! fresh (dom (hp s)) = None) by apply not_elem_of_dom, is_fresh.
  exists (fresh (dom (hp s))), (given ∪ StudyDataset.DEFAULT_LOAD_ARGS).
  rewrite Hh. split_and!; try done.
  - apply lookup_insert_eq.
  - by apply insert_subseteq.
  - destruct (given !! "sampler") as [x|] eqn:E.
    + exists x. by apply lookup_union_Some_l.
    + exists VNone. by rewrite lookup_union_r.
  - destruct (given !! "pruner") as [x|] eqn:E.
    + exists x. by apply lookup_union_Some_l.
    + exists VNone. by rewrite lookup_union_r.
  - intros lu g k x -> Hlu Hk.
    assert (Ht : Py.kwargs (hp s) (VRef lu) = Ok g) by (unfold Py.kwargs; by rewrite Hlu).
    destruct (Py.truthy (hp s) (VRef lu)) eqn:Et.
    + rewrite Ht in Hg. injection Hg as <-. by apply lookup_union_Some_l.
    + cbn [Py.truthy] in Et. rewrite Hlu in Et.
      apply negb_false_iff, bool_decide_eq_true in Et. subst g.
      by rewrite lookup_empty in Hk.
  - intros Ht. rewrite Ht in Hg. subst given. by rewrite (left_id_L ∅ (∪)).
Qed.

Lemma init_load_args_are_fresh_with_defaults_witness :
  let h : heap := {[ 2%positive := {[ "sampler" := VRef 3%positive ]};
                     3%positive := Demo.tpe_config ]} in
  let stored' : gmap string value := {[ "sampler" := VRef 3%positive; "pruner" := VNone ]} in
  let s' : state Demo.world StudyDataset.event :=
    mkState (<[4%positive := stored']> h) Demo.empty_world [] in
  let self := Demo.study1 None (VRef 4%positive) in
  ∃ la stored,
    StudyDataset._load_args self = VRef la
    ∧ hp (Demo.start h Demo.empty_world) !! la = None
    ∧ hp s' !! la = Some stored
    ∧ hp (Demo.start h Demo.empty_world) ⊆ hp s'
    ∧ is_Some (stored !! "sampler") ∧ is_Some (stored !! "pruner")
    ∧ (∀ lu given k x, VRef 2%positive = VRef lu →
         hp (Demo.start h Demo.empty_world) !! lu = Some given →
         given !! k = Some x → stored !! k = Some x)
    ∧ (Py.truthy (hp (Demo.start h Demo.empty_world)) (VRef 2%positive) = false →
       stored = StudyDataset.DEFAULT_LOAD_ARGS).
Proof.
  intros h stored' s' self.
  apply (init_load_args_are_fresh_with_defaults Demo.study_api "postgresql" "optuna_db"
           "study1" (VRef 2%positive) None None VNone (Demo.start h Demo.empty_world) s' self).
  vm_compute. reflexivity.
Defined.

(** A sampler configuration without [class] makes [load] fail with the
    [ValueError] that names the study before anything is asked of the
    backend: the trace and the world are as before. *)
Theorem load_rejects_sampler_without_class {W obj url : Type}
    (api : StudyDataset.collaborators W obj url)
    (self : StudyDataset.t) (s : state W StudyDataset.event)
    (la ls : loc) (d cfg : gmap string value) :
  StudyDataset._load_args self = VRef la →
  hp s !! la = Some d →
  HeapShape.shallow (StudyDataset.recursion_limit api) (hp s) (VRef la) = true →
  d !! "sampler" = Some (VRef ls) → ls ≠ la →
  hp s !! ls = Some cfg →
  cfg !! "class" = None →
  (StudyDataset.load api self s).2
  = Raise (ValueError (StudyDataset.missing_class_message self StudyDataset.Sampler))
  ∧ tr (StudyDataset.load api self s).1 = tr s
  ∧ wd (StudyDataset.load api self s).1 = wd s.
Proof.
  intros Hself Hla Hsh Hsampler Hne Hls Hclass.
  destruct (load_args_copied api self s la d Hla Hsh)
    as (h1 & memo & la' & Ecopy & Hsub & Hinv & Hla' & Hcopy & Hrefs).
  destruct (Hrefs _ _ Hsampler) as [ls' Hls'].
  destruct (HeapShape.memo_done _ _ _ _ Hinv ls ls' cfg Hls' ltac:(set_solver) Hls) as [Hcfg _].
  assert (Hne' : ls' ≠ la').
  { intros ->. apply Hne. by eapply (HeapShape.memo_inj _ _ _ _ Hinv). }
  destruct (StudyDataset.load api self s) as [s' r] eqn:Eload. cbn [fst snd].
  revert Eload. unfold StudyDataset.load. rewrite Hself.
  rewrite (bind_on_heap _ _ s h1 (VRef la') Ecopy).
  erewrite bind_on_heap; cycle 1.
  { cbn [hp]. eapply pop_present; [exact Hcopy|].
    rewrite lookup_fmap, Hsampler. cbn [fmap option_fmap option_map HeapShape.rename].
    by rewrite Hls'. }
  cbn [hp wd tr]. unfold Eff.bind at 1.
  erewrite sampler_rejected; cycle 1.
  { cbn [hp]. rewrite lookup_insert_ne by done. exact Hcfg. }
  { by rewrite lookup_fmap, Hclass. }
  by intros [= <- <-].
Qed.

Lemma load_rejects_sampler_without_class_witness :
  let h : heap := {[ 1%positive := {[ "sampler" := VRef 2%positive; "pruner" := VNone ]};
                     2%positive := {[ "n_startup_trials" := VInt 10 ]} ]} in
  let self := Demo.study1 None (VRef 1%positive) in
  let s := Demo.start h Demo.one_study in
  (StudyDataset.load Demo.study_api self s).2
  = Raise (ValueError
      "Optuna sampler `class` should be specified when trying to load study named `study1` with a sampler.")
  ∧ tr (StudyDataset.load Demo.study_api self s).1 = [].
Proof.
  intros h self s.
  destruct (load_rejects_sampler_without_class Demo.study_api self s 1%positive 2%positive
              {[ "sampler" := VRef 2%positive; "pruner" := VNone ]}
              {[ "n_startup_trials" := VInt 10 ]}) as (H1 & H2 & _);
    [reflexivity|reflexivity|vm_compute; reflexivity|reflexivity|lia|reflexivity|reflexivity|].
  split; [exact H1|exact H2].
Defined.

Section default_load.
Import HeapShape StudyDataset.
Context {W obj url : Type} (api : collaborators W obj url).

Lemma load_without_strategies (self : t) (s : state W event)
    (la : loc) (d : gmap string value) :
  _load_args self = VRef la →
  hp s !! la = Some d →
  shallow (recursion_limit api) (hp s) (VRef la) = true →
  d !! "sampler" = Some VNone →
  d !! "pruner" = Some VNone →
  _version self = None →
  (load api self s).2
  = load_study api (wd s) (_storage self) (_study_name self) None None
  ∧ tr (load api self s).1 = tr s ++ [EvLoadStudy (_storage self) (_study_name self)]
  ∧ wd (load api self s).1 = wd s.
Proof.
  intros Hself Hla Hsh Hsampler Hpruner Hv.
  destruct (load_args_copied api self s la d Hla Hsh)
    as (h1 & memo & la' & Ecopy & Hsub & Hinv & Hla' & Hcopy & Hrefs).
  destruct (load api self s) as [s' r] eqn:Eload. cbn [fst snd].
  revert Eload. unfold load. rewrite Hself.
  rewrite (bind_on_heap _ _ s h1 (VRef la') Ecopy).
  erewrite bind_on_heap; cycle 1.
  { cbn [hp]. eapply pop_present; [exact Hcopy|]. by rewrite lookup_fmap, Hsampler. }
  cbn [hp wd tr rename]. unfold Eff.bind at 1. cbn [_get_sampler_from_config Eff.ret].
  erewrite bind_on_heap; cycle 1.
  { cbn [hp]. eapply pop_present; [apply lookup_insert_eq|].
    rewrite lookup_delete_ne by done. by rewrite lookup_fmap, Hpruner. }
  cbn [hp wd tr rename]. unfold Eff.bind at 1. cbn [_get_pruner_from_config Eff.ret].
  unfold Eff.bind, _get_load_study_name. rewrite Hv.
  cbn [Eff.ret Eff.query hp wd tr]. by intros [= <- <-].
Qed.

End default_load.

(** Construction and loading compose: a dataset constructed without load
    arguments and without a version loads by one call of
    [optuna.load_study] for its storage and study name, with neither a
    sampler nor a pruner, and returns what that call returns. *)
Theorem default_dataset_loads_plainly {W obj url : Type}
    (api : StudyDataset.collaborators W obj url)
    (backend database study_name : string)
    (credentials : option (gmap string value)) (metadata : value)
    (s s1 : state W StudyDataset.event) (self : StudyDataset.t) :
  (1 ≤ StudyDataset.recursion_limit api)%nat →
  StudyDataset.__init__ api backend database study_name VNone None credentials metadata s
  = (s1, Ok self) →
  (StudyDataset.load api self s1).2
  = StudyDataset.load_study api (wd s1) (StudyDataset._storage self) study_name None None
  ∧ tr (StudyDataset.load api self s1).1
    = tr s1 ++ [StudyDataset.EvLoadStudy (StudyDataset._storage self) study_name]
  ∧ wd (StudyDataset.load api self s1).1 = wd s1.
Proof.
  intros Hlimit Hinit.
  destruct (init_spec api _ _ _ _ _ _ _ _ _ _ Hinit) as (given & Hla & Hh & Hg & Hn & Hv & _).
  cbn [Py.truthy] in Hg. subst given. rewrite (left_id_L ∅ (∪)) in Hh.
  assert (Hl : hp s1 !! fresh (dom (hp s)) = Some StudyDataset.DEFAULT_LOAD_ARGS).
  { rewrite Hh. apply lookup_insert_eq. }
  rewrite <- Hn.
  apply (load_without_strategies api self s1 _ _ Hla Hl); try done.
  destruct (StudyDataset.recursion_limit api) as [|k]; [lia|].
  by eapply shallow_flat.
Qed.

Lemma default_dataset_loads_plainly_witness :
  ∃ s1 self,
    StudyDataset.__init__ Demo.study_api "postgresql" "optuna_db" "study1" VNone None None VNone
      (Demo.start ∅ Demo.one_study) = (s1, Ok self)
    ∧ (StudyDataset.load Demo.study_api self s1).2
      = Ok {| Optuna.study_name := "study1"; Optuna._storage := "postgresql://@/optuna_db" |}.
Proof.
  destruct (StudyDataset.__init__ Demo.study_api "postgresql" "optuna_db" "study1" VNone None
              None VNone (Demo.start ∅ Demo.one_study)) as [s1 [self|e]] eqn:E;
    [|vm_compute in E; discriminate E].
  exists s1, self. split; [done|].
  destruct (default_dataset_loads_plainly Demo.study_api _ _ _ _ _ _ _ _
              ltac:(vm_compute; lia) E) as (H & _).
  rewrite H. vm_compute in E. injection E as <- <-. reflexivity.
Defined.

(** The deep copy keeps sharing. When the sampler slot and the pruner slot
    of the stored load arguments hold the same dictionary, the sampler is
    built from it and its [class] key is thereby gone from the one copy
    both slots share: [load] then fails on the pruner with the missing
    [class] error (or earlier, if building the sampler raised), and the
    study is never loaded. *)
Theorem shared_config_breaks_pruner {W obj url : Type}
    (api : StudyDataset.collaborators W obj url)
    (self : StudyDataset.t) (s : state W StudyDataset.event)
    (la ls : loc) (d cfg : gmap string value) (X : string)
    (cls : heap → gmap string value → result obj) :
  StudyDataset._load_args self = VRef la →
  hp s !! la = Some d →
  HeapShape.shallow (StudyDataset.recursion_limit api) (hp s) (VRef la) = true →
  d !! "sampler" = Some (VRef ls) →
  d !! "pruner" = Some (VRef ls) →
  ls ≠ la →
  hp s !! ls = Some cfg → HeapShape.flat cfg = true →
  cfg !! "class" = Some (VStr X) →
  StudyDataset.samplers api !! X = Some cls →
  tr (StudyDataset.load api self s).1
  = tr s ++ [StudyDataset.EvConstruct StudyDataset.Sampler X (delete "class" cfg)]
  ∧ ((StudyDataset.load api self s).2
     = Raise (ValueError (StudyDataset.missing_class_message self StudyDataset.Pruner))
     ∨ ∃ h e, cls h (delete "class" cfg) = Raise e
              ∧ (StudyDataset.load api self s).2 = Raise e).
Proof.
  intros Hself Hla Hsh Hsampler Hpruner Hne Hls Hflat Hclass Hcls.
  destruct (load_args_copied api self s la d Hla Hsh)
    as (h1 & memo & la' & Ecopy & Hsub & Hinv & Hla' & Hcopy & Hrefs).
  destruct (Hrefs _ _ Hsampler) as [ls' Hls'].
  destruct (HeapShape.memo_done _ _ _ _ Hinv ls ls' cfg Hls' ltac:(set_solver) Hls) as [Hcfg _].
  rewrite flat_rename in Hcfg by done.
  assert (Hne' : ls' ≠ la').
  { intros ->. apply Hne. by eapply (HeapShape.memo_inj _ _ _ _ Hinv). }
  destruct (StudyDataset.load api self s) as [s' r] eqn:Eload. cbn [fst snd].
  revert Eload. unfold StudyDataset.load. rewrite Hself.
  rewrite (bind_on_heap _ _ s h1 (VRef la') Ecopy).
  erewrite bind_on_heap; cycle 1.
  { cbn [hp]. eapply pop_present; [exact Hcopy|].
    rewrite lookup_fmap, Hsampler. cbn [fmap option_fmap option_map HeapShape.rename].
    by rewrite Hls'. }
  cbn [hp wd tr]. unfold Eff.bind at 1.
  erewrite sampler_is_built; [|cbn [hp]; by rewrite lookup_insert_ne|done..].
  cbn [hp wd tr].
  destruct (cls _ _) as [o|e] eqn:Ecls.
  - erewrite bind_on_heap; cycle 1.
    { cbn [hp]. eapply pop_present.
      - rewrite lookup_insert_ne by done. apply lookup_insert_eq.
      - rewrite lookup_delete_ne by done.
        rewrite lookup_fmap, Hpruner. cbn [fmap option_fmap option_map HeapShape.rename].
        by rewrite Hls'. }
    cbn [hp wd tr]. unfold Eff.bind at 1.
    erewrite pruner_rejected; cycle 1.
    { cbn [hp]. rewrite lookup_insert_ne by done. apply lookup_insert_eq. }
    { apply lookup_delete_eq. }
    intros [= <- <-]. split; [done|by left].
  - intros [= <- <-]. split; [done|]. right. by eexists _, e.
Qed.

Lemma shared_config_breaks_pruner_witness :
  let h : heap := {[ 1%positive := {[ "sampler" := VRef 2%positive; "pruner" := VRef 2%positive ]};
                     2%positive := Demo.tpe_config ]} in
  let self := Demo.study1 None (VRef 1%positive) in
  let s := Demo.start h Demo.one_study in
  (StudyDataset.load Demo.study_api self s).2
  = Raise (ValueError
      "Optuna pruner `class` should be specified when trying to load study named `study1` with a pruner.").
Proof.
  intros h self s.
  destruct (shared_config_breaks_pruner Demo.study_api self s 1%positive 2%positive
              {[ "sampler" := VRef 2%positive; "pruner" := VRef 2%positive ]}
              Demo.tpe_config "TPESampler" (λ _ kw, Ok ("TPESampler", kw)))
    as [_ [H | (h' & e & He & _)]];
    [reflexivity|reflexivity|vm_compute; reflexivity|reflexivity|reflexivity|lia
    |reflexivity|vm_compute; reflexivity|reflexivity|reflexivity|exact H|discriminate He].
Defined.

(** ** Saving *)

Section emits.
Import Traces.
Context {W E : Type} (P : E → Prop).

Lemma emits_ret {A} (a : A) : emits (W:=W) P (Eff.ret a).
Proof. intros s s' r [= <- <-]. exists []. by rewrite app_nil_r. Qed.

Lemma emits_raise {A} (e : exn) : emits (W:=W) P (Eff.raise (A:=A) e).
Proof. intros s s' r [= <- <-]. exists []. by rewrite app_nil_r. Qed.

Lemma emits_query {A} (e : E) (f : W → result A) : P e → emits P (Eff.query e f).
Proof. intros He s s' r [= <- <-]. exists [e]. split; [done|]. by constructor. Qed.

Lemma emits_call {A} (e : E) (f : W → W * result A) : P e → emits P (Eff.call e f).
Proof.
  intros He s s' r. unfold Eff.call. destruct (f (wd s)) as [w r'].
  intros [= <- <-]. exists [e]. split; [done|]. by constructor.
Qed.

Lemma emits_bind {A B} (m : M W E A) (k : A → M W E B) :
  emits P m → (∀ a, emits P (k a)) → emits P (Eff.bind m k).
Proof.
  intros Hm Hk s s' r. unfold Eff.bind.
  destruct (m s) as [s1 [a|e]] eqn:Em.
  - intros Ek. destruct (Hm _ _ _ Em) as (evs1 & H1 & F1).
    destruct (Hk a _ _ _ Ek) as (evs2 & H2 & F2).
    exists (evs1 ++ evs2). split; [by rewrite H2, H1, app_assoc|by apply Forall_app].
  - intros [= <- <-]. by eapply Hm.
Qed.

End emits.

Section more_saving.
Import StudyDataset Traces.
Context {W obj url : Type} (api : collaborators W obj url).

Lemma exists_elsewhere (self : t) (path : string) (s : state W event) :
  _backend self ≠ "sqlite" →
  _study_name_exists api self path s
  = (mkState (hp s) (wd s) (tr s ++ [EvGetAllStudyNames (_storage self)]),
     match get_all_study_names api (wd s) (_storage self) with
     | Ok study_names => Ok (bool_decide (path ∈ study_names))
     | Raise e => Raise e
     end).
Proof.
  intros Hb. unfold _study_name_exists, Eff.bind, Eff.query.
  rewrite bool_decide_eq_false_2 by done. cbn [Eff.ret hp wd tr].
  by destruct (get_all_study_names api (wd s) (_storage self)).
Qed.

Lemma emits_study_name_exists (P : event → Prop) (self : t) (path : string) :
  (∀ p, P (EvIsfile p)) → (∀ st, P (EvGetAllStudyNames st)) →
  emits P (_study_name_exists api self path).
Proof.
  intros Hi Hg. unfold _study_name_exists.
  apply emits_bind.
  - case_bool_decide; [|apply emits_ret].
    apply emits_bind.
    { unfold fspath. destruct (_filepath self); [apply emits_ret|apply emits_raise]. }
    intros fp. apply emits_bind; [by apply emits_query|]. intros b. apply emits_ret.
  - intros []; [apply emits_ret|].
    apply emits_bind; [by apply emits_query|]. intros names. apply emits_ret.
Qed.

(** What [save] does once the name is resolved and the database file is
    taken care of. *)
Lemma emits_save_tail (P : event → Prop) (self : t) (study : Optuna.Study)
    (save_study_name : string) :
  (∀ p, P (EvIsfile p)) → (∀ st, P (EvGetAllStudyNames st)) →
  (∀ st n, P (EvDeleteStudy st n)) → (∀ a b c d, P (EvCopyStudy a b c d)) →
  emits P (
    let! present := _study_name_exists api self save_study_name in
    let! _ :=
      if present then
        Eff.call (EvDeleteStudy (_storage self) save_study_name)
          (λ w, delete_study api w (_storage self) save_study_name)
      else Eff.ret tt in
    Eff.call
      (EvCopyStudy (Optuna.study_name study) (Optuna._storage study) (_storage self) save_study_name)
      (λ w, copy_study api w (Optuna.study_name study) (Optuna._storage study)
              (_storage self) save_study_name)).
Proof.
  intros Hi Hg Hd Hc.
  apply emits_bind; [by apply emits_study_name_exists|]. intros present.
  apply emits_bind.
  - destruct present; [by apply emits_call|apply emits_ret].
  - intros _. by apply emits_call.
Qed.

End more_saving.

(** Without versioning, on a backend other than sqlite, saving over a study
    that the storage lists deletes it and then copies the new one; when the
    deletion raises, nothing is copied. *)
Theorem save_replaces_listed_study {W obj url : Type}
    (api : StudyDataset.collaborators W obj url)
    (self : StudyDataset.t) (study : Optuna.Study) (study_names : list string)
    (s : state W StudyDataset.event) :
  StudyDataset._version self = None →
  StudyDataset._backend self ≠ "sqlite" →
  StudyDataset.get_all_study_names api (wd s) (StudyDataset._storage self) = Ok study_names →
  StudyDataset._study_name self ∈ study_names →
  let storage := StudyDataset._storage self in
  let name := StudyDataset._study_name self in
  let deleted := StudyDataset.delete_study api (wd s) storage name in
  let copied := StudyDataset.copy_study api deleted.1 (Optuna.study_name study)
                  (Optuna._storage study) storage name in
  StudyDataset.save api self study s
  = match deleted.2 with
    | Ok _ =>
        (mkState (hp s) copied.1
           (tr s ++ [StudyDataset.EvGetAllStudyNames storage;
                     StudyDataset.EvDeleteStudy storage name;
                     StudyDataset.EvCopyStudy (Optuna.study_name study)
                       (Optuna._storage study) storage name]),
         copied.2)
    | Raise e =>
        (mkState (hp s) deleted.1
           (tr s ++ [StudyDataset.EvGetAllStudyNames storage;
                     StudyDataset.EvDeleteStudy storage name]),
         Raise e)
    end.
Proof.
  intros Hv Hb Hn Hin storage name deleted copied.
  unfold StudyDataset.save, StudyDataset._get_save_study_name. rewrite Hv.
  unfold Eff.bind at 1. cbn [Eff.ret].
  unfold Eff.bind at 1. rewrite bool_decide_eq_false_2 by done. cbn [Eff.ret].
  unfold Eff.bind at 1. rewrite (exists_elsewhere api self _ s Hb), Hn.
  rewrite bool_decide_eq_true_2 by done.
  unfold Eff.bind, Eff.call. cbn [hp wd tr].
  subst copied deleted storage name.
  destruct (StudyDataset.delete_study api (wd s) _ _) as [w1 [[]|e]]; cbn [fst snd hp wd tr].
  - destruct (StudyDataset.copy_study api w1 _ _ _ _) as [w2 r2]. cbn [fst snd].
    by rewrite <- !app_assoc.
  - by rewrite <- !app_assoc.
Qed.

Lemma save_replaces_listed_study_witness :
  let self := Demo.study1 None VNone in
  let study := {| Optuna.study_name := "tmp"; Optuna._storage := "sqlite:///tmp.db" |} in
  StudyDataset.save Demo.study_api self study (Demo.start ∅ Demo.one_study)
  = (mkState ∅ Demo.one_study
       [StudyDataset.EvGetAllStudyNames "postgresql://@/optuna_db";
        StudyDataset.EvDeleteStudy "postgresql://@/optuna_db" "study1";
        StudyDataset.EvCopyStudy "tmp" "sqlite:///tmp.db" "postgresql://@/optuna_db" "study1"],
     Ok tt).
Proof.
  intros self study.
  apply (save_replaces_listed_study Demo.study_api self study ["study1"]
           (Demo.start ∅ Demo.one_study)); [reflexivity|discriminate|reflexivity|by left].
Defined.

(** Without versioning, on a backend other than sqlite, saving a study that
    the storage does not list copies it and deletes nothing. *)
Theorem save_copies_unlisted_study {W obj url : Type}
    (api : StudyDataset.collaborators W obj url)
    (self : StudyDataset.t) (study : Optuna.Study) (study_names : list string)
    (s : state W StudyDataset.event) :
  StudyDataset._version self = None →
  StudyDataset._backend self ≠ "sqlite" →
  StudyDataset.get_all_study_names api (wd s) (StudyDataset._storage self) = Ok study_names →
  StudyDataset._study_name self ∉ study_names →
  let storage := StudyDataset._storage self in
  let name := StudyDataset._study_name self in
  let copied := StudyDataset.copy_study api (wd s) (Optuna.study_name study)
                  (Optuna._storage study) storage name in
  StudyDataset.save api self study s
  = (mkState (hp s) copied.1
       (tr s ++ [StudyDataset.EvGetAllStudyNames storage;
                 StudyDataset.EvCopyStudy (Optuna.study_name study)
                   (Optuna._storage study) storage name]),
     copied.2).
Proof.
  intros Hv Hb Hn Hin storage name copied.
  unfold StudyDataset.save, StudyDataset._get_save_study_name. rewrite Hv.
  unfold Eff.bind at 1. cbn [Eff.ret].
  unfold Eff.bind at 1. rewrite bool_decide_eq_false_2 by done. cbn [Eff.ret].
  unfold Eff.bind at 1. rewrite (exists_elsewhere api self _ s Hb), Hn.
  rewrite bool_decide_eq_false_2 by done.
  unfold Eff.bind, Eff.call. cbn [hp wd tr Eff.ret].
  subst copied storage name.
  destruct (StudyDataset.copy_study api (wd s) _ _ _ _) as [w2 r2]. cbn [fst snd].
  by rewrite <- !app_assoc.
Qed.

Lemma save_copies_unlisted_study_witness :
  let self := Demo.study1 None VNone in
  let study := {| Optuna.study_name := "tmp"; Optuna._storage := "sqlite:///tmp.db" |} in
  StudyDataset.save Demo.study_api self study (Demo.start ∅ Demo.empty_world)
  = (mkState ∅ (Demo.remember Demo.empty_world "study1")
       [StudyDataset.EvGetAllStudyNames "postgresql://@/optuna_db";
        StudyDataset.EvCopyStudy "tmp" "sqlite:///tmp.db" "postgresql://@/optuna_db" "study1"],
     Ok tt).
Proof.
  intros self study.
  apply (save_copies_unlisted_study Demo.study_api self study []
           (Demo.start ∅ Demo.empty_world));
    [reflexivity|discriminate|reflexivity|apply not_elem_of_nil].
Defined.

(** With versioning on and a backend other than sqlite, a save whose name
    resolution succeeds never deletes: the second existence check sees the
    world the first one saw, so after it only the copy is made, into the
    versioned name. *)
Theorem versioned_save_never_deletes {W obj url : Type}
    (api : StudyDataset.collaborators W obj url)
    (self : StudyDataset.t) (study : Optuna.Study) (v : Kedro.Version)
    (name : string) (s s1 : state W StudyDataset.event) :
  StudyDataset._version self = Some v →
  StudyDataset._backend self ≠ "sqlite" →
  StudyDataset._get_save_study_name api self s = (s1, Ok name) →
  let storage := StudyDataset._storage self in
  let copied := StudyDataset.copy_study api (wd s) (Optuna.study_name study)
                  (Optuna._storage study) storage name in
  StudyDataset.save api self study s
  = (mkState (hp s) copied.1
       (tr s1 ++ [StudyDataset.EvGetAllStudyNames storage;
                  StudyDataset.EvCopyStudy (Optuna.study_name study)
                    (Optuna._storage study) storage name]),
     copied.2).
Proof.
  intros Hv Hb Hname storage copied.
  assert (Hs1 : hp s1 = hp s ∧ wd s1 = wd s
                ∧ ∃ names, StudyDataset.get_all_study_names api (wd s) storage = Ok names
                           ∧ name ∉ names).
  { revert Hname. unfold StudyDataset._get_save_study_name. rewrite Hv.
    unfold Eff.bind at 1.
    destruct (StudyDataset.resolve_save_version api self s) as [sa [sv|e]] eqn:Er;
      [|discriminate].
    destruct (resolve_save_version_reads_only api self _ _ _ Er) as (Hh & Hw & _).
    unfold Eff.bind at 1. destruct sv as [sv|]; [|discriminate].
    cbn [StudyDataset.versioned_or_type_error Eff.ret].
    unfold Eff.bind. rewrite (exists_elsewhere api self _ sa Hb). rewrite Hw.
    destruct (StudyDataset.get_all_study_names api (wd s) (StudyDataset._storage self))
      as [names|e] eqn:En; [|discriminate].
    case_bool_decide as Hin; [discriminate|].
    cbn [Eff.ret]. intros [= <- <-]. cbn [hp wd]. split_and!; [done..|].
    by exists names. }
  destruct Hs1 as (Hh & Hw & names & Hn & Hin).
  unfold StudyDataset.save. unfold Eff.bind at 1. rewrite Hname.
  unfold Eff.bind at 1. rewrite bool_decide_eq_false_2 by done. cbn [Eff.ret].
  unfold Eff.bind at 1. rewrite (exists_elsewhere api self _ s1 Hb), Hw. fold storage.
  rewrite Hn. rewrite bool_decide_eq_false_2 by done.
  unfold Eff.bind, Eff.call. cbn [hp wd tr Eff.ret]. rewrite ?Hw, ?Hh.
  subst copied. destruct (StudyDataset.copy_study api (wd s) _ _ _ _) as [w2 r2].
  cbn [fst snd]. by rewrite <- !app_assoc.
Qed.

Lemma versioned_save_never_deletes_witness :
  let v := Kedro.mkVersion None (Some "2024-01-01T00.00.00") in
  let self := Demo.study1 (Some v) VNone in
  let study := {| Optuna.study_name := "tmp"; Optuna._storage := "sqlite:///tmp.db" |} in
  StudyDataset.save Demo.study_api self study (Demo.start ∅ Demo.one_study)
  = (mkState ∅ (Demo.remember Demo.one_study "study1/2024-01-01T00.00.00/study1")
       [StudyDataset.EvGetAllStudyNames "postgresql://@/optuna_db";
        StudyDataset.EvGetAllStudyNames "postgresql://@/optuna_db";
        StudyDataset.EvCopyStudy "tmp" "sqlite:///tmp.db" "postgresql://@/optuna_db"
          "study1/2024-01-01T00.00.00/study1"],
     Ok tt).
Proof.
  intros v self study.
  apply (versioned_save_never_deletes Demo.study_api self study v
           "study1/2024-01-01T00.00.00/study1" (Demo.start ∅ Demo.one_study)
           (mkState ∅ Demo.one_study [StudyDataset.EvGetAllStudyNames "postgresql://@/optuna_db"]));
    [reflexivity|discriminate|reflexivity].
Defined.

(** On the sqlite backend without versioning, [save] first makes the
    directory of the database file. If that raises, nothing else happens.
    If the file is then missing, an empty store is created before any
    existence check, deletion or copy; if the file is there, no store is
    ever created. *)
Theorem sqlite_save_prepares_the_store {W obj url : Type}
    (api : StudyDataset.collaborators W obj url)
    (self : StudyDataset.t) (study : Optuna.Study) (p : Posix.PurePosixPath)
    (s : state W StudyDataset.event) :
  StudyDataset._version self = None →
  StudyDataset._backend self = "sqlite" →
  StudyDataset._filepath self = Some p →
  let fp := Posix.str p in
  let made := StudyDataset.makedirs api (wd s) (Posix.dirname fp) in
  (∀ e, made.2 = Raise e →
     StudyDataset.save api self study s
     = (mkState (hp s) made.1 (tr s ++ [StudyDataset.EvMakedirs (Posix.dirname fp)]), Raise e))
  ∧ (made.2 = Ok tt → StudyDataset.isfile api made.1 fp = Ok false →
     ∃ evs, tr (StudyDataset.save api self study s).1
            = tr s ++ StudyDataset.EvMakedirs (Posix.dirname fp)
                   :: StudyDataset.EvIsfile fp
                   :: StudyDataset.EvCreateStudy (StudyDataset._storage self) :: evs)
  ∧ (made.2 = Ok tt → StudyDataset.isfile api made.1 fp = Ok true →
     ∃ evs, tr (StudyDataset.save api self study s).1
            = tr s ++ StudyDataset.EvMakedirs (Posix.dirname fp)
                   :: StudyDataset.EvIsfile fp :: evs
            ∧ Forall (λ ev, ∀ st, ev ≠ StudyDataset.EvCreateStudy st) evs).
Proof.
  intros Hv Hb Hp fp made.
  destruct (StudyDataset.save api self study s) as [s' r] eqn:Esave. cbn [fst snd].
  revert Esave.
  unfold StudyDataset.save, StudyDataset._get_save_study_name. rewrite Hv.
  unfold Eff.bind at 1. cbn [Eff.ret].
  rewrite Hb, Hp. rewrite bool_decide_eq_true_2 by done.
  unfold Eff.bind at 1. unfold Eff.bind at 1. unfold Eff.bind at 1.
  cbn [StudyDataset.fspath Eff.ret]. unfold Eff.bind at 1. unfold Eff.call at 1.
  fold fp. fold made. destruct made as [w1 [[]|e]]; cbn [fst snd hp wd tr].
  - intros Esave. split; [intros ? [=]|]. split.
    + intros _ Hf. revert Esave.
      unfold Eff.bind at 1. unfold Eff.query at 1. cbn [hp wd tr]. rewrite Hf.
      cbn [negb]. unfold Eff.call at 1. cbn [hp wd tr].
      destruct (StudyDataset.create_study api w1 (StudyDataset._storage self)) as [w2 [[]|e]].
      * intros Etail.
        destruct (emits_save_tail api (λ _, True) self study _
                    ltac:(done) ltac:(done) ltac:(done) ltac:(done) _ _ _ Etail)
          as (evs & Ht & _).
        exists evs. rewrite Ht. cbn [tr]. by rewrite <- !app_assoc.
      * intros [= <- <-]. exists []. cbn [tr]. by rewrite <- !app_assoc.
    + intros _ Hf. revert Esave.
      unfold Eff.bind at 1. unfold Eff.query at 1. cbn [hp wd tr]. rewrite Hf.
      cbn [negb Eff.ret]. intros Etail.
      destruct (emits_save_tail api (λ ev, ∀ st, ev ≠ StudyDataset.EvCreateStudy st)
                  self study _ ltac:(done) ltac:(done) ltac:(done) ltac:(done) _ _ _ Etail)
        as (evs & Ht & Hall).
      exists evs. split; [|done]. rewrite Ht. cbn [tr]. by rewrite <- !app_assoc.
  - intros [= <- <-]. split; [by intros ? [= ->]|]. split; intros [=].
Qed.

Lemma sqlite_save_prepares_the_store_witness :
  let self := {|
    StudyDataset._backend := "sqlite";
    StudyDataset._database := "data/study.db";
    StudyDataset._storage := "sqlite:///data/study.db";
    StudyDataset._study_name := "study1";
    StudyDataset.metadata := VNone;
    StudyDataset._filepath := Some (Posix.of_str "/project/data/study.db");
    StudyDataset._version := None;
    StudyDataset._load_args := VNone |} in
  let study := {| Optuna.study_name := "tmp"; Optuna._storage := "sqlite:///tmp.db" |} in
  ∃ evs, tr (StudyDataset.save Demo.study_api self study (Demo.start ∅ Demo.empty_world)).1
         = [] ++ StudyDataset.EvMakedirs "/project/data"
                :: StudyDataset.EvIsfile "/project/data/study.db"
                :: StudyDataset.EvCreateStudy "sqlite:///data/study.db" :: evs.
Proof.
  intros self study.
  apply (proj1 (proj2 (sqlite_save_prepares_the_store Demo.study_api self study
                  (Posix.of_str "/project/data/study.db") (Demo.start ∅ Demo.empty_world)
                  eq_refl eq_refl eq_refl))); reflexivity.
Defined.

(** * Further properties of the darts model dataset *)

(** ** Loading *)

(** Without a [load_method] entry the model is loaded with the class's
    [load]: the load path is resolved first and, when that raises, no
    loader is called; otherwise [load] is called once on the path, with all
    the load arguments as keyword arguments, and its outcome is returned. *)
Theorem load_defaults_to_load {W model : Type}
    (api : DartsTorchModelDataset.collaborators W model)
    (self : DartsTorchModelDataset.t) (s : state W DartsTorchModelDataset.event) :
  DartsTorchModelDataset._load_args self !! "load_method" = None →
  DartsTorchModelDataset.load api self s
  = match DartsTorchModelDataset._get_load_path api self (wd s) with
    | Ok raw_path =>
        let load_path :=
          Kedro.get_filepath_str raw_path (DartsTorchModelDataset._protocol self) in
        let kw := DartsTorchModelDataset._load_args self in
        (mkState (hp s) (wd s)
           (tr s ++ [DartsTorchModelDataset.EvGetLoadPath;
                     DartsTorchModelDataset.EvLoad load_path kw]),
         DartsTorchModelDataset.model_load api (DartsTorchModelDataset.model_class self)
           (wd s) load_path kw)
    | Raise e =>
        (mkState (hp s) (wd s) (tr s ++ [DartsTorchModelDataset.EvGetLoadPath]), Raise e)
    end.
Proof.
  intros Hn. unfold DartsTorchModelDataset.load, Py.pop_default.
  rewrite Hn. cbn [default]. rewrite bool_decide_eq_true_2 by done.
  rewrite (delete_id _ _ Hn).
  unfold Eff.bind, Eff.query. cbn [hp wd tr].
  destruct (DartsTorchModelDataset._get_load_path api self (wd s)); [|done].
  cbn [hp wd tr]. by rewrite <- app_assoc.
Qed.

Lemma load_defaults_to_load_witness :
  let self := Demo.darts_model {[ "map_location" := VStr "cpu" ]} ∅ in
  let w := Demo.touch Demo.empty_world "data/06_models/darts_model.pt" in
  DartsTorchModelDataset.load Demo.darts_api self (Demo.darts_start w)
  = (mkState ∅ w
       [DartsTorchModelDataset.EvGetLoadPath;
        DartsTorchModelDataset.EvLoad "data/06_models/darts_model.pt"
          {[ "map_location" := VStr "cpu" ]}],
     Ok "RNNModel").
Proof.
  intros self w.
  apply (load_defaults_to_load Demo.darts_api self (Demo.darts_start w)). reflexivity.
Defined.

(** A [load_method] that is none of the four known names is rejected with
    a [ValueError] that shows it, in the state [load] was called in. *)
Theorem load_rejects_unknown_method {W model : Type}
    (api : DartsTorchModelDataset.collaborators W model)
    (self : DartsTorchModelDataset.t) (s : state W DartsTorchModelDataset.event)
    (method : value) :
  DartsTorchModelDataset._load_args self !! "load_method" = Some method →
  method ≠ VStr "load" →
  method ≠ VStr "load_from_checkpoint" →
  method ≠ VStr "load_weights" →
  method ≠ VStr "load_weights_from_checkpoint" →
  DartsTorchModelDataset.load api self s
  = (s, Raise (ValueError ("Unknown load method: "
                           +:+ DartsTorchModelDataset.py_str api (hp s) method))).
Proof.
  intros Hm H1 H2 H3 H4. unfold DartsTorchModelDataset.load, Py.pop_default.
  rewrite Hm. cbn [default]. by rewrite !bool_decide_eq_false_2 by done.
Qed.

Lemma load_rejects_unknown_method_witness :
  let self := Demo.darts_model {[ "load_method" := VStr "load_model" ]} ∅ in
  let s := Demo.darts_start Demo.empty_world in
  DartsTorchModelDataset.load Demo.darts_api self s
  = (s, Raise (ValueError "Unknown load method: load_model")).
Proof.
  intros self s.
  apply (load_rejects_unknown_method Demo.darts_api self s (VStr "load_model"));
    [reflexivity|discriminate..].
Defined.

(** The two checkpoint methods never resolve the dataset's path. With a
    model name that is not [None] the class's checkpoint loader is the one
    call made, and it gets the model name and the load arguments without
    [load_method] and [model_name]; a model name given as [None] is
    rejected like a missing one. *)
Theorem checkpoint_load_ignores_the_path {W model : Type}
    (api : DartsTorchModelDataset.collaborators W model)
    (self : DartsTorchModelDataset.t) (s : state W DartsTorchModelDataset.event)
    (model_name : value) :
  DartsTorchModelDataset._load_args self !! "model_name" = Some model_name →
  let kw := delete "model_name" (delete "load_method" (DartsTorchModelDataset._load_args self)) in
  let cls := DartsTorchModelDataset.model_class self in
  kw !! "load_method" = None ∧ kw !! "model_name" = None
  ∧ (DartsTorchModelDataset._load_args self !! "load_method"
     = Some (VStr "load_from_checkpoint") →
     DartsTorchModelDataset.load api self s
     = if bool_decide (model_name = VNone)
       then (s, Raise (ValueError
               "model_name must be provided for 'load_from_checkpoint' method"))
       else (mkState (hp s) (wd s)
               (tr s ++ [DartsTorchModelDataset.EvLoadFromCheckpoint model_name kw]),
             DartsTorchModelDataset.model_load_from_checkpoint api cls (wd s) model_name kw))
  ∧ (DartsTorchModelDataset._load_args self !! "load_method"
     = Some (VStr "load_weights_from_checkpoint") →
     DartsTorchModelDataset.load api self s
     = if bool_decide (model_name = VNone)
       then (s, Raise (ValueError
               "model_name must be provided for 'load_weights_from_checkpoint' method"))
       else (mkState (hp s) (wd s)
               (tr s ++ [DartsTorchModelDataset.EvLoadWeightsFromCheckpoint model_name kw]),
             DartsTorchModelDataset.model_load_weights_from_checkpoint api cls (wd s)
               model_name kw)).
Proof.
  intros Hn kw cls. split_and!.
  - subst kw. rewrite lookup_delete_ne by done. apply lookup_delete_eq.
  - apply lookup_delete_eq.
  - intros Hm. unfold DartsTorchModelDataset.load, Py.pop_default.
    rewrite Hm. cbn [default].
    rewrite bool_decide_eq_false_2 by done. rewrite bool_decide_eq_true_2 by done.
    rewrite lookup_delete_ne by done. rewrite Hn. cbn [default]. unfold id.
    by case_bool_decide.
  - intros Hm. unfold DartsTorchModelDataset.load, Py.pop_default.
    rewrite Hm. cbn [default].
    rewrite !bool_decide_eq_false_2 by done. rewrite bool_decide_eq_true_2 by done.
    rewrite lookup_delete_ne by done. rewrite Hn. cbn [default]. unfold id.
    by case_bool_decide.
Qed.

Lemma checkpoint_load_ignores_the_path_witness :
  let self := Demo.darts_model
    {[ "load_method" := VStr "load_from_checkpoint"; "model_name" := VStr "rnn";
       "best" := VBool true ]} ∅ in
  let s := Demo.darts_start Demo.empty_world in
  DartsTorchModelDataset.load Demo.darts_api self s
  = (mkState ∅ Demo.empty_world
       [DartsTorchModelDataset.EvLoadFromCheckpoint (VStr "rnn") {[ "best" := VBool true ]}],
     Ok "RNNModel").
Proof.
  intros self s.
  apply (proj1 (proj2 (proj2 (checkpoint_load_ignores_the_path Demo.darts_api self s
                  (VStr "rnn") eq_refl)))). reflexivity.
Defined.

(** ** Saving *)

(** Any [save_model] value that Python takes for false ([False], [None],
    zero, the empty string, an empty dictionary) turns [save] into a no-op:
    it returns in the state it was called in. *)
Theorem falsy_save_model_skips_save {W model : Type}
    (api : DartsTorchModelDataset.collaborators W model)
    (self : DartsTorchModelDataset.t) (data : model)
    (s : state W DartsTorchModelDataset.event) (flag : value) :
  DartsTorchModelDataset._save_args self !! "save_model" = Some flag →
  Py.truthy (hp s) flag = false →
  DartsTorchModelDataset.save api self data s = (s, Ok tt).
Proof.
  intros Hf Ht. unfold DartsTorchModelDataset.save, Py.pop_default, Eff.bind, Eff.read_heap.
  rewrite Hf. cbn [default]. unfold id. by rewrite Ht.
Qed.

Lemma falsy_save_model_skips_save_witness :
  let self := Demo.darts_model ∅ {[ "save_model" := VInt 0 ]} in
  let s := Demo.darts_start Demo.empty_world in
  DartsTorchModelDataset.save Demo.darts_api self "RNNModel" s = (s, Ok tt).
Proof.
  intros self s.
  apply (falsy_save_model_skips_save Demo.darts_api self "RNNModel" s (VInt 0));
    reflexivity.
Defined.

(** When [save] does save (the flag is absent or true in Python's sense),
    it works in a fixed order and stops at the first failure: the save path
    is resolved; then the directory of the path is made; then the model's
    [save] is called on the path with the save arguments without
    [save_model]. A failed path resolution makes no directory, and a failed
    [makedirs] leaves the model unsaved. *)
Theorem save_runs_in_order {W model : Type}
    (api : DartsTorchModelDataset.collaborators W model)
    (self : DartsTorchModelDataset.t) (data : model)
    (s : state W DartsTorchModelDataset.event) :
  Py.truthy (hp s)
    (default (VBool true) (DartsTorchModelDataset._save_args self !! "save_model")) = true →
  let kw := delete "save_model" (DartsTorchModelDataset._save_args self) in
  kw !! "save_model" = None
  ∧ DartsTorchModelDataset.save api self data s
    = match DartsTorchModelDataset._get_save_path api self (wd s) with
      | Raise e =>
          (mkState (hp s) (wd s) (tr s ++ [DartsTorchModelDataset.EvGetSavePath]), Raise e)
      | Ok raw_path =>
          let dir := Posix.dirname (Posix.str raw_path) in
          let save_path :=
            Kedro.get_filepath_str raw_path (DartsTorchModelDataset._protocol self) in
          let made := DartsTorchModelDataset.makedirs api (wd s) dir in
          match made.2 with
          | Raise e =>
              (mkState (hp s) made.1
                 (tr s ++ [DartsTorchModelDataset.EvGetSavePath;
                           DartsTorchModelDataset.EvMakedirs dir]), Raise e)
          | Ok _ =>
              let saved := DartsTorchModelDataset.model_save api data made.1 save_path kw in
              (mkState (hp s) saved.1
                 (tr s ++ [DartsTorchModelDataset.EvGetSavePath;
                           DartsTorchModelDataset.EvMakedirs dir;
                           DartsTorchModelDataset.EvSave save_path kw]),
               saved.2)
          end
      end.
Proof.
  intros Ht kw. split; [apply lookup_delete_eq|].
  unfold DartsTorchModelDataset.save, Py.pop_default.
  unfold Eff.bind at 1. unfold Eff.read_heap. rewrite Ht.
  unfold Eff.bind, Eff.query, Eff.call. cbn [hp wd tr]. fold kw.
  destruct (DartsTorchModelDataset._get_save_path api self (wd s)) as [raw|e]; [|done].
  cbn [hp wd tr].
  destruct (DartsTorchModelDataset.makedirs api (wd s) _) as [w1 [[]|e]];
    cbn [fst snd hp wd tr].
  - destruct (DartsTorchModelDataset.model_save api data w1 _ kw) as [w2 r].
    cbn [fst snd]. by rewrite <- !app_assoc.
  - by rewrite <- !app_assoc.
Qed.

Lemma save_runs_in_order_witness :
  let bare := {|
    DartsTorchModelDataset._protocol := "file";
    DartsTorchModelDataset._filepath := Posix.of_str "model.pt";
    DartsTorchModelDataset._version := None;
    DartsTorchModelDataset.model_class := "RNNModel";
    DartsTorchModelDataset._load_args := ∅;
    DartsTorchModelDataset._save_args := {[ "save_model" := VBool true ]};
    DartsTorchModelDataset.metadata := VNone |} in
  DartsTorchModelDataset.save Demo.darts_api bare "RNNModel" (Demo.darts_start Demo.empty_world)
  = (mkState ∅ Demo.empty_world
       [DartsTorchModelDataset.EvGetSavePath; DartsTorchModelDataset.EvMakedirs EmptyString],
     Raise (OSError "No such file or directory")).
Proof.
  intros bare.
  apply (proj2 (save_runs_in_order Demo.darts_api bare "RNNModel"
                  (Demo.darts_start Demo.empty_world) eq_refl)).
Defined.

(** ** Construction *)

Section more_construction.
Import DartsTorchModelDataset.
Context {W fs : Type} (lib : init_collaborators W fs).

Lemma darts_init_spec (filepath : string) (model_class_given : model_class_arg)
    (load_args save_args : option (gmap string value)) (version : option Kedro.Version)
    (credentials fs_args : option (gmap string value)) (metadata : value)
    (s s' : state W init_event) (inst : instance fs) :
  __init__ lib filepath model_class_given load_args save_args version credentials fs_args
    metadata s = (s', Ok inst) →
  ∃ protocol path options,
    get_protocol_and_path lib filepath version = Ok (protocol, path)
    ∧ storage_options (copy_or_empty credentials)
        (if bool_decide (protocol = "file")
         then setdefault (copy_or_empty fs_args) "auto_mkdir" (VBool true)
         else copy_or_empty fs_args) = Ok options
    ∧ filesystem lib (wd s) protocol options = Ok (_fs inst)
    ∧ resolve_model_class lib model_class_given = Ok (model_class (attributes inst))
    ∧ tr s' = tr s ++ [EvGetProtocolAndPath filepath; EvFilesystem protocol options]
    ∧ _protocol (attributes inst) = protocol
    ∧ _filepath (attributes inst) = Posix.of_str path
    ∧ _load_args (attributes inst) = copy_or_empty load_args
    ∧ _save_args (attributes inst) = copy_or_empty save_args.
Proof.
  unfold __init__, Eff.bind, Eff.query, Eff.lift, Eff.ret. cbn [hp wd tr].
  destruct (get_protocol_and_path lib filepath version) as [[protocol path]|e];
    [|discriminate].
  cbn [fst snd].
  destruct (storage_options _ _) as [options|e] eqn:Eo; [|discriminate].
  cbn [hp wd tr].
  destruct (filesystem lib (wd s) protocol options) as [the_fs|e] eqn:Ef; [|discriminate].
  destruct (resolve_model_class lib model_class_given) as [cls|e] eqn:Ec; [|discriminate].
  intros [= <- <-]. exists protocol, path, options.
  cbn [attributes _fs _protocol _filepath _load_args _save_args model_class tr].
  unfold DEFAULT_LOAD_ARGS, DEFAULT_SAVE_ARGS.
  rewrite <- app_assoc, !(right_id_L ∅ (∪)). by split_and!.
Qed.

End more_construction.

(** For a local path (protocol [file]) the filesystem is made with
    [auto_mkdir] switched on unless the filesystem arguments say otherwise:
    a value given for [auto_mkdir] is passed on as it is. *)
Theorem local_filesystem_makes_directories {W fs : Type}
    (lib : DartsTorchModelDataset.init_collaborators W fs)
    (filepath : string) (model_class_given : DartsTorchModelDataset.model_class_arg)
    (load_args save_args : option (gmap string value)) (version : option Kedro.Version)
    (credentials fs_args : option (gmap string value)) (metadata : value)
    (s s' : state W DartsTorchModelDataset.init_event)
    (inst : DartsTorchModelDataset.instance fs) (path : string) :
  DartsTorchModelDataset.get_protocol_and_path lib filepath version = Ok ("file", path) →
  DartsTorchModelDataset.__init__ lib filepath model_class_given load_args save_args version
    credentials fs_args metadata s = (s', Ok inst) →
  ∃ options,
    tr s' = tr s ++ [DartsTorchModelDataset.EvGetProtocolAndPath filepath;
                     DartsTorchModelDataset.EvFilesystem "file" options]
    ∧ options !! "auto_mkdir"
      = Some (default (VBool true)
                (DartsTorchModelDataset.copy_or_empty fs_args !! "auto_mkdir")).
Proof.
  intros Hp Hinit.
  destruct (darts_init_spec lib _ _ _ _ _ _ _ _ _ _ _ Hinit)
    as (protocol & path' & options & Hp' & Ho & _ & _ & Ht & _).
  rewrite Hp in Hp'. injection Hp' as <- <-.
  exists options. split; [done|].
  rewrite (bool_decide_eq_true_2 ("file" = "file")) in Ho by done.
  revert Ho. unfold DartsTorchModelDataset.storage_options.
  case_bool_decide as Hdisj; [|discriminate]. cbn [negb].
  case_bool_decide; [discriminate|]. intros [= <-].
  assert (Hset : DartsTorchModelDataset.setdefault
                   (DartsTorchModelDataset.copy_or_empty fs_args) "auto_mkdir" (VBool true)
                 !! "auto_mkdir"
                 = Some (default (VBool true)
                           (DartsTorchModelDataset.copy_or_empty fs_args !! "auto_mkdir"))).
  { unfold DartsTorchModelDataset.setdefault.
    destruct (DartsTorchModelDataset.copy_or_empty fs_args !! "auto_mkdir") as [x|] eqn:E.
    - by rewrite E.
    - by rewrite lookup_insert_eq. }
  rewrite lookup_union_r; [done|].
  eapply map_disjoint_Some_r; [exact Hdisj|exact Hset].
Qed.

Lemma local_filesystem_makes_directories_witness :
  let options : gmap string value := {[ "auto_mkdir" := VBool true ]} in
  let s' : state Demo.world DartsTorchModelDataset.init_event :=
    mkState ∅ Demo.empty_world
      [DartsTorchModelDataset.EvGetProtocolAndPath "data/06_models/darts_model.pt";
       DartsTorchModelDataset.EvFilesystem "file" options] in
  ∃ options',
    tr s' = [] ++ [DartsTorchModelDataset.EvGetProtocolAndPath "data/06_models/darts_model.pt";
                   DartsTorchModelDataset.EvFilesystem "file" options']
    ∧ options' !! "auto_mkdir" = Some (VBool true).
Proof.
  intros options s'.
  apply (local_filesystem_makes_directories Demo.darts_lib "data/06_models/darts_model.pt"
           (DartsTorchModelDataset.ByName "RNNModel") None None None None None VNone
           (Demo.darts_init_start Demo.empty_world) s'
           {| DartsTorchModelDataset.attributes := Demo.darts_model ∅ ∅;
              DartsTorchModelDataset._fs := ("file", options) |}
           "data/06_models/darts_model.pt"); reflexivity.
Defined.

(** A key given both in the credentials and in the filesystem arguments
    makes the constructor fail with a [TypeError] before any filesystem is
    made. *)
Theorem clashing_filesystem_arguments {W fs : Type}
    (lib : DartsTorchModelDataset.init_collaborators W fs)
    (filepath : string) (model_class_given : DartsTorchModelDataset.model_class_arg)
    (load_args save_args : option (gmap string value)) (version : option Kedro.Version)
    (credentials fs_args : gmap string value) (metadata : value)
    (s : state W DartsTorchModelDataset.init_event)
    (protocol path k : string) :
  DartsTorchModelDataset.get_protocol_and_path lib filepath version = Ok (protocol, path) →
  is_Some (credentials !! k) → is_Some (fs_args !! k) →
  DartsTorchModelDataset.__init__ lib filepath model_class_given load_args save_args version
    (Some credentials) (Some fs_args) metadata s
  = (mkState (hp s) (wd s) (tr s ++ [DartsTorchModelDataset.EvGetProtocolAndPath filepath]),
     Raise (TypeError "got multiple values for keyword argument")).
Proof.
  intros Hp [x Hx] [y Hy].
  unfold DartsTorchModelDataset.__init__, Eff.bind, Eff.query, Eff.lift. cbn [hp wd tr].
  rewrite Hp. cbn [fst snd DartsTorchModelDataset.copy_or_empty default].
  unfold DartsTorchModelDataset.storage_options.
  rewrite bool_decide_eq_false_2; [done|].
  intros Hdisj.
  assert (is_Some ((if bool_decide (protocol = "file")
                    then DartsTorchModelDataset.setdefault (id fs_args) "auto_mkdir" (VBool true)
                    else id fs_args) !! k)) as [z Hz].
  { case_bool_decide; [|by eexists].
    unfold DartsTorchModelDataset.setdefault, id.
    destruct (fs_args !! "auto_mkdir"); [by eexists|].
    destruct (decide (k = "auto_mkdir")) as [->|Hne].
    - rewrite lookup_insert_eq. by eexists.
    - rewrite lookup_insert_ne by done. by eexists. }
  exact (proj1 (map_disjoint_spec _ _) Hdisj k x z Hx Hz).
Qed.

Lemma clashing_filesystem_arguments_witness :
  DartsTorchModelDataset.__init__ Demo.darts_lib "model.pt"
    (DartsTorchModelDataset.ByName "RNNModel") None None None
    (Some {[ "token" := VStr "a" ]}) (Some {[ "token" := VStr "b" ]}) VNone
    (Demo.darts_init_start Demo.empty_world)
  = (mkState ∅ Demo.empty_world [DartsTorchModelDataset.EvGetProtocolAndPath "model.pt"],
     Raise (TypeError "got multiple values for keyword argument")).
Proof.
  apply (clashing_filesystem_arguments Demo.darts_lib "model.pt"
           (DartsTorchModelDataset.ByName "RNNModel") None None None
           {[ "token" := VStr "a" ]} {[ "token" := VStr "b" ]} VNone
           (Demo.darts_init_start Demo.empty_world) "file" "model.pt" "token");
    [reflexivity|by eexists|by eexists].
Defined.

(** A constructed dataset always has a usable model class: the one found
    in [darts.models] under the given name, or the given class when it is
    a subclass of [TorchForecastingModel]; an unknown name, another class
    or any other object is never accepted. *)
Theorem constructed_model_class_is_valid {W fs : Type}
    (lib : DartsTorchModelDataset.init_collaborators W fs)
    (filepath : string) (model_class_given : DartsTorchModelDataset.model_class_arg)
    (load_args save_args : option (gmap string value)) (version : option Kedro.Version)
    (credentials fs_args : option (gmap string value)) (metadata : value)
    (s s' : state W DartsTorchModelDataset.init_event)
    (inst : DartsTorchModelDataset.instance fs) :
  DartsTorchModelDataset.__init__ lib filepath model_class_given load_args save_args version
    credentials fs_args metadata s = (s', Ok inst) →
  let cls := DartsTorchModelDataset.model_class (DartsTorchModelDataset.attributes inst) in
  match model_class_given with
  | DartsTorchModelDataset.ByName name => DartsTorchModelDataset.models lib !! name = Some cls
  | DartsTorchModelDataset.ByClass c torch => torch = true ∧ cls = c
  | DartsTorchModelDataset.NotAClass => False
  end.
Proof.
  intros Hinit cls.
  destruct (darts_init_spec lib _ _ _ _ _ _ _ _ _ _ _ Hinit)
    as (protocol & path & options & _ & _ & _ & Hc & _).
  fold cls in Hc. revert Hc. unfold DartsTorchModelDataset.resolve_model_class.
  destruct model_class_given as [name|c [|]|]; try discriminate.
  - destruct (DartsTorchModelDataset.models lib !! name); [|discriminate]. by intros [= ->].
  - by intros [= ->].
Qed.

Lemma constructed_model_class_is_valid_witness :
  DartsTorchModelDataset.models Demo.darts_lib !! "RNNModel" = Some "RNNModel".
Proof.
  apply (constructed_model_class_is_valid Demo.darts_lib "data/06_models/darts_model.pt"
           (DartsTorchModelDataset.ByName "RNNModel") None None None None None VNone
           (Demo.darts_init_start Demo.empty_world)
           (mkState ∅ Demo.empty_world
              [DartsTorchModelDataset.EvGetProtocolAndPath "data/06_models/darts_model.pt";
               DartsTorchModelDataset.EvFilesystem "file" {[ "auto_mkdir" := VBool true ]}])
           {| DartsTorchModelDataset.attributes := Demo.darts_model ∅ ∅;
              DartsTorchModelDataset._fs := ("file", {[ "auto_mkdir" := VBool true ]}) |}).
  reflexivity.
Defined.

(** An unknown model class name makes the constructor fail with the
    [ValueError] that names it; by then the filesystem has been made. *)
Theorem unknown_model_class_name {W fs : Type}
    (lib : DartsTorchModelDataset.init_collaborators W fs)
    (filepath name : string)
    (load_args save_args : option (gmap string value)) (version : option Kedro.Version)
    (credentials fs_args : option (gmap string value)) (metadata : value)
    (s : state W DartsTorchModelDataset.init_event)
    (protocol path : string) (options : gmap string value) (the_fs : fs) :
  DartsTorchModelDataset.models lib !! name = None →
  DartsTorchModelDataset.get_protocol_and_path lib filepath version = Ok (protocol, path) →
  DartsTorchModelDataset.storage_options (DartsTorchModelDataset.copy_or_empty credentials)
    (if bool_decide (protocol = "file")
     then DartsTorchModelDataset.setdefault (DartsTorchModelDataset.copy_or_empty fs_args)
            "auto_mkdir" (VBool true)
     else DartsTorchModelDataset.copy_or_empty fs_args) = Ok options →
  DartsTorchModelDataset.filesystem lib (wd s) protocol options = Ok the_fs →
  DartsTorchModelDataset.__init__ lib filepath (DartsTorchModelDataset.ByName name)
    load_args save_args version credentials fs_args metadata s
  = (mkState (hp s) (wd s)
       (tr s ++ [DartsTorchModelDataset.EvGetProtocolAndPath filepath;
                 DartsTorchModelDataset.EvFilesystem protocol options]),
     Raise (ValueError ("Model class '" +:+ name +:+ "' not found in darts.models."))).
Proof.
  intros Hm Hp Ho Hf.
  unfold DartsTorchModelDataset.__init__, Eff.bind, Eff.query, Eff.lift. cbn [hp wd tr].
  rewrite Hp. cbn [fst snd]. rewrite Ho. cbn [hp wd tr]. rewrite Hf.
  unfold DartsTorchModelDataset.resolve_model_class. rewrite Hm.
  by rewrite <- app_assoc.
Qed.

Lemma unknown_model_class_name_witness :
  DartsTorchModelDataset.__init__ Demo.darts_lib "model.pt"
    (DartsTorchModelDataset.ByName "NoSuchModel") None None None None None VNone
    (Demo.darts_init_start Demo.empty_world)
  = (mkState ∅ Demo.empty_world
       [DartsTorchModelDataset.EvGetProtocolAndPath "model.pt";
        DartsTorchModelDataset.EvFilesystem "file" {[ "auto_mkdir" := VBool true ]}],
     Raise (ValueError "Model class 'NoSuchModel' not found in darts.models.")).
Proof.
  apply (unknown_model_class_name Demo.darts_lib "model.pt" "NoSuchModel" None None None
           None None VNone (Demo.darts_init_start Demo.empty_world) "file" "model.pt"
           {[ "auto_mkdir" := VBool true ]} ("file", {[ "auto_mkdir" := VBool true ]}));
    reflexivity.
Defined.

(** Construction, saving and loading compose: a dataset constructed
    without load and save arguments saves with the default flag, that is it
    resolves the save path, makes its directory and calls the model's
    [save] on it without keyword arguments; and it loads with the class's
    [load] on the resolved load path, without keyword arguments. *)
Theorem default_darts_dataset_saves_and_loads {W W' fs model : Type}
    (lib : DartsTorchModelDataset.init_collaborators W fs)
    (api : DartsTorchModelDataset.collaborators W' model)
    (filepath : string) (model_class_given : DartsTorchModelDataset.model_class_arg)
    (version : option Kedro.Version)
    (credentials fs_args : option (gmap string value)) (metadata : value)
    (s0 s0' : state W DartsTorchModelDataset.init_event)
    (inst : DartsTorchModelDataset.instance fs)
    (data : model) (raw_path : Posix.PurePosixPath)
    (s : state W' DartsTorchModelDataset.event) :
  DartsTorchModelDataset.__init__ lib filepath model_class_given None None version
    credentials fs_args metadata s0 = (s0', Ok inst) →
  let self := DartsTorchModelDataset.attributes inst in
  (DartsTorchModelDataset._get_save_path api self (wd s) = Ok raw_path →
   let dir := Posix.dirname (Posix.str raw_path) in
   let save_path := Kedro.get_filepath_str raw_path (DartsTorchModelDataset._protocol self) in
   let made := DartsTorchModelDataset.makedirs api (wd s) dir in
   made.2 = Ok tt →
   DartsTorchModelDataset.save api self data s
   = (mkState (hp s) (DartsTorchModelDataset.model_save api data made.1 save_path ∅).1
        (tr s ++ [DartsTorchModelDataset.EvGetSavePath;
                  DartsTorchModelDataset.EvMakedirs dir;
                  DartsTorchModelDataset.EvSave save_path ∅]),
      (DartsTorchModelDataset.model_save api data made.1 save_path ∅).2))
  ∧ (DartsTorchModelDataset._get_load_path api self (wd s) = Ok raw_path →
     let load_path := Kedro.get_filepath_str raw_path (DartsTorchModelDataset._protocol self) in
     DartsTorchModelDataset.load api self s
     = (mkState (hp s) (wd s)
          (tr s ++ [DartsTorchModelDataset.EvGetLoadPath;
                    DartsTorchModelDataset.EvLoad load_path ∅]),
        DartsTorchModelDataset.model_load api (DartsTorchModelDataset.model_class self)
          (wd s) load_path ∅)).
Proof.
  intros Hinit self.
  destruct (darts_init_spec lib _ _ _ _ _ _ _ _ _ _ _ Hinit)
    as (protocol & path & options & _ & _ & _ & _ & _ & _ & _ & Hla & Hsa).
  cbn [DartsTorchModelDataset.copy_or_empty default] in Hla, Hsa. fold self in Hla, Hsa.
  split.
  - intros Hp dir save_path made Hmade.
    unfold DartsTorchModelDataset.save, Py.pop_default.
    rewrite Hsa, lookup_empty. cbn [default].
    unfold Eff.bind, Eff.read_heap, Eff.query, Eff.call. cbn [Py.truthy hp wd tr].
    rewrite Hp. cbn [hp wd tr]. fold dir. fold made.
    destruct made as [w1 r1]. cbn [snd] in Hmade. subst r1. cbn [fst snd hp wd tr].
    rewrite delete_empty. fold save_path.
    destruct (DartsTorchModelDataset.model_save api data w1 save_path ∅) as [w2 r2].
    cbn [fst snd]. by rewrite <- !app_assoc.
  - intros Hp load_path.
    unfold DartsTorchModelDataset.load, Py.pop_default.
    rewrite Hla, lookup_empty. cbn [default].
    rewrite bool_decide_eq_true_2 by done.
    unfold Eff.bind, Eff.query. cbn [hp wd tr]. rewrite Hp. cbn [hp wd tr].
    rewrite delete_empty. fold load_path. by rewrite <- app_assoc.
Qed.

Lemma default_darts_dataset_saves_and_loads_witness :
  let self := Demo.darts_model ∅ ∅ in
  let s := Demo.darts_start Demo.empty_world in
  DartsTorchModelDataset.save Demo.darts_api self "RNNModel" s
  = (mkState ∅ (Demo.touch Demo.empty_world "data/06_models/darts_model.pt")
       [DartsTorchModelDataset.EvGetSavePath;
        DartsTorchModelDataset.EvMakedirs "data/06_models";
        DartsTorchModelDataset.EvSave "data/06_models/darts_model.pt" ∅],
     Ok tt).
Proof.
  intros self s.
  apply (proj1 (default_darts_dataset_saves_and_loads Demo.darts_lib Demo.darts_api
           "data/06_models/darts_model.pt" (DartsTorchModelDataset.ByName "RNNModel")
           None None None VNone
           (Demo.darts_init_start Demo.empty_world)
           (mkState ∅ Demo.empty_world
              [DartsTorchModelDataset.EvGetProtocolAndPath "data/06_models/darts_model.pt";
               DartsTorchModelDataset.EvFilesystem "file" {[ "auto_mkdir" := VBool true ]}])
           {| DartsTorchModelDataset.attributes := self;
              DartsTorchModelDataset._fs := ("file", {[ "auto_mkdir" := VBool true ]}) |}
           "RNNModel" (Posix.of_str "data/06_models/darts_model.pt") s eq_refl));
    reflexivity.
Defined.
